(** * TaskFlow: subdepartment hierarchy, assignment lifecycle and scoring

    A shallow embedding of the parts of the TaskFlow backend that carry the
    hierarchy and assignment contracts:

    - [backend/app/routers/subdepartments.py]  (module [Hierarchy])
    - [backend/app/routers/task_assignments.py] (module [Assignments])
    - [backend/app/routers/tasks.py]            (module [Tasks])
    - [backend/app/routers/analytics.py]        (module [Analytics])
    - [backend/app/routers/department_stats.py] (module [DepartmentStats])

    Database tables are lists of rows, a query is a [filter]/[find] over the
    list, a request handler is a function from the stored state to a
    [response]; an exception, whether the handler raises it or a client
    library does, leaves the stored state as it was (nothing is
    committed).  Python [int] is [Z], [Optional[T]] is [option T], a
    [datetime] is a number of microseconds.  The scores of the analytics
    router are real-valued reports and are computed in exact rational
    arithmetic ([Q]); the change-over-period helper converts a float to an
    integer, where the last bit of the float decides the result, and is
    computed in IEEE 754 binary64 ([SpecFloat]). *)

From Stdlib Require Import ZArith List Bool Lia String Relations.
From Stdlib Require Import QArith Qminmax Qround Qpower SpecFloat DecimalString.
From Stdlib Require Import Lqa.
Import ListNotations.
Open Scope Z_scope.

(** ** Python values shared by the routers *)

Definition datetime := Z.
Bind Scope Z_scope with datetime.

(** Truthiness of an [Optional[int]]: [None] and [0] are falsy. *)
Definition truthy (o : option Z) : bool :=
  match o with
  | Some z => negb (z =? 0)
  | None => false
  end.

Definition is_some {A : Type} (o : option A) : bool :=
  match o with Some _ => true | None => false end.

(** [x == value] on a nullable column: NULL equals nothing. *)
Definition column_eq (c : option Z) (v : Z) : bool :=
  match c with
  | Some z => z =? v
  | None => false
  end.

Definition option_Z_eqb (a b : option Z) : bool :=
  match a, b with
  | Some x, Some y => x =? y
  | None, None => true
  | _, _ => false
  end.

(** What a handler produces: the returned value together with the state it
    committed, an [HTTPException] with its status code, or another exception
    that ends the request: Python's [RecursionError] when the interpreter's
    recursion budget is used up, [TypeError] when a value cannot be encoded
    as JSON, [ValueError] when a row is unpacked into the wrong number of
    names, and the [APIError] of the Supabase client. *)
Inductive response (S A : Type) : Type :=
| Ok (a : A) (s : S)
| HTTPException (status_code : nat)
| RecursionError
| TypeError
| ValueError
| APIError.
Arguments Ok {S A} a s.
Arguments HTTPException {S A} status_code.
Arguments RecursionError {S A}.
Arguments TypeError {S A}.
Arguments ValueError {S A}.
Arguments APIError {S A}.

(** The stored state after the request: only a handler that reached its
    commit changes it. *)
Definition state_after {S A : Type} (before : S) (r : response S A) : S :=
  match r with
  | Ok _ s => s
  | _ => before
  end.

(** * HierarchyStore: [routers/subdepartments.py] *)
Module Hierarchy.

(** Rows of [models.SubDepartment], [models.User], [models.Task] and
    [models.SubdepartmentParticipation], with the columns the handlers read
    or write. *)
Record SubDepartment := {
  sd_id : Z;
  sd_name : option string;
  sd_description : option string;
  sd_department_id : Z;
  sd_manager_id : option Z;
  sd_parent_id : option Z;
  sd_updated_at : option datetime
}.

Record User := {
  user_id : Z;
  user_department_id : option Z;
  user_subdepartment_id : option Z
}.

Record Task := {
  task_id : Z;
  task_department_id : Z;
  task_subdepartment_id : option Z
}.

(** A row of [subdepartmentparticipations]: the membership of a user in a
    subdepartment, written by [create_participation] and [assign_member]
    and read by [get_subdepartment_participations]. *)
Record SubdepartmentParticipation := {
  sp_id : Z;
  sp_subdepartment_id : Z;
  sp_user_id : Z;
  sp_role : string
}.

(** The SQLAlchemy session: the tables the handlers query. *)
Record Session := {
  subdepartments : list SubDepartment;
  users : list User;
  tasks : list Task;
  participations : list SubdepartmentParticipation
}.

(** [current_user], as far as the handlers look at it. *)
Record CurrentUser := {
  cu_id : Z;
  cu_department_id : Z
}.

(** A field of a pydantic update model: left out of the request body, or
    given (possibly as [null]).  Reading an unset field yields its default,
    [None]; [dict(exclude_unset=True)] keeps the given fields only. *)
Inductive field (A : Type) : Type :=
| Unset
| Given (v : option A).
Arguments Unset {A}.
Arguments Given {A} v.

Definition field_value {A : Type} (f : field A) : option A :=
  match f with
  | Unset => None
  | Given v => v
  end.

(** [class SubdepartmentUpdate(BaseModel)] *)
Record SubdepartmentUpdate := {
  upd_name : field string;
  upd_description : field string;
  upd_manager_id : field Z;
  upd_parent_id : field Z
}.

(** [db.query(models.SubDepartment).filter(id == .., department_id ==
    current_user.department_id).first()] *)
Definition query_subdept (db : Session) (current_user : CurrentUser)
    (subdept_id : Z) : option SubDepartment :=
  find (fun s => (sd_id s =? subdept_id)
                 && (sd_department_id s =? cu_department_id current_user))
       (subdepartments db).

(** [db.query(models.SubDepartment).filter(parent_id == subdept_id).all()] *)
Definition children_of (db : Session) (subdept_id : Z) : list SubDepartment :=
  filter (fun s => column_eq (sd_parent_id s) subdept_id) (subdepartments db).

(** The [for child in children] loop of [get_all_descendant_ids]:
    [descendants.append(child.id)], then
    [descendants.extend(get_all_descendant_ids(db, child.id))]; [recurse] is
    the recursive call. *)
Fixpoint extend_descendants (recurse : Z -> option (list Z))
    (children : list SubDepartment) (descendants : list Z)
    : option (list Z) :=
  match children with
  | [] => Some descendants
  | child :: rest =>
      match recurse (sd_id child) with
      | None => None
      | Some below =>
          extend_descendants recurse rest
            ((descendants ++ [sd_id child]) ++ below)
      end
  end.

(** [get_all_descendant_ids(db, subdept_id)].  The function recurses into
    every child and keeps no set of visited nodes; [depth] is the number of
    nested calls the interpreter still allows, and [None] is the
    [RecursionError] raised when they are used up. *)
Fixpoint get_all_descendant_ids (depth : nat) (db : Session) (subdept_id : Z)
    : option (list Z) :=
  match depth with
  | O => None
  | S depth' =>
      extend_descendants (get_all_descendant_ids depth' db)
        (children_of db subdept_id) []
  end.

(** [is_descendant(db, parent_id, child_id)] *)
Definition is_descendant (depth : nat) (db : Session) (parent_id child_id : Z)
    : option bool :=
  match get_all_descendant_ids depth db parent_id with
  | None => None
  | Some descendant_ids => Some (existsb (Z.eqb child_id) descendant_ids)
  end.

(** The [setattr] loop of [update_subdepartment] over
    [subdept_update.dict(exclude_unset=True)], followed by
    [subdept.updated_at = datetime.utcnow()]. *)
Definition apply_update (subdept : SubDepartment) (u : SubdepartmentUpdate)
    (now : datetime) : SubDepartment :=
  {| sd_id := sd_id subdept;
     sd_name := match upd_name u with
                | Given v => v
                | Unset => sd_name subdept
                end;
     sd_description := match upd_description u with
                       | Given v => v
                       | Unset => sd_description subdept
                       end;
     sd_department_id := sd_department_id subdept;
     sd_manager_id := match upd_manager_id u with
                      | Given v => v
                      | Unset => sd_manager_id subdept
                      end;
     sd_parent_id := match upd_parent_id u with
                     | Given v => v
                     | Unset => sd_parent_id subdept
                     end;
     sd_updated_at := Some now |}.

(** Writing the mutated ORM object back: the row with its primary key. *)
Definition store_subdept (db : Session) (s' : SubDepartment) : Session :=
  {| subdepartments :=
       map (fun s => if sd_id s =? sd_id s' then s' else s) (subdepartments db);
     users := users db;
     tasks := tasks db;
     participations := participations db |}.

(** [PATCH /api/subdepartments/{subdept_id}] *)
Definition update_subdepartment (depth : nat) (db : Session)
    (current_user : CurrentUser) (subdept_id : Z)
    (subdept_update : SubdepartmentUpdate) (now : datetime)
    : response Session SubDepartment :=
  match query_subdept db current_user subdept_id with
  | None => HTTPException 404
  | Some subdept =>
      let new_parent := field_value (upd_parent_id subdept_update) in
      let commit :=
        let subdept' := apply_update subdept subdept_update now in
        Ok subdept' (store_subdept db subdept') in
      if truthy new_parent
         && negb (option_Z_eqb new_parent (sd_parent_id subdept))
      then
        if option_Z_eqb new_parent (Some subdept_id)
        then HTTPException 400
        else
          match new_parent with
          | None => commit
          | Some p =>
              match is_descendant depth db subdept_id p with
              | None => RecursionError
              | Some true => HTTPException 400
              | Some false => commit
              end
          end
      else commit
  end.

(** [DELETE /api/subdepartments/{subdept_id}?reassign_to=..].  The value
    returned on success is the fixed message; [db.delete(subdept)] removes
    the row of the subdepartment and no other row.  The members the handler
    looks for and moves are the [models.User] rows with the node as
    [subdepartment_id]; it has no statement on
    [models.SubdepartmentParticipation]. *)
Definition delete_subdepartment (db : Session) (current_user : CurrentUser)
    (subdept_id : Z) (reassign_to : option Z) : response Session unit :=
  match query_subdept db current_user subdept_id with
  | None => HTTPException 404
  | Some subdept =>
      let has_dependencies :=
        is_some (find (fun u => column_eq (user_subdepartment_id u) subdept_id)
                      (users db))
        || is_some (find (fun t => column_eq (task_subdepartment_id t) subdept_id)
                         (tasks db)) in
      if has_dependencies && negb (truthy reassign_to)
      then HTTPException 400
      else
        let remove (l : list SubDepartment) :=
          filter (fun s => negb (sd_id s =? sd_id subdept)) l in
        match reassign_to with
        | Some target =>
            if truthy reassign_to then
              match query_subdept db current_user target with
              | None => HTTPException 404
              | Some target_subdept =>
                  Ok tt
                    {| subdepartments := remove (subdepartments db);
                       users :=
                         map (fun u =>
                                if column_eq (user_subdepartment_id u) subdept_id
                                then {| user_id := user_id u;
                                        user_department_id := user_department_id u;
                                        user_subdepartment_id := Some target |}
                                else u) (users db);
                       tasks :=
                         map (fun t =>
                                if column_eq (task_subdepartment_id t) subdept_id
                                then {| task_id := task_id t;
                                        task_department_id := task_department_id t;
                                        task_subdepartment_id := Some target |}
                                else t) (tasks db);
                       participations := participations db |}
              end
            else
              Ok tt {| subdepartments := remove (subdepartments db);
                       users := users db;
                       tasks := tasks db;
                       participations := participations db |}
        | None =>
            Ok tt {| subdepartments := remove (subdepartments db);
                     users := users db;
                     tasks := tasks db;
                     participations := participations db |}
        end
  end.

(** *** The stored tree

    [child_of db p c]: some row with id [c] has [parent_id = p].  A
    descendant is reached by one or more child steps. *)
Definition child_of (db : Session) (p c : Z) : Prop :=
  exists s, In s (subdepartments db) /\ sd_id s = c /\ sd_parent_id s = Some p.

Definition descendant (db : Session) : Z -> Z -> Prop :=
  clos_trans Z (child_of db).

(** No subdepartment is its own descendant: the [parent_id] relation has
    no cycle. *)
Definition acyclic (db : Session) : Prop := forall x, ~ descendant db x x.

(** A path of child steps that starts below [x]. *)
Fixpoint chain (db : Session) (x : Z) (path : list Z) : Prop :=
  match path with
  | [] => True
  | c :: rest => child_of db x c /\ chain db c rest
  end.

(** The first number from [start] on, among [fuel] + 1 numbers, at which
    [p] holds; the last of them when there is none. *)
Fixpoint first_from (p : nat -> bool) (start fuel : nat) : nat :=
  match fuel with
  | O => start
  | S fuel' => if p start then start else first_from p (S start) fuel'
  end.

(** The smallest recursion budget at which the traversal from a node
    returns, looked for up to one more than the number of rows. *)
Definition least_budget (db : Session) (subdept_id : Z) : nat :=
  first_from (fun depth => is_some (get_all_descendant_ids depth db subdept_id))
             0 (S (List.length (subdepartments db))).

(** The forest invariant of the data model: primary keys are unique and
    generated from 1, and the [parent_id] relation has no cycle, which a
    rank that strictly grows from every row to its parent certifies. *)
Definition unique_ids (db : Session) : Prop :=
  NoDup (map sd_id (subdepartments db)).

Definition keys_positive (db : Session) : Prop :=
  forall s, In s (subdepartments db) -> 0 < sd_id s.

Definition ranked (rank : Z -> nat) (db : Session) : Prop :=
  forall s p, In s (subdepartments db) -> sd_parent_id s = Some p ->
              (rank (sd_id s) < rank p)%nat.

Record forest (rank : Z -> nat) (db : Session) : Prop := {
  forest_unique : unique_ids db;
  forest_keys : keys_positive db;
  forest_ranked : ranked rank db
}.

(** Direct dependents of a subdepartment as [delete_subdepartment] and
    [get_subdepartment_members] read them: rows of [users] and [tasks]
    whose [subdepartment_id] is the node. *)
Definition has_direct_member (db : Session) (subdept_id : Z) : Prop :=
  exists u, In u (users db) /\ user_subdepartment_id u = Some subdept_id.

Definition has_direct_task (db : Session) (subdept_id : Z) : Prop :=
  exists t, In t (tasks db) /\ task_subdepartment_id t = Some subdept_id.

(** Direct members as the data model has them: the participation rows of
    the node. *)
Definition has_participation (db : Session) (subdept_id : Z) : Prop :=
  exists p, In p (participations db) /\ sp_subdepartment_id p = subdept_id.

(** How a [subdepartment_id] column reads after the dependents of
    [subdept_id] were moved to [target]. *)
Definition relocated (subdept_id target : Z) (before after : option Z) : Prop :=
  (before = Some subdept_id -> after = Some target) /\
  (before <> Some subdept_id -> after = before).

Definition user_relocated (subdept_id target : Z) (u u' : User) : Prop :=
  user_id u' = user_id u /\
  user_department_id u' = user_department_id u /\
  relocated subdept_id target
    (user_subdepartment_id u) (user_subdepartment_id u').

Definition task_relocated (subdept_id target : Z) (t t' : Task) : Prop :=
  task_id t' = task_id t /\
  task_department_id t' = task_department_id t /\
  relocated subdept_id target
    (task_subdepartment_id t) (task_subdepartment_id t').

(** *** Sample states

    Department 1 with the tree 1 -> {2 -> {3}, 4}; one member and one task
    in node 2, one member in node 3, one task in node 4; user 10
    participates in node 2. *)
Definition subdept (id : Z) (parent : option Z) : SubDepartment :=
  {| sd_id := id; sd_name := Some "unit"%string; sd_description := None;
     sd_department_id := 1; sd_manager_id := None; sd_parent_id := parent;
     sd_updated_at := None |}.

Definition sample_tree : Session :=
  {| subdepartments :=
       [subdept 1 None; subdept 2 (Some 1); subdept 3 (Some 2);
        subdept 4 (Some 1)];
     users :=
       [ {| user_id := 10; user_department_id := Some 1;
            user_subdepartment_id := Some 2 |};
         {| user_id := 11; user_department_id := Some 1;
            user_subdepartment_id := Some 3 |};
         {| user_id := 12; user_department_id := Some 1;
            user_subdepartment_id := None |} ];
     tasks :=
       [ {| task_id := 100; task_department_id := 1;
            task_subdepartment_id := Some 2 |};
         {| task_id := 101; task_department_id := 1;
            task_subdepartment_id := Some 4 |} ];
     participations :=
       [ {| sp_id := 1; sp_subdepartment_id := 2; sp_user_id := 10;
            sp_role := "member" |} ] |}.

Definition sample_rank (id : Z) : nat := Z.to_nat (5 - id).

Definition manager : CurrentUser := {| cu_id := 12; cu_department_id := 1 |}.

Definition move_under (parent : Z) : SubdepartmentUpdate :=
  {| upd_name := Unset; upd_description := Unset; upd_manager_id := Unset;
     upd_parent_id := Given (Some parent) |}.

(** Two rows that are each other's parent: a latent cycle. *)
Definition cyclic_tree : Session :=
  {| subdepartments := [subdept 1 (Some 2); subdept 2 (Some 1)];
     users := [];
     tasks := [];
     participations := [] |}.

(** The tree of [sample_tree] where the only dependents are participation
    rows: users 11 and 12 participate in node 3, and no user row and no
    task row names a node. *)
Definition participation_tree : Session :=
  {| subdepartments := subdepartments sample_tree;
     users :=
       [ {| user_id := 11; user_department_id := Some 1;
            user_subdepartment_id := None |};
         {| user_id := 12; user_department_id := Some 1;
            user_subdepartment_id := None |} ];
     tasks := [];
     participations :=
       [ {| sp_id := 1; sp_subdepartment_id := 3; sp_user_id := 11;
            sp_role := "member" |};
         {| sp_id := 2; sp_subdepartment_id := 3; sp_user_id := 12;
            sp_role := "member" |} ] |}.

End Hierarchy.

(** * AssignmentEngine: [routers/task_assignments.py] *)
Module Assignments.

(** A row of the [task_assignments] table.  [status] is the text of a
    [task_status_enum] value. *)
Record TaskAssignment := {
  ta_id : Z;
  ta_task_id : Z;
  ta_assigned_to : Z;
  ta_status : string;
  ta_progress : Z;
  ta_comments : option string;
  ta_started_at : option datetime;
  ta_completed_at : option datetime;
  ta_version : Z;
  ta_created_at : datetime;
  ta_updated_at : datetime
}.

(** [class TaskAssignmentBase(BaseModel)]: the body of a full update.  Its
    [version] is the version the caller presents. *)
Record TaskAssignmentBase := {
  b_task_id : Z;
  b_assigned_to : Z;
  b_status : string;
  b_progress : Z;
  b_comments : option string;
  b_started_at : option datetime;
  b_completed_at : option datetime;
  b_version : Z
}.

Definition Table := list TaskAssignment.

(** [.select(..).eq("id", assignment_id).single().execute()]: the row with
    the primary key [assignment_id].  [None] stands for the [APIError] the
    client raises when no row matches: [.single()] asks for exactly one
    row, and [execute()] raises on the answer to a request that matched
    none. *)
Definition select_single (table : Table) (assignment_id : Z)
    : option TaskAssignment :=
  find (fun r => ta_id r =? assignment_id) table.

(** Whether the client can encode [assignment.dict()] as the JSON body of a
    request: [dict()] keeps [started_at] and [completed_at] as [datetime]
    objects, which the JSON encoder refuses with a [TypeError]; the other
    fields are integers, strings and [None]. *)
Definition json_serializable (assignment : TaskAssignmentBase) : bool :=
  negb (is_some (b_started_at assignment))
  && negb (is_some (b_completed_at assignment)).

(** [.update(updates).eq("id", assignment_id).execute()]: [set_columns]
    writes the columns of [updates] into a matching row. *)
Definition update_eq_id (set_columns : TaskAssignment -> TaskAssignment)
    (assignment_id : Z) (table : Table) : Table :=
  map (fun r => if ta_id r =? assignment_id then set_columns r else r) table.

(** [response.data] of an update: the rows it wrote. *)
Definition rows_eq_id (assignment_id : Z) (table : Table) : list TaskAssignment :=
  filter (fun r => ta_id r =? assignment_id) table.

(** [PUT /task-assignments/{assignment_id}].  The stored version is read
    ([current.data] is the row found, so [if not current.data: raise 404]
    is not reached: without a row the read has raised already), and the
    update writes every column of the body, with [version] replaced by the
    stored version plus one.  The update is sent only when its body can be
    encoded. *)
Definition update_task_assignment (table : Table) (assignment_id : Z)
    (assignment : TaskAssignmentBase) (now : datetime)
    : response Table (list TaskAssignment) :=
  match select_single table assignment_id with
  | None => APIError
  | Some current =>
      if negb (json_serializable assignment) then TypeError else
      let table' :=
        update_eq_id
          (fun r =>
             {| ta_id := ta_id r;
                ta_task_id := b_task_id assignment;
                ta_assigned_to := b_assigned_to assignment;
                ta_status := b_status assignment;
                ta_progress := b_progress assignment;
                ta_comments := b_comments assignment;
                ta_started_at := b_started_at assignment;
                ta_completed_at := b_completed_at assignment;
                ta_version := ta_version current + 1;
                ta_created_at := ta_created_at r;
                ta_updated_at := now |})
          assignment_id table in
      Ok (rows_eq_id assignment_id table') table'
  end.

Definition valid_statuses : list string :=
  ["To Do"; "In Progress"; "Under Review"; "Completed"]%string.

(** [PUT /task-assignments/{assignment_id}/status]: "Update just the status
    of an assignment".  The columns it writes are strings and an integer. *)
Definition update_assignment_status (table : Table) (assignment_id : Z)
    (status : string) (now : datetime)
    : response Table (list TaskAssignment) :=
  if negb (existsb (String.eqb status) valid_statuses)
  then HTTPException 400
  else
    match select_single table assignment_id with
    | None => APIError
    | Some current =>
        let set_started :=
          (status =? "In Progress")%string
          && negb (is_some (ta_started_at current)) in
        let set_completed :=
          negb set_started
          && (status =? "Completed")%string
          && negb (is_some (ta_completed_at current)) in
        let table' :=
          update_eq_id
            (fun r =>
               {| ta_id := ta_id r;
                  ta_task_id := ta_task_id r;
                  ta_assigned_to := ta_assigned_to r;
                  ta_status := status;
                  ta_progress := ta_progress r;
                  ta_comments := ta_comments r;
                  ta_started_at :=
                    if set_started then Some now else ta_started_at r;
                  ta_completed_at :=
                    if set_completed then Some now else ta_completed_at r;
                  ta_version := ta_version current + 1;
                  ta_created_at := ta_created_at r;
                  ta_updated_at := now |})
            assignment_id table in
        Ok (rows_eq_id assignment_id table') table'
    end.

(** [PUT /task-assignments/{assignment_id}/progress]: "Update just the
    progress of an assignment". *)
Definition update_assignment_progress (table : Table) (assignment_id : Z)
    (progress : Z) (now : datetime)
    : response Table (list TaskAssignment) :=
  if negb ((0 <=? progress) && (progress <=? 100))
  then HTTPException 400
  else
    match select_single table assignment_id with
    | None => APIError
    | Some current =>
        let table' :=
          update_eq_id
            (fun r =>
               {| ta_id := ta_id r;
                  ta_task_id := ta_task_id r;
                  ta_assigned_to := ta_assigned_to r;
                  ta_status := ta_status r;
                  ta_progress := progress;
                  ta_comments := ta_comments r;
                  ta_started_at := ta_started_at r;
                  ta_completed_at := ta_completed_at r;
                  ta_version := ta_version current + 1;
                  ta_created_at := ta_created_at r;
                  ta_updated_at := now |})
            assignment_id table in
        Ok (rows_eq_id assignment_id table') table'
    end.

(** *** Sample state: one assignment, completed, at version 5. *)
Definition completed_assignment : TaskAssignment :=
  {| ta_id := 1; ta_task_id := 7; ta_assigned_to := 12;
     ta_status := "Completed"; ta_progress := 100; ta_comments := None;
     ta_started_at := Some 1000; ta_completed_at := Some 2000;
     ta_version := 5; ta_created_at := 500; ta_updated_at := 2000 |}.

Definition todo_assignment : TaskAssignment :=
  {| ta_id := 2; ta_task_id := 7; ta_assigned_to := 13;
     ta_status := "To Do"; ta_progress := 0; ta_comments := None;
     ta_started_at := None; ta_completed_at := None;
     ta_version := 1; ta_created_at := 500; ta_updated_at := 500 |}.

Definition sample_table : Table := [completed_assignment; todo_assignment].

(** A full update whose body still carries version 1, read long ago. *)
Definition stale_body : TaskAssignmentBase :=
  {| b_task_id := 7; b_assigned_to := 12; b_status := "In Progress";
     b_progress := 10; b_comments := None; b_started_at := None;
     b_completed_at := None; b_version := 1 |}.

(** The same body with the [started_at] the row was read with. *)
Definition dated_body : TaskAssignmentBase :=
  {| b_task_id := 7; b_assigned_to := 12; b_status := "In Progress";
     b_progress := 10; b_comments := None; b_started_at := Some 1000;
     b_completed_at := None; b_version := 1 |}.

End Assignments.

(** * AssignmentEngine: [routers/tasks.py] *)
Module Tasks.
Import Assignments.

Inductive PriorityEnum := Critical | High | Medium | Low.

Inductive StatusEnum := TODO | IN_PROGRESS | UNDER_REVIEW | COMPLETED.

(** The value of a [StatusEnum] member. *)
Definition status_value (s : StatusEnum) : string :=
  match s with
  | TODO => "To Do"
  | IN_PROGRESS => "In Progress"
  | UNDER_REVIEW => "Under Review"
  | COMPLETED => "Completed"
  end.

(** The dictionary [progress = {'To Do': 0, 'In Progress': 25, 'Under
    Review': 75, 'Completed': 100}[status_update.status]]. *)
Definition status_progress (s : StatusEnum) : Z :=
  match s with
  | TODO => 0
  | IN_PROGRESS => 25
  | UNDER_REVIEW => 75
  | COMPLETED => 100
  end.

(** [class Task(models.Base)] and [class Notification(models.Base)]. *)
Record Task := {
  t_id : Z;
  t_title : string;
  t_department_id : Z;
  t_priority : PriorityEnum;
  t_due_date : option datetime;
  t_version : Z;
  t_updated_at : datetime
}.

Record Notification := {
  n_user_id : Z;
  n_task_id : Z;
  n_type : string;
  n_subject : string;
  n_message : string
}.

Record Session := {
  tasks : list Task;
  task_assignments : list TaskAssignment;
  notifications : list Notification
}.

(** [class TaskStatusUpdate(BaseModel)] *)
Record TaskStatusUpdate := { status : StatusEnum }.

(** The body of the first loop of [update_task_status], for one assignment
    of the task. *)
Definition set_assignment_status (s : StatusEnum) (progress : Z)
    (current_time : datetime) (assignment : TaskAssignment)
    : TaskAssignment :=
  {| ta_id := ta_id assignment;
     ta_task_id := ta_task_id assignment;
     ta_assigned_to := ta_assigned_to assignment;
     ta_status := status_value s;
     ta_progress := progress;
     ta_comments := ta_comments assignment;
     ta_started_at :=
       match s with
       | IN_PROGRESS =>
           if is_some (ta_started_at assignment)
           then ta_started_at assignment
           else Some current_time
       | _ => ta_started_at assignment
       end;
     ta_completed_at :=
       match s with
       | COMPLETED => Some current_time
       | _ => ta_completed_at assignment
       end;
     ta_version := ta_version assignment;
     ta_created_at := ta_created_at assignment;
     ta_updated_at := current_time |}.

(** [f'Task status has been updated to {status} ({progress}% complete)'] *)
Definition status_message (s : StatusEnum) (progress : Z) : string :=
  ("Task status has been updated to " ++ status_value s ++ " ("
   ++ NilZero.string_of_int (Z.to_int progress) ++ "% complete)")%string.

(** [PATCH /tasks/{task_id}/status]: "Update task status and create
    notifications".  [task.task_assignments] are the assignment rows whose
    [task_id] is the task's. *)
Definition update_task_status (db : Session) (task_id : Z)
    (status_update : TaskStatusUpdate) (current_time : datetime)
    : response Session Task :=
  match find (fun t => t_id t =? task_id) (tasks db) with
  | None => HTTPException 404
  | Some task =>
      let s := status status_update in
      let progress := status_progress s in
      let of_task (a : TaskAssignment) := ta_task_id a =? t_id task in
      let assignments' :=
        map (fun a => if of_task a
                      then set_assignment_status s progress current_time a
                      else a)
            (task_assignments db) in
      let task' :=
        match s with
        | COMPLETED =>
            {| t_id := t_id task; t_title := t_title task;
               t_department_id := t_department_id task;
               t_priority := t_priority task; t_due_date := t_due_date task;
               t_version := t_version task + 1;
               t_updated_at := current_time |}
        | _ => task
        end in
      let created :=
        map (fun a => {| n_user_id := ta_assigned_to a;
                         n_task_id := task_id;
                         n_type := "push";
                         n_subject := "Task Status Updated";
                         n_message := status_message s progress |})
            (filter of_task assignments') in
      Ok task'
         {| tasks := map (fun t => if t_id t =? t_id task then task' else t)
                         (tasks db);
            task_assignments := assignments';
            notifications := notifications db ++ created |}
  end.

(** *** Sample state: task 7 with the two sample assignments. *)
Definition sample_task : Task :=
  {| t_id := 7; t_title := "report"; t_department_id := 1;
     t_priority := High; t_due_date := None; t_version := 3;
     t_updated_at := 2000 |}.

Definition sample_session : Session :=
  {| tasks := [sample_task];
     task_assignments := sample_table;
     notifications := [] |}.

End Tasks.

(** * AggregationService: [routers/analytics.py] *)
Module Analytics.
Import Assignments Tasks.
Local Open Scope Q_scope.

(** A [models.TaskAssignment] as the ORM hands it to the scoring code:
    the row together with the row of its task ([assignment.task]). *)
Record Assignment := {
  row : TaskAssignment;
  task : Task
}.

(** [timedelta.total_seconds()] of a difference of two datetimes. *)
Definition total_seconds (microseconds : Z) : Q :=
  inject_Z microseconds / 1000000.

(** [priority_weights = {'Critical': 4, 'High': 3, 'Medium': 2, 'Low': 1}] *)
Definition priority_weights (p : PriorityEnum) : Z :=
  match p with
  | Critical => 4
  | High => 3
  | Medium => 2
  | Low => 1
  end.

(** [x > 0] on a number. *)
Definition positive_number (x : Q) : bool := negb (Qle_bool x 0).

(** The body of the loop of [calculate_efficiency_score] for an assignment
    with both timestamps. *)
Definition weighted_score (started_at completed_at : datetime)
    (priority : PriorityEnum) : Q :=
  let actual_duration := total_seconds (completed_at - started_at) in
  let estimated_duration := 432000 in
  let priority_weight := priority_weights priority in
  let efficiency :=
    Qmin (if positive_number actual_duration
          then estimated_duration / actual_duration
          else 1)
         2 in
  efficiency * inject_Z priority_weight.

(** The loop of [calculate_efficiency_score]: [scores.append(..)] for every
    assignment with [completed_at] and [started_at]. *)
Fixpoint collect_scores (assignments : list Assignment) (scores : list Q)
    : list Q :=
  match assignments with
  | [] => scores
  | assignment :: rest =>
      match ta_completed_at (row assignment),
            ta_started_at (row assignment) with
      | Some completed_at, Some started_at =>
          collect_scores rest
            (scores ++ [weighted_score started_at completed_at
                          (t_priority (task assignment))])
      | _, _ => collect_scores rest scores
      end
  end.

(** Python's [sum]: from 0, left to right. *)
Definition sum (numbers : list Q) : Q := fold_left Qplus numbers 0.

Definition len {A : Type} (l : list A) : Q := inject_Z (Z.of_nat (List.length l)).

(** [calculate_efficiency_score(assignments)] *)
Definition calculate_efficiency_score (assignments : list Assignment) : Q :=
  match assignments with
  | [] => 0
  | _ =>
      let scores := collect_scores assignments [] in
      match scores with
      | [] => 0
      | _ => sum scores / len scores * 25
      end
  end.

(** [calculate_workload_score(active_tasks, weighted_load)] *)
Definition calculate_workload_score (active_tasks weighted_load : Z) : Q :=
  let base_score := Z.min (active_tasks * 10) 100 in
  let weight_factor :=
    Qmin (if (active_tasks >? 0)%Z
          then inject_Z weighted_load / inject_Z active_tasks
          else 0)
         2 in
  inject_Z base_score * weight_factor.

(** The aggregates of the query of [get_workload_distribution] for one
    user: over the user's assignments at [To Do] or [In Progress], joined
    with their tasks, [count(TaskAssignment.id)] and the sum of the [case]
    on the task's priority. *)
Definition is_active (a : Assignment) : bool :=
  existsb (String.eqb (ta_status (row a))) ["To Do"; "In Progress"]%string.

Definition load_weight (p : PriorityEnum) : Z :=
  match p with
  | Critical => 3
  | High => 2
  | Medium => 1
  | Low => 0
  end.

Definition active_rows (user : Z) (joined : list Assignment) : list Assignment :=
  filter (fun a => (ta_assigned_to (row a) =? user)%Z && is_active a) joined.

Definition count_active (rows : list Assignment) : Z :=
  Z.of_nat (List.length rows).

Definition weighted_load_of (rows : list Assignment) : Z :=
  fold_left Z.add (map (fun a => load_weight (t_priority (task a))) rows) 0%Z.

(** A row of the query of [get_workload_distribution], with its four
    columns: [User.id], [User.display_name], [active_tasks] and
    [weighted_load]. *)
Record WorkloadRow := {
  wr_id : Z;
  wr_display_name : string;
  wr_active_tasks : Z;
  wr_weighted_load : Z
}.

(** The query: the users of the caller's department ([department_users]
    lists their id and display name), joined with their assignments at
    [To Do] or [In Progress] and the tasks of these, and grouped by user.
    The inner joins leave no group for a user without such an
    assignment. *)
Definition team_workload (department_users : list (Z * string))
    (joined : list Assignment) : list WorkloadRow :=
  flat_map
    (fun user =>
       match active_rows (fst user) joined with
       | [] => []
       | rows =>
           [ {| wr_id := fst user;
                wr_display_name := snd user;
                wr_active_tasks := count_active rows;
                wr_weighted_load := weighted_load_of rows |} ]
       end)
    department_users.

(** An entry of ["workload_data"]. *)
Record WorkloadEntry := {
  w_user_id : Z;
  w_display_name : string;
  w_active_tasks : Z;
  w_weighted_load : Z;
  w_workload_score : Q
}.

(** [GET /api/analytics/workload/distribution].  The entries are built in
    a comprehension over [for user, metrics in team_workload]: every row is
    unpacked into two names, which a row of four columns does not allow, so
    the first row raises [ValueError] before an entry is built and before
    [calculate_workload_score] is called.  A query without rows gets
    through, with no entry.  The handler writes nothing. *)
Definition get_workload_distribution (department_users : list (Z * string))
    (joined : list Assignment) : response unit (list WorkloadEntry) :=
  match team_workload department_users joined with
  | [] => Ok [] tt
  | _ :: _ => ValueError
  end.

(** *** The scores as the specification states them *)

Definition qualifies (a : Assignment) : bool :=
  is_some (ta_completed_at (row a)) && is_some (ta_started_at (row a)).

Definition actual_duration (a : Assignment) : Q :=
  match ta_completed_at (row a), ta_started_at (row a) with
  | Some completed_at, Some started_at =>
      total_seconds (completed_at - started_at)
  | _, _ => 0
  end.

Definition mean (numbers : list Q) : Q := sum numbers / len numbers.

(** "efficiency = min(estimated_duration / actual_duration, 2)", with the
    estimate of 432000 seconds; "weighted = efficiency * priority_weight";
    "final score = mean(weighted) * 25, or 0 if no assignment qualifies". *)
Definition stated_efficiency (a : Assignment) : Q :=
  Qmin (432000 / actual_duration a) 2.

Definition stated_efficiency_score (assignments : list Assignment) : Q :=
  match filter qualifies assignments with
  | [] => 0
  | qualifying =>
      mean (map (fun a => stated_efficiency a
                          * inject_Z (priority_weights (t_priority (task a))))
                qualifying) * 25
  end.

(** The same with the guard of the code: an assignment whose actual
    duration is not positive has efficiency 1. *)
Definition guarded_efficiency (a : Assignment) : Q :=
  Qmin (if positive_number (actual_duration a)
        then 432000 / actual_duration a
        else 1)
       2.

Definition guarded_efficiency_score (assignments : list Assignment) : Q :=
  match filter qualifies assignments with
  | [] => 0
  | qualifying =>
      mean (map (fun a => guarded_efficiency a
                          * inject_Z (priority_weights (t_priority (task a))))
                qualifying) * 25
  end.

(** "base = min(active_task_count * 10, 100)"; "weight_factor =
    min(weighted_load / active_task_count, 2)" with the weights 3, 2, 1, 0;
    "score = base * weight_factor, 0 if active_task_count == 0".  The
    argument lists the priorities of the user's active tasks. *)
Definition stated_workload_score (active : list PriorityEnum) : Q :=
  let active_task_count := Z.of_nat (List.length active) in
  let weighted_load := fold_left Z.add (map load_weight active) 0%Z in
  if (active_task_count =? 0)%Z then 0
  else inject_Z (Z.min (active_task_count * 10) 100)
       * Qmin (inject_Z weighted_load / inject_Z active_task_count) 2.

(** *** Sample assignments *)
Definition assignment_of (user : Z) (status : string)
    (started_at completed_at : option datetime) (priority : PriorityEnum)
    : Assignment :=
  {| row := {| ta_id := 1; ta_task_id := 7; ta_assigned_to := user;
               ta_status := status; ta_progress := 0; ta_comments := None;
               ta_started_at := started_at; ta_completed_at := completed_at;
               ta_version := 1; ta_created_at := 0; ta_updated_at := 0 |};
     task := {| t_id := 7; t_title := "report"; t_department_id := 1;
                t_priority := priority; t_due_date := None; t_version := 1;
                t_updated_at := 0 |} |}.

(** Three active assignments of user 12, on a Critical, a High and a Low
    task: a weighted load of 5. *)
Definition three_active : list Assignment :=
  [ assignment_of 12 "To Do" None None Critical;
    assignment_of 12 "In Progress" (Some 0%Z) None High;
    assignment_of 12 "To Do" None None Low ].

(** Critical, done in 216000 seconds. *)
Definition fast_critical : Assignment :=
  assignment_of 12 "Completed" (Some 0%Z) (Some 216000000000%Z) Critical.

(** Low priority, completed first and started 432000 seconds later (the
    status was set to [Completed] and then to [In Progress]). *)
Definition restarted_low : Assignment :=
  assignment_of 12 "In Progress" (Some 432000000000%Z) (Some 0%Z) Low.

End Analytics.

(** * AggregationService: [routers/department_stats.py] *)
Module DepartmentStats.

(** Python's [float]: IEEE 754 binary64. *)
Definition prec : Z := 53.
Definition emax : Z := 1024.
Definition float := spec_float.

(** An integer as the (unrounded) operand of a division. *)
Definition operand (z : Z) : float :=
  match z with
  | Z0 => S754_zero false
  | Zpos p => S754_finite false p 0
  | Zneg p => S754_finite true p 0
  end.

(** [a / b] on two [int]s, [b] not zero: the quotient, correctly rounded. *)
Definition truediv (a b : Z) : float := SFdiv prec emax (operand a) (operand b).

(** [float(z)], the conversion of the [int] operand of [float * int]. *)
Definition float_of_int (z : Z) : float := binary_normalize prec emax z 0 false.

Definition fmul (x y : float) : float := SFmul prec emax x y.

(** [int(x)]: the integral part of a finite float (truncation toward
    zero); [None] is the [OverflowError] or [ValueError] on an infinity or
    a NaN. *)
Definition int_of_float (x : float) : option Z :=
  match x with
  | S754_zero _ => Some 0%Z
  | S754_finite s m e =>
      Some (if (0 <=? e)%Z
            then cond_Zopp s (Zpos m) * 2 ^ e
            else Z.quot (cond_Zopp s (Zpos m)) (2 ^ (- e)))%Z
  | S754_infinity _ | S754_nan => None
  end.

(** [((current - previous) / previous) * 100] *)
Definition percent_change (current previous : Z) : float :=
  fmul (truediv (current - previous) previous) (float_of_int 100).

(** [calc_change(current, previous)] *)
Definition calc_change (current previous : Z) : option Z :=
  if (previous =? 0)%Z
  then Some (if (current >? 0)%Z then 100 else 0)%Z
  else int_of_float (percent_change current previous).

(** *** The helper as the specification states it *)

(** The real number a float stands for. *)
Definition float_value (x : float) : Q :=
  match x with
  | S754_finite s m e => (inject_Z (cond_Zopp s (Zpos m)) * (2 # 1) ^ e)%Q
  | _ => 0%Q
  end.

Definition is_finite (x : float) : bool :=
  match x with
  | S754_zero _ | S754_finite _ _ _ => true
  | _ => false
  end.

(** Truncation toward zero, and rounding to the nearest integer (a tie
    goes to the even neighbour, as Python's [round] has it). *)
Definition truncate (q : Q) : Z := Z.quot (Qnum q) (QDen q).

Definition round_nearest (q : Q) : Z :=
  let below := Qfloor q in
  match ((q - inject_Z below) ?= 1 # 2)%Q with
  | Lt => below
  | Gt => (below + 1)%Z
  | Eq => if Z.even below then below else (below + 1)%Z
  end.

(** "change(current, previous) = 100 if previous==0 and current>0, else 0
    if previous==0, else round((current-previous)/previous*100)". *)
Definition stated_change (current previous : Z) : Z :=
  if (previous =? 0)%Z
  then (if (current >? 0)%Z then 100 else 0)%Z
  else round_nearest
         (inject_Z (current - previous) / inject_Z previous * 100)%Q.

End DepartmentStats.

(** * HierarchyStore: subtree queries of [routers/subdepartments.py] *)
Module HierarchyQueries.
Import Hierarchy.

(** [subdept_ids = get_all_descendant_ids(db, subdept_id)] followed by
    [subdept_ids.append(subdept_id)]. *)
Definition subtree_ids (depth : nat) (db : Session) (subdept_id : Z)
    : option (list Z) :=
  match get_all_descendant_ids depth db subdept_id with
  | None => None
  | Some subdept_ids => Some (subdept_ids ++ [subdept_id])
  end.

(** [column.in_(subdept_ids)] on a nullable column. *)
Definition column_in (c : option Z) (ids : list Z) : bool :=
  match c with
  | Some z => existsb (Z.eqb z) ids
  | None => false
  end.

(** [GET /api/subdepartments/{subdept_id}/members] *)
Definition get_subdepartment_members (depth : nat) (db : Session)
    (subdept_id : Z) (include_children : bool) : option (list User) :=
  if include_children then
    match subtree_ids depth db subdept_id with
    | None => None
    | Some subdept_ids =>
        Some (filter (fun u => column_in (user_subdepartment_id u) subdept_ids)
                     (users db))
    end
  else
    Some (filter (fun u => column_eq (user_subdepartment_id u) subdept_id)
                 (users db)).

(** [get_recursive_task_count(db, subdept_id)] *)
Definition get_recursive_task_count (depth : nat) (db : Session)
    (subdept_id : Z) : option Z :=
  match subtree_ids depth db subdept_id with
  | None => None
  | Some subdept_ids =>
      Some (Z.of_nat
              (List.length
                 (filter (fun t => column_in (task_subdepartment_id t) subdept_ids)
                         (tasks db))))
  end.

(** [get_recursive_member_count(db, subdept_id)] *)
Definition get_recursive_member_count (depth : nat) (db : Session)
    (subdept_id : Z) : option Z :=
  match subtree_ids depth db subdept_id with
  | None => None
  | Some subdept_ids =>
      Some (Z.of_nat
              (List.length
                 (filter (fun u => column_in (user_subdepartment_id u) subdept_ids)
                         (users db))))
  end.

(** [calculate_completion_rate(db, subdept_id)].  [is_completed] reads the
    column [models.Task.status == 'Completed'] of a task row. *)
Definition calculate_completion_rate (is_completed : Task -> bool)
    (depth : nat) (db : Session) (subdept_id : Z) : option Q :=
  match subtree_ids depth db subdept_id with
  | None => None
  | Some subdept_ids =>
      let in_subtree (t : Task) :=
        column_in (task_subdepartment_id t) subdept_ids in
      let total_tasks :=
        Z.of_nat (List.length (filter in_subtree (tasks db))) in
      if total_tasks =? 0 then Some 0%Q
      else
        let completed_tasks :=
          Z.of_nat
            (List.length
               (filter (fun t => in_subtree t && is_completed t) (tasks db))) in
        Some (inject_Z completed_tasks / inject_Z total_tasks * 100)%Q
  end.

(** The tasks and the members that refer to one node. *)
Definition direct_task_count (db : Session) (subdept_id : Z) : Z :=
  Z.of_nat
    (List.length
       (filter (fun t => column_eq (task_subdepartment_id t) subdept_id)
               (tasks db))).

Definition direct_member_count (db : Session) (subdept_id : Z) : Z :=
  Z.of_nat
    (List.length
       (filter (fun u => column_eq (user_subdepartment_id u) subdept_id)
               (users db))).

(** The rows of a table that refer to a node, counted node by node over a
    list of nodes. *)
Definition refer_count {A : Type} (col : A -> option Z) (table : list A)
    (node : Z) : Z :=
  Z.of_nat (List.length (filter (fun a => column_eq (col a) node) table)).

Definition refer_total {A : Type} (col : A -> option Z) (table : list A)
    (nodes : list Z) : Z :=
  fold_right (fun node acc => refer_count col table node + acc) 0 nodes.

End HierarchyQueries.

(** * AssignmentEngine: creating, deleting and replaying assignments *)
Module AssignmentRequests.
Import Assignments Tasks.

(** [current_user["role"] not in ["admin", "manager"]] *)
Definition may_manage (role : string) : bool :=
  existsb (String.eqb role) ["admin"; "manager"]%string.

(** [POST /task-assignments/].  [new_id] is the key the database generates
    for the inserted row; the other columns are those of the body.  As in
    the full update, the insert is sent only when [assignment.dict()] can
    be encoded. *)
Definition create_task_assignment (table : Table) (role : string)
    (assignment : TaskAssignmentBase) (new_id : Z) (now : datetime)
    : response Table (list TaskAssignment) :=
  if negb (may_manage role) then HTTPException 403
  else
    let existing :=
      filter (fun r => (ta_task_id r =? b_task_id assignment)
                       && (ta_assigned_to r =? b_assigned_to assignment))
             table in
    match existing with
    | _ :: _ => HTTPException 400
    | [] =>
        if negb (json_serializable assignment) then TypeError else
        let inserted :=
          {| ta_id := new_id;
             ta_task_id := b_task_id assignment;
             ta_assigned_to := b_assigned_to assignment;
             ta_status := b_status assignment;
             ta_progress := b_progress assignment;
             ta_comments := b_comments assignment;
             ta_started_at := b_started_at assignment;
             ta_completed_at := b_completed_at assignment;
             ta_version := b_version assignment;
             ta_created_at := now;
             ta_updated_at := now |} in
        Ok [inserted] (table ++ [inserted])
    end.

(** [DELETE /task-assignments/{assignment_id}] *)
Definition delete_task_assignment (table : Table) (role : string)
    (assignment_id : Z) : response Table (list TaskAssignment) :=
  if negb (may_manage role) then HTTPException 403
  else
    Ok (rows_eq_id assignment_id table)
       (filter (fun r => negb (ta_id r =? assignment_id)) table).

(** The pairs the data model wants unique. *)
Definition assignment_pair (r : TaskAssignment) : Z * Z :=
  (ta_task_id r, ta_assigned_to r).

Definition pairs_unique (table : Table) : Prop :=
  NoDup (map assignment_pair table).

(** A request on one assignment, and a series of requests handled one after
    the other, each on the state the one before has left. *)
Inductive request :=
| FullUpdate (body : TaskAssignmentBase)
| SetStatus (status : string)
| SetProgress (progress : Z).

Definition handle (table : Table) (assignment_id : Z) (req : request)
    (now : datetime) : response Table (list TaskAssignment) :=
  match req with
  | FullUpdate body => update_task_assignment table assignment_id body now
  | SetStatus st => update_assignment_status table assignment_id st now
  | SetProgress p => update_assignment_progress table assignment_id p now
  end.

Fixpoint replay (table : Table) (assignment_id : Z)
    (requests : list (request * datetime)) : Table :=
  match requests with
  | [] => table
  | (req, now) :: rest =>
      replay (state_after table (handle table assignment_id req now))
             assignment_id rest
  end.

(** The requests that pass the validation of their handler: the status
    and the progress are checked, the body of a full update is not. *)
Definition validated (req : request) : bool :=
  match req with
  | FullUpdate _ => true
  | SetStatus st => existsb (String.eqb st) valid_statuses
  | SetProgress p => (0 <=? p) && (p <=? 100)
  end.

(** The requests that are written to an existing row: those that pass
    validation, and of the full updates those whose body can be encoded. *)
Definition well_formed (req : request) : bool :=
  match req with
  | FullUpdate body => json_serializable body
  | SetStatus st => existsb (String.eqb st) valid_statuses
  | SetProgress p => (0 <=? p) && (p <=? 100)
  end.

(** The requests that leave a timestamp that is set as it is: the status
    and progress updates, and the full updates that are not written.  A
    full update that is written stores the [started_at] and [completed_at]
    of its body, which are null. *)
Definition keeps_timestamps (req : request) : bool :=
  match req with
  | FullUpdate body => negb (json_serializable body)
  | _ => true
  end.

(** *** Sample body: user 12 on task 8. *)
Definition new_assignment_body : TaskAssignmentBase :=
  {| b_task_id := 8; b_assigned_to := 12; b_status := "To Do";
     b_progress := 0; b_comments := None; b_started_at := None;
     b_completed_at := None; b_version := 1 |}.

End AssignmentRequests.

(** * AssignmentEngine: bulk operations of [routers/tasks.py] *)
Module TasksBulk.
Import Assignments Tasks.

(** [class BulkStatusUpdate(BaseModel)] and [class BulkAssignUpdate(BaseModel)] *)
Record BulkStatusUpdate := {
  bs_task_ids : list Z;
  bs_status : StatusEnum
}.

Record BulkAssignUpdate := {
  ba_task_ids : list Z;
  ba_user_id : Z
}.

(** The body of the inner loop of [bulk_update_status]. *)
Definition bulk_set_status (s : StatusEnum) (current_time : datetime)
    (assignment : TaskAssignment) : TaskAssignment :=
  {| ta_id := ta_id assignment;
     ta_task_id := ta_task_id assignment;
     ta_assigned_to := ta_assigned_to assignment;
     ta_status := status_value s;
     ta_progress := ta_progress assignment;
     ta_comments := ta_comments assignment;
     ta_started_at :=
       match s with
       | IN_PROGRESS =>
           if is_some (ta_started_at assignment)
           then ta_started_at assignment
           else Some current_time
       | _ => ta_started_at assignment
       end;
     ta_completed_at :=
       match s with
       | COMPLETED => Some current_time
       | _ => ta_completed_at assignment
       end;
     ta_version := ta_version assignment;
     ta_created_at := ta_created_at assignment;
     ta_updated_at := current_time |}.

(** The loop [for task_id in update.task_ids] of [bulk_update_status]:
    the assignments so far and the tasks collected so far. *)
Fixpoint bulk_status_loop (all_tasks : list Task) (s : StatusEnum)
    (current_time : datetime) (task_ids : list Z)
    (assignments : list TaskAssignment) (found : list Task)
    : list TaskAssignment * list Task :=
  match task_ids with
  | [] => (assignments, found)
  | task_id :: rest =>
      match find (fun t => t_id t =? task_id) all_tasks with
      | Some task =>
          bulk_status_loop all_tasks s current_time rest
            (map (fun a => if ta_task_id a =? t_id task
                           then bulk_set_status s current_time a
                           else a)
                 assignments)
            (found ++ [task])
      | None => bulk_status_loop all_tasks s current_time rest assignments found
      end
  end.

(** [PATCH /tasks/bulk/status] *)
Definition bulk_update_status (db : Session) (update : BulkStatusUpdate)
    (current_time : datetime) : response Session (list Task) :=
  let '(assignments, found) :=
    bulk_status_loop (tasks db) (bs_status update) current_time
      (bs_task_ids update) (task_assignments db) [] in
  Ok found {| tasks := tasks db;
              task_assignments := assignments;
              notifications := notifications db |}.

(** The loop of [bulk_assign_tasks].  [new_id] is the key the database
    generates for a row added to the given rows; the columns the handler
    does not set take the defaults of the model ([version] 1, no
    timestamps, no comments). *)
Fixpoint bulk_assign_loop (new_id : list TaskAssignment -> Z)
    (all_tasks : list Task) (user_id : Z) (current_time : datetime)
    (task_ids : list Z) (assignments : list TaskAssignment)
    (found : list Task) : list TaskAssignment * list Task :=
  match task_ids with
  | [] => (assignments, found)
  | task_id :: rest =>
      match find (fun t => t_id t =? task_id) all_tasks with
      | Some task =>
          let kept :=
            filter (fun a => negb (ta_task_id a =? task_id)) assignments in
          let assignment :=
            {| ta_id := new_id kept;
               ta_task_id := task_id;
               ta_assigned_to := user_id;
               ta_status := "To Do";
               ta_progress := 0;
               ta_comments := None;
               ta_started_at := None;
               ta_completed_at := None;
               ta_version := 1;
               ta_created_at := current_time;
               ta_updated_at := current_time |} in
          bulk_assign_loop new_id all_tasks user_id current_time rest
            (kept ++ [assignment]) (found ++ [task])
      | None =>
          bulk_assign_loop new_id all_tasks user_id current_time rest
            assignments found
      end
  end.

(** [PATCH /tasks/bulk/assign] *)
Definition bulk_assign_tasks (new_id : list TaskAssignment -> Z) (db : Session)
    (update : BulkAssignUpdate) (current_time : datetime)
    : response Session (list Task) :=
  let '(assignments, found) :=
    bulk_assign_loop new_id (tasks db) (ba_user_id update) current_time
      (ba_task_ids update) (task_assignments db) [] in
  Ok found {| tasks := tasks db;
              task_assignments := assignments;
              notifications := notifications db |}.

(** Whether a task id names a stored task and is listed. *)
Definition listed (all_tasks : list Task) (task_ids : list Z) (task_id : Z)
    : bool :=
  existsb (Z.eqb task_id) task_ids
  && is_some (find (fun t => t_id t =? task_id) all_tasks).

(** The tasks a bulk operation returns: the listed tasks found, in the
    order of the list. *)
Definition found_tasks (all_tasks : list Task) (task_ids : list Z) : list Task :=
  flat_map (fun id => match find (fun x => t_id x =? id) all_tasks with
                      | Some task => [task]
                      | None => []
                      end) task_ids.

(** The single row a bulk reassignment leaves for a task. *)
Definition fresh_row (user_id : Z) (now : datetime) (task_id : Z)
    (row : TaskAssignment) : Prop :=
  ta_task_id row = task_id /\
  ta_assigned_to row = user_id /\
  ta_status row = "To Do"%string /\
  ta_progress row = 0 /\
  ta_version row = 1 /\
  ta_started_at row = None /\
  ta_completed_at row = None /\
  ta_created_at row = now.

(** The assignment rows of one task. *)
Definition assignments_of (task_id : Z) (assignments : list TaskAssignment)
    : list TaskAssignment :=
  filter (fun a => ta_task_id a =? task_id) assignments.

End TasksBulk.

(** * AggregationService: the metrics of [get_performance_metrics] *)
Module Performance.
Import Assignments Tasks Analytics.
Local Open Scope Q_scope.

(** The numbers [get_performance_metrics] computes from the assignments its
    query returns. *)
Record Metrics := {
  total_tasks : Z;
  completed_tasks : Z;
  on_time_tasks : Z;
  completion_rate : Q;
  on_time_completion_rate : Q;
  efficiency_score : Q
}.

Definition is_completed (a : Assignment) : bool :=
  (ta_status (row a) =? "Completed")%string.

(** [a.status == 'Completed' and a.completed_at and a.task.due_date and
    a.completed_at <= a.task.due_date] *)
Definition is_on_time (a : Assignment) : bool :=
  is_completed a
  && match ta_completed_at (row a), t_due_date (task a) with
     | Some completed_at, Some due_date => (completed_at <=? due_date)%Z
     | _, _ => false
     end.

Definition count (p : Assignment -> bool) (assignments : list Assignment) : Z :=
  Z.of_nat (List.length (filter p assignments)).

(** The "Calculate metrics" part of [get_performance_metrics]. *)
Definition performance_metrics (assignments : list Assignment) : Metrics :=
  let total := Z.of_nat (List.length assignments) in
  let completed := count is_completed assignments in
  let on_time := count is_on_time assignments in
  {| total_tasks := total;
     completed_tasks := completed;
     on_time_tasks := on_time;
     completion_rate :=
       if (total >? 0)%Z then inject_Z completed / inject_Z total * 100 else 0;
     on_time_completion_rate :=
       if (completed >? 0)%Z
       then inject_Z on_time / inject_Z completed * 100
       else 0;
     efficiency_score := calculate_efficiency_score assignments |}.

End Performance.

(** * AssignmentEngine: [routers/task_dependencies.py] *)
Module TaskDependencies.

(** A row of the [task_dependencies] table and the body of a request. *)
Record Dependency := {
  d_id : Z;
  d_task_id : Z;
  d_depends_on : Z;
  d_dependency_type : string;
  d_created_at : datetime
}.

Record DependencyBase := {
  db_task_id : Z;
  db_depends_on : Z;
  db_dependency_type : string
}.

Definition Table := list Dependency.

Definition may_manage (role : string) : bool :=
  existsb (String.eqb role) ["admin"; "manager"]%string.

(** [.eq("task_id", ..).eq("depends_on", ..)] *)
Definition same_edge (task_id depends_on : Z) (d : Dependency) : bool :=
  (d_task_id d =? task_id) && (d_depends_on d =? depends_on).

(** [POST /task-dependencies/].  [new_id] is the key the database generates
    for the inserted row. *)
Definition create_task_dependency (table : Table) (role : string)
    (dependency : DependencyBase) (new_id : Z) (now : datetime)
    : response Table (list Dependency) :=
  if negb (may_manage role) then HTTPException 403
  else if db_task_id dependency =? db_depends_on dependency
  then HTTPException 400
  else
    match filter (same_edge (db_task_id dependency) (db_depends_on dependency))
                 table with
    | _ :: _ => HTTPException 400
    | [] =>
        let inserted :=
          {| d_id := new_id;
             d_task_id := db_task_id dependency;
             d_depends_on := db_depends_on dependency;
             d_dependency_type := db_dependency_type dependency;
             d_created_at := now |} in
        Ok [inserted] (table ++ [inserted])
    end.

(** [PUT /task-dependencies/{dependency_id}] *)
Definition update_task_dependency (table : Table) (role : string)
    (dependency_id : Z) (dependency : DependencyBase)
    : response Table (list Dependency) :=
  if negb (may_manage role) then HTTPException 403
  else if db_task_id dependency =? db_depends_on dependency
  then HTTPException 400
  else
    match filter (fun d => d_id d =? dependency_id) table with
    | [] => HTTPException 404
    | _ :: _ =>
        let table' :=
          map (fun d => if d_id d =? dependency_id
                        then {| d_id := d_id d;
                                d_task_id := db_task_id dependency;
                                d_depends_on := db_depends_on dependency;
                                d_dependency_type := db_dependency_type dependency;
                                d_created_at := d_created_at d |}
                        else d) table in
        Ok (filter (fun d => d_id d =? dependency_id) table') table'
    end.

(** The edges of the dependency graph, and the two invariants of the data
    model: no task depends on itself, no ordered pair is stored twice. *)
Definition edge (d : Dependency) : Z * Z := (d_task_id d, d_depends_on d).

Definition no_self_edge (table : Table) : Prop :=
  forall d, In d table -> d_task_id d <> d_depends_on d.

Definition edges_unique (table : Table) : Prop := NoDup (map edge table).

(** A chain of dependencies from one task to another. *)
Definition depends (table : Table) (a b : Z) : Prop :=
  exists d, In d table /\ d_task_id d = a /\ d_depends_on d = b.

Definition depends_transitively (table : Table) : Z -> Z -> Prop :=
  clos_trans Z (depends table).

(** *** Sample body *)
Definition requires (task_id depends_on : Z) : DependencyBase :=
  {| db_task_id := task_id; db_depends_on := depends_on;
     db_dependency_type := "requires" |}.

End TaskDependencies.

(** * AggregationService: the completion rates [calc_change] is given *)
Module RateChange.
Import DepartmentStats.

(** A completion rate is an integer from 0 to 100. *)
Definition rates : list Z := map Z.of_nat (seq 0 101).

(** The change of two rates as an exact quotient, truncated toward zero. *)
Definition exact_change (current previous : Z) : Z :=
  Z.quot ((current - previous) * 100) previous.

(** What holds of [calc_change] on a pair of rates: a result, not below
    -100, of the sign of the exact change, at most the exact change in
    magnitude and at most one short of it. *)
Definition change_within_one (current previous : Z) : bool :=
  match calc_change current previous with
  | Some r =>
      (-100 <=? r)
      && (Z.abs r <=? Z.abs (exact_change current previous))
      && (Z.abs (exact_change current previous) - 1 <=? Z.abs r)
      && (0 <=? r * exact_change current previous)
  | None => false
  end.

End RateChange.

(** * Properties of the hierarchy store *)

Lemma column_eq_true (c : option Z) (v : Z) :
  column_eq c v = true <-> c = Some v.
Proof.
  destruct c as [z|]; simpl.
  - rewrite Z.eqb_eq. split; [intros ->; reflexivity | intros [= ->]; reflexivity].
  - split; discriminate.
Qed.

Lemma option_Z_eqb_true (a b : option Z) :
  option_Z_eqb a b = true <-> a = b.
Proof.
  destruct a, b; simpl; try rewrite Z.eqb_eq;
    split; try discriminate; try congruence; auto.
Qed.

Lemma option_Z_eqb_false (a b : option Z) :
  a <> b -> option_Z_eqb a b = false.
Proof.
  intros H. destruct (option_Z_eqb a b) eqn:E; [|reflexivity].
  apply option_Z_eqb_true in E. contradiction.
Qed.

Module HierarchyTheory.
Import Hierarchy.

Section Traversal.
Variable db : Session.

Lemma children_of_spec (p : Z) (c : SubDepartment) :
  In c (children_of db p) <->
  In c (subdepartments db) /\ sd_parent_id c = Some p.
Proof.
  unfold children_of. rewrite filter_In, column_eq_true. reflexivity.
Qed.

Lemma child_of_children (p x : Z) :
  child_of db p x <-> exists c, In c (children_of db p) /\ sd_id c = x.
Proof.
  unfold child_of. split.
  - intros (s & Hin & Hid & Hp). exists s. rewrite children_of_spec. auto.
  - intros (c & Hin & Hid). apply children_of_spec in Hin.
    exists c. tauto.
Qed.

(** **** The loop over the children *)

Lemma extend_descendants_mono (r1 r2 : Z -> option (list Z))
    (cs : list SubDepartment) :
  (forall c l, In c cs -> r1 (sd_id c) = Some l -> r2 (sd_id c) = Some l) ->
  forall acc ds,
    extend_descendants r1 cs acc = Some ds ->
    extend_descendants r2 cs acc = Some ds.
Proof.
  induction cs as [|c cs IH]; simpl; intros Hr acc ds H; [exact H|].
  destruct (r1 (sd_id c)) as [l|] eqn:E; [|discriminate].
  rewrite (Hr c l (or_introl eq_refl) E).
  apply IH; [|exact H]. intros c' l' Hin. apply Hr. right. exact Hin.
Qed.

Lemma extend_descendants_total (r : Z -> option (list Z))
    (cs : list SubDepartment) :
  (forall c, In c cs -> exists l, r (sd_id c) = Some l) ->
  forall acc, exists ds, extend_descendants r cs acc = Some ds.
Proof.
  induction cs as [|c cs IH]; simpl; intros Hr acc; [eauto|].
  destruct (Hr c (or_introl eq_refl)) as [l ->].
  apply IH. intros c' Hin. apply Hr. right. exact Hin.
Qed.

Lemma extend_descendants_In (r : Z -> option (list Z))
    (cs : list SubDepartment) :
  forall acc ds x,
    extend_descendants r cs acc = Some ds ->
    (In x ds <->
     In x acc \/
     exists c, In c cs /\
       (x = sd_id c \/ exists l, r (sd_id c) = Some l /\ In x l)).
Proof.
  induction cs as [|c cs IH]; simpl; intros acc ds x H.
  - injection H as <-. split; [auto|]. intros [Hx|(c & [] & _)]. exact Hx.
  - destruct (r (sd_id c)) as [l|] eqn:E; [|discriminate].
    rewrite (IH _ _ x H), !in_app_iff. simpl. split.
    + intros [[[Hx|[Hx|[]]]|Hx]|(c' & Hin & Hc')].
      * left. exact Hx.
      * right. exists c. split; [left; reflexivity|]. left. symmetry. exact Hx.
      * right. exists c. split; [left; reflexivity|]. right. eauto.
      * right. exists c'. split; [right; exact Hin|exact Hc'].
    + intros [Hx|(c' & [<-|Hin] & Hc')].
      * left. left. left. exact Hx.
      * destruct Hc' as [->|(l' & El & Hx)].
        -- left. left. right. left. reflexivity.
        -- rewrite E in El. injection El as <-. left. right. exact Hx.
      * right. exists c'. split; [exact Hin|exact Hc'].
Qed.

(** **** More recursion budget never changes a result *)

Lemma get_all_descendant_ids_S (depth : nat) :
  forall id ds,
    get_all_descendant_ids depth db id = Some ds ->
    get_all_descendant_ids (S depth) db id = Some ds.
Proof.
  induction depth as [|n IH]; intros id ds H; [discriminate|].
  change (extend_descendants (get_all_descendant_ids (S n) db)
            (children_of db id) [] = Some ds).
  change (extend_descendants (get_all_descendant_ids n db)
            (children_of db id) [] = Some ds) in H.
  revert H. apply extend_descendants_mono. intros c l _. apply IH.
Qed.

Lemma get_all_descendant_ids_le (d1 d2 : nat) (id : Z) (ds : list Z) :
  (d1 <= d2)%nat ->
  get_all_descendant_ids d1 db id = Some ds ->
  get_all_descendant_ids d2 db id = Some ds.
Proof.
  induction 1 as [|d2 Hle IH]; intros H; [exact H|].
  apply get_all_descendant_ids_S, IH, H.
Qed.

(** **** What the traversal returns *)

Lemma extend_descendants_defined (r : Z -> option (list Z))
    (cs : list SubDepartment) :
  forall acc ds,
    extend_descendants r cs acc = Some ds ->
    forall c, In c cs -> exists l, r (sd_id c) = Some l.
Proof.
  induction cs as [|c cs IH]; simpl; intros acc ds H c' Hin; [contradiction|].
  destruct (r (sd_id c)) as [l|] eqn:E; [|discriminate].
  destruct Hin as [<-|Hin]; [eauto|]. eapply IH; eauto.
Qed.

Lemma get_all_descendant_ids_In (depth : nat) :
  forall id ds x,
    get_all_descendant_ids depth db id = Some ds ->
    (In x ds <-> descendant db id x).
Proof.
  induction depth as [|n IH]; intros id ds x H; [discriminate|].
  change (extend_descendants (get_all_descendant_ids n db)
            (children_of db id) [] = Some ds) in H.
  rewrite (extend_descendants_In _ _ _ _ x H).
  unfold descendant. rewrite clos_trans_t1n_iff. split.
  - intros [[]|(c & Hin & [->|(l & El & Hx)])].
    + apply t1n_step. apply child_of_children. eauto.
    + eapply Relation_Operators.t1n_trans.
      * apply child_of_children. exists c. split; [exact Hin|reflexivity].
      * apply clos_trans_t1n_iff. apply (proj1 (IH _ _ x El)). exact Hx.
  - intros Hd. right. inversion Hd as [y Hc|y z Hc Hrest]; subst.
    + apply child_of_children in Hc. destruct Hc as (c & Hin & <-).
      exists c. auto.
    + apply child_of_children in Hc. destruct Hc as (c & Hin & <-).
      exists c. split; [exact Hin|]. right.
      destruct (extend_descendants_defined _ _ _ _ H c Hin) as [l El].
      exists l. split; [exact El|].
      apply (proj2 (IH _ _ x El)). apply clos_trans_t1n_iff. exact Hrest.
Qed.

(** **** Termination on a ranked tree *)

Variable rank : Z -> nat.
Hypothesis Hranked : ranked rank db.

Lemma child_of_rank (p c : Z) : child_of db p c -> (rank c < rank p)%nat.
Proof. intros (s & Hin & <- & Hp). exact (Hranked s p Hin Hp). Qed.

Lemma descendant_rank (p x : Z) : descendant db p x -> (rank x < rank p)%nat.
Proof.
  induction 1 as [p x H|p y x _ IH1 _ IH2].
  - apply child_of_rank, H.
  - lia.
Qed.

Lemma descendant_irrefl (x : Z) : ~ descendant db x x.
Proof. intros H. apply descendant_rank in H. lia. Qed.

Lemma get_all_descendant_ids_terminates (depth : nat) :
  forall id, (rank id < depth)%nat ->
             exists ds, get_all_descendant_ids depth db id = Some ds.
Proof.
  induction depth as [|n IH]; intros id Hlt; [lia|].
  simpl. apply extend_descendants_total. intros c Hin.
  apply IH. apply children_of_spec in Hin. destruct Hin as [Hin Hp].
  specialize (Hranked c id Hin Hp). lia.
Qed.

(** **** Each node once *)

Hypothesis Hunique : unique_ids db.

Lemma row_of_id (s s' : SubDepartment) :
  In s (subdepartments db) -> In s' (subdepartments db) ->
  sd_id s = sd_id s' -> s = s'.
Proof.
  unfold unique_ids in Hunique. revert Hunique.
  induction (subdepartments db) as [|a l IH]; simpl; [contradiction|].
  intros Hnd. inversion Hnd as [|? ? Hnotin Hnd']; subst.
  intros [->|Hs] [->|Hs'] Heq; auto.
  - exfalso. apply Hnotin. rewrite Heq. apply in_map. exact Hs'.
  - exfalso. apply Hnotin. rewrite <- Heq. apply in_map. exact Hs.
Qed.

Lemma unique_parent (p q x : Z) : child_of db p x -> child_of db q x -> p = q.
Proof.
  intros (s & Hin & Hid & Hp) (s' & Hin' & Hid' & Hq).
  assert (s = s') by (apply row_of_id; congruence).
  subst s'. congruence.
Qed.

Lemma ancestors_linear (a b x : Z) :
  descendant db a x -> descendant db b x ->
  a = b \/ descendant db a b \/ descendant db b a.
Proof.
  unfold descendant. rewrite !clos_trans_tn1_iff.
  intros Ha. revert b. induction Ha as [x Hax|y x Hyx Hay IH]; intros b Hb.
  - destruct Hb as [x Hbx|y' x Hy'x Hby'].
    + left. eapply unique_parent; eauto.
    + right. right.
      rewrite (unique_parent _ _ _ Hax Hy'x). exact Hby'.
  - destruct Hb as [x Hbx|y' x Hy'x Hby'].
    + right. left.
      rewrite (unique_parent _ _ _ Hbx Hyx). exact Hay.
    + rewrite <- (unique_parent _ _ _ Hyx Hy'x) in Hby'.
      exact (IH b Hby').
Qed.

Lemma siblings_unrelated (p c1 c2 : Z) :
  child_of db p c1 -> child_of db p c2 -> ~ descendant db c1 c2.
Proof.
  intros H1 H2 Hd. unfold descendant in Hd.
  apply clos_trans_tn1_iff in Hd.
  destruct Hd as [c2 Hc|y c2 Hy Hrest].
  - rewrite (unique_parent _ _ _ Hc H2) in H1.
    apply child_of_rank in H1. lia.
  - rewrite (unique_parent _ _ _ Hy H2) in Hrest.
    apply clos_trans_tn1_iff in Hrest.
    apply (descendant_rank c1 p) in Hrest. apply child_of_rank in H1. lia.
Qed.

(** The subtree below a child: the child and its descendants. *)
Definition in_subtree (c x : Z) : Prop := x = c \/ descendant db c x.

Lemma sibling_subtrees_disjoint (p c1 c2 x : Z) :
  child_of db p c1 -> child_of db p c2 ->
  in_subtree c1 x -> in_subtree c2 x -> c1 = c2.
Proof.
  intros H1 H2 [->|D1] [E|D2].
  - exact E.
  - exfalso. exact (siblings_unrelated p c2 c1 H2 H1 D2).
  - subst x. exfalso. exact (siblings_unrelated p c1 c2 H1 H2 D1).
  - destruct (ancestors_linear _ _ _ D1 D2) as [E|[D|D]]; [exact E| |]; exfalso.
    + exact (siblings_unrelated p c1 c2 H1 H2 D).
    + exact (siblings_unrelated p c2 c1 H2 H1 D).
Qed.

Lemma NoDup_map_filter {A B : Type} (f : A -> B) (g : A -> bool) (l : list A) :
  NoDup (map f l) -> NoDup (map f (filter g l)).
Proof.
  induction l as [|a l IH]; simpl; intros H; [constructor|].
  inversion H as [|? ? Hnotin Hnd]; subst.
  destruct (g a); simpl; [constructor|]; auto.
  intros Hin. apply Hnotin. apply in_map_iff in Hin.
  destruct Hin as (a' & <- & Hin). apply filter_In in Hin.
  apply in_map. tauto.
Qed.

Lemma extend_descendants_NoDup (r : Z -> option (list Z)) (p : Z)
    (cs : list SubDepartment) :
  (forall c l, In c cs -> r (sd_id c) = Some l ->
     NoDup l /\ forall x, In x l <-> descendant db (sd_id c) x) ->
  (forall c, In c cs -> child_of db p (sd_id c)) ->
  NoDup (map sd_id cs) ->
  forall acc ds,
    NoDup acc ->
    (forall x c, In x acc -> In c cs -> ~ in_subtree (sd_id c) x) ->
    extend_descendants r cs acc = Some ds ->
    NoDup ds.
Proof.
  induction cs as [|c cs IH]; simpl; intros Hr Hchild Hnd acc ds Hacc Hsep H.
  - injection H as <-. exact Hacc.
  - destruct (r (sd_id c)) as [l|] eqn:E; [|discriminate].
    destruct (Hr c l (or_introl eq_refl) E) as [Hl Hmem].
    inversion Hnd as [|? ? Hc_notin Hnd']; subst.
    assert (Hself : in_subtree (sd_id c) (sd_id c)) by (left; reflexivity).
    apply (IH (fun c' l' Hin => Hr c' l' (or_intror Hin))
              (fun c' Hin => Hchild c' (or_intror Hin)) Hnd'
              ((acc ++ [sd_id c]) ++ l) ds); [| |exact H].
    + apply NoDup_app; [apply NoDup_app| |]; auto.
      * constructor; [intros []|constructor].
      * intros x Hx [<-|[]]. exact (Hsep _ c Hx (or_introl eq_refl) Hself).
      * intros x Hx Hxl. apply in_app_iff in Hx. apply Hmem in Hxl.
        destruct Hx as [Hx|[<-|[]]].
        -- apply (Hsep x c Hx (or_introl eq_refl)). right. exact Hxl.
        -- exact (descendant_irrefl _ Hxl).
    + intros x c' Hx Hin' Hsub.
      assert (Hsame : sd_id c = sd_id c' -> False).
      { intros Heq. apply Hc_notin. rewrite Heq. apply in_map. exact Hin'. }
      rewrite !in_app_iff in Hx. destruct Hx as [[Hx|[<-|[]]]|Hx].
      * exact (Hsep x c' Hx (or_intror Hin') Hsub).
      * apply Hsame.
        apply (sibling_subtrees_disjoint p _ _ (sd_id c)); auto.
      * apply Hsame. apply Hmem in Hx.
        apply (sibling_subtrees_disjoint p _ _ x); auto.
        right. exact Hx.
Qed.

Lemma get_all_descendant_ids_NoDup (depth : nat) :
  forall id ds, get_all_descendant_ids depth db id = Some ds -> NoDup ds.
Proof.
  induction depth as [|n IH]; intros id ds H; [discriminate|].
  change (extend_descendants (get_all_descendant_ids n db)
            (children_of db id) [] = Some ds) in H.
  apply (extend_descendants_NoDup (get_all_descendant_ids n db) id
           (children_of db id)) with (acc := []) (ds := ds).
  - intros c l _ El. split; [exact (IH _ _ El)|].
    intros x. exact (get_all_descendant_ids_In n _ _ x El).
  - intros c Hin. apply child_of_children. eauto.
  - apply NoDup_map_filter. exact Hunique.
  - constructor.
  - intros x c [].
  - exact H.
Qed.

End Traversal.

Lemma query_subdept_some (db : Session) (current_user : CurrentUser)
    (id : Z) (s : SubDepartment) :
  query_subdept db current_user id = Some s ->
  In s (subdepartments db) /\ sd_id s = id /\
  sd_department_id s = cu_department_id current_user.
Proof.
  unfold query_subdept. intros H. apply find_some in H.
  destruct H as [Hin H]. apply andb_true_iff in H.
  rewrite !Z.eqb_eq in H. tauto.
Qed.

Lemma descendant_is_row (db : Session) (p x : Z) :
  descendant db p x -> exists s, In s (subdepartments db) /\ sd_id s = x.
Proof.
  unfold descendant. rewrite clos_trans_tn1_iff.
  intros [x' (s & Hin & Hid & _)|y x' (s & Hin & Hid & _) _]; eauto.
Qed.

(** **** Cycles and the recursion budget *)

Lemma extend_descendants_none (r : Z -> option (list Z))
    (cs : list SubDepartment) :
  forall acc,
    extend_descendants r cs acc = None ->
    exists c, In c cs /\ r (sd_id c) = None.
Proof.
  induction cs as [|c cs IH]; simpl; intros acc H; [discriminate|].
  destruct (r (sd_id c)) as [l|] eqn:E.
  - destruct (IH _ H) as (c' & Hin & Hc'). exists c'. auto.
  - exists c. auto.
Qed.

Lemma extend_descendants_child_none (r : Z -> option (list Z))
    (cs : list SubDepartment) (c : SubDepartment) :
  In c cs -> r (sd_id c) = None ->
  forall acc, extend_descendants r cs acc = None.
Proof.
  induction cs as [|c' cs IH]; simpl; intros Hin Hc acc; [contradiction|].
  destruct Hin as [->|Hin].
  - rewrite Hc. reflexivity.
  - destruct (r (sd_id c')); [apply IH; assumption|reflexivity].
Qed.

(** A traversal that runs out of budget has gone down a path of as many
    child steps as the budget. *)
Lemma get_all_descendant_ids_none_chain (db : Session) (depth : nat) :
  forall id,
    get_all_descendant_ids depth db id = None ->
    exists path, List.length path = depth /\ chain db id path.
Proof.
  induction depth as [|n IH]; intros id H.
  - exists []. split; [reflexivity|exact I].
  - simpl in H. destruct (extend_descendants_none _ _ _ H) as (c & Hin & Hc).
    destruct (IH _ Hc) as (path & Hlen & Hpath).
    exists (sd_id c :: path). split; [simpl; congruence|].
    split; [|exact Hpath]. apply child_of_children. eauto.
Qed.

Lemma chain_descendant (db : Session) (path : list Z) :
  forall x y, chain db x path -> In y path -> descendant db x y.
Proof.
  induction path as [|c rest IH]; simpl; intros x y Hp Hin; [contradiction|].
  destruct Hp as [Hc Hrest]. destruct Hin as [<-|Hin].
  - apply t_step. exact Hc.
  - apply t_trans with c; [apply t_step; exact Hc|exact (IH _ _ Hrest Hin)].
Qed.

Lemma chain_rows (db : Session) (path : list Z) :
  forall x, chain db x path -> incl path (map sd_id (subdepartments db)).
Proof.
  induction path as [|c rest IH]; simpl; intros x Hp y Hin; [contradiction|].
  destruct Hp as [(s & Hs & Hid & _) Hrest]. destruct Hin as [<-|Hin].
  - rewrite <- Hid. apply in_map. exact Hs.
  - exact (IH _ Hrest y Hin).
Qed.

Lemma chain_repeat (db : Session) (path : list Z) :
  forall x, chain db x path -> ~ NoDup path ->
            exists y, In y path /\ descendant db y y.
Proof.
  induction path as [|c rest IH]; simpl; intros x Hp Hnd.
  - exfalso. apply Hnd. constructor.
  - destruct Hp as [Hc Hrest].
    destruct (in_dec Z.eq_dec c rest) as [Hin|Hout].
    + exists c. split; [left; reflexivity|].
      exact (chain_descendant _ _ _ _ Hrest Hin).
    + destruct (IH c Hrest) as (y & Hy & Hcyc).
      * intros H. apply Hnd. constructor; assumption.
      * exists y. auto.
Qed.

(** A traversal that runs out of a budget above the number of rows has
    met a cycle below its start node. *)
Lemma get_all_descendant_ids_none_cycle (db : Session) (depth : nat) (id : Z) :
  (List.length (subdepartments db) < depth)%nat ->
  get_all_descendant_ids depth db id = None ->
  exists y, descendant db id y /\ descendant db y y.
Proof.
  intros Hlt H.
  destruct (get_all_descendant_ids_none_chain db depth id H)
    as (path & Hlen & Hpath).
  destruct (chain_repeat db path id Hpath) as (y & Hy & Hcyc).
  - intros Hnd.
    pose proof (NoDup_incl_length Hnd (chain_rows db path id Hpath)) as Hle.
    rewrite length_map in Hle. lia.
  - exists y. split; [exact (chain_descendant _ _ _ _ Hpath Hy)|exact Hcyc].
Qed.

(** A node on a cycle has a child on a cycle. *)
Lemma cycle_step (db : Session) (x : Z) :
  descendant db x x -> exists c, child_of db x c /\ descendant db c c.
Proof.
  intros H. pose proof H as H'. unfold descendant in H'.
  apply clos_trans_t1n_iff in H'.
  inversion H' as [y Hc|y z Hc Hrest]; subst.
  - exists x. auto.
  - exists y. split; [exact Hc|].
    apply clos_trans_t1n_iff in Hrest.
    apply t_trans with x; [exact Hrest|apply t_step; exact Hc].
Qed.

Lemma get_all_descendant_ids_child_none (db : Session) (depth : nat)
    (p c : Z) :
  child_of db p c ->
  get_all_descendant_ids depth db c = None ->
  get_all_descendant_ids (S depth) db p = None.
Proof.
  intros Hc H. apply child_of_children in Hc. destruct Hc as (s & Hin & <-).
  simpl. exact (extend_descendants_child_none _ _ s Hin H []).
Qed.

Lemma get_all_descendant_ids_on_cycle (db : Session) (depth : nat) :
  forall x, descendant db x x -> get_all_descendant_ids depth db x = None.
Proof.
  induction depth as [|n IH]; intros x H; [reflexivity|].
  destruct (cycle_step db x H) as (c & Hc & Hcyc).
  exact (get_all_descendant_ids_child_none db n x c Hc (IH c Hcyc)).
Qed.

Lemma get_all_descendant_ids_above_cycle (db : Session) (id x : Z) :
  descendant db id x -> descendant db x x ->
  forall depth, get_all_descendant_ids depth db id = None.
Proof.
  intros Hd Hcyc. unfold descendant in Hd. apply clos_trans_t1n_iff in Hd.
  induction Hd as [id x Hc|id y x Hc Hrest IH]; intros [|n]; try reflexivity.
  - exact (get_all_descendant_ids_child_none db n id x Hc
             (get_all_descendant_ids_on_cycle db n x Hcyc)).
  - exact (get_all_descendant_ids_child_none db n id y Hc (IH Hcyc n)).
Qed.

(** **** The rank of an acyclic table *)

Lemma first_from_spec (p : nat -> bool) (fuel : nat) :
  forall start k,
    (start <= k <= start + fuel)%nat -> p k = true ->
    p (first_from p start fuel) = true /\ (first_from p start fuel <= k)%nat.
Proof.
  induction fuel as [|f IH]; simpl; intros start k Hk Hp.
  - replace start with k by lia. auto.
  - destruct (p start) eqn:E; [split; [exact E|lia]|].
    apply IH; [|exact Hp].
    assert (start <> k) by (intros ->; congruence). lia.
Qed.

Lemma acyclic_budget (db : Session) (id : Z) :
  acyclic db ->
  exists ds,
    get_all_descendant_ids (S (List.length (subdepartments db))) db id
    = Some ds.
Proof.
  intros Hac.
  destruct (get_all_descendant_ids (S (List.length (subdepartments db))) db id)
    as [ds|] eqn:E; [eauto|].
  destruct (get_all_descendant_ids_none_cycle db _ id (Nat.lt_succ_diag_r _) E)
    as (y & _ & Hcyc).
  exfalso. exact (Hac y Hcyc).
Qed.

Lemma acyclic_ranked (db : Session) :
  acyclic db -> ranked (least_budget db) db.
Proof.
  intros Hac s p Hin Hp. unfold least_budget.
  set (n := S (List.length (subdepartments db))).
  destruct (acyclic_budget db p Hac) as [ds Hds]. fold n in Hds.
  destruct (first_from_spec
              (fun depth => is_some (get_all_descendant_ids depth db p))
              n 0 n) as [Hfound Hle]; [lia|rewrite Hds; reflexivity|].
  set (k := first_from _ 0 n) in *.
  destruct k as [|d]; [discriminate Hfound|].
  destruct (get_all_descendant_ids (S d) db p) as [l|] eqn:El;
    [|discriminate Hfound].
  simpl in El.
  destruct (extend_descendants_defined _ _ _ _ El s) as [ls Hls].
  { apply children_of_spec. auto. }
  destruct (first_from_spec
              (fun depth => is_some (get_all_descendant_ids depth db (sd_id s)))
              n 0 d) as [_ Hle']; [lia|rewrite Hls; reflexivity|].
  lia.
Qed.

(** C6, as the code has it.  On a table with unique keys and no cycle in
    [parent_id] the traversal of [get_all_descendant_ids] terminates, with
    one result for every recursion budget above the number of rows; the
    result holds exactly the nodes reachable from the start node by child
    steps, and each of them once.  The traversal keeps no record of the
    nodes it has visited: when a node that is its own descendant can be
    reached from the start node, every recursion budget ends in
    [RecursionError]. *)
Theorem get_all_descendant_ids_forest (db : Session) (id : Z) :
  (unique_ids db -> acyclic db ->
   exists ds,
     (forall depth, (List.length (subdepartments db) < depth)%nat ->
                    get_all_descendant_ids depth db id = Some ds) /\
     (forall x, In x ds <-> descendant db id x) /\
     NoDup ds) /\
  (forall x, descendant db id x -> descendant db x x ->
             forall depth, get_all_descendant_ids depth db id = None).
Proof.
  split.
  - intros Hu Hac. destruct (acyclic_budget db id Hac) as [ds Hds].
    exists ds. split; [|split].
    + intros depth Hlt.
      apply (get_all_descendant_ids_le db (S (List.length (subdepartments db))));
        [lia|exact Hds].
    + intros x. exact (get_all_descendant_ids_In db _ _ _ x Hds).
    + exact (get_all_descendant_ids_NoDup db (least_budget db)
               (acyclic_ranked db Hac) Hu _ _ _ Hds).
  - exact (get_all_descendant_ids_above_cycle db id).
Qed.

(** C1: on a forest, moving a subdepartment of the caller's department
    under itself or under one of its descendants (a member of
    [get_all_descendant_ids]) is refused with status 400, and the stored
    state after the refused call is the state before it. *)
Theorem update_subdepartment_rejects_cycle
    (rank : Z -> nat) (depth : nat) (db : Session)
    (current_user : CurrentUser) (id new_parent : Z)
    (subdept : SubDepartment) (subdept_update : SubdepartmentUpdate)
    (now : datetime) :
  forest rank db ->
  (rank id < depth)%nat ->
  query_subdept db current_user id = Some subdept ->
  field_value (upd_parent_id subdept_update) = Some new_parent ->
  (new_parent = id \/
   exists depth' ds, get_all_descendant_ids depth' db id = Some ds /\
                     In new_parent ds) ->
  update_subdepartment depth db current_user id subdept_update now
    = HTTPException 400 /\
  state_after db
    (update_subdepartment depth db current_user id subdept_update now) = db.
Proof.
  intros [Hu Hk Hr] Hdepth Hq Hnew Hcyc.
  assert (Hgoal : update_subdepartment depth db current_user id
                    subdept_update now = HTTPException 400);
    [|rewrite Hgoal; split; reflexivity].
  destruct (query_subdept_some _ _ _ _ Hq) as (Hin & Hid & _).
  assert (Hsub : new_parent = id \/ descendant db id new_parent).
  { destruct Hcyc as [E|(d' & ds & Hds & Hmem)]; [left; exact E|right].
    exact (proj1 (get_all_descendant_ids_In db _ _ _ new_parent Hds) Hmem). }
  assert (Hpos : 0 < new_parent).
  { destruct Hsub as [->|Hd].
    - rewrite <- Hid. apply Hk, Hin.
    - destruct (descendant_is_row _ _ _ Hd) as (s & Hs & <-). apply Hk, Hs. }
  assert (Hnot_parent : sd_parent_id subdept <> Some new_parent).
  { intros Hp. pose proof (Hr subdept new_parent Hin Hp) as Hlt.
    rewrite Hid in Hlt. destruct Hsub as [->|Hd]; [lia|].
    apply (descendant_rank db rank Hr) in Hd. lia. }
  unfold update_subdepartment. rewrite Hq, Hnew. cbn [truthy].
  replace (new_parent =? 0) with false by (symmetry; apply Z.eqb_neq; lia).
  rewrite option_Z_eqb_false by congruence. cbn [negb andb option_Z_eqb].
  destruct (Z.eqb_spec new_parent id) as [_|Hne]; [reflexivity|].
  destruct Hsub as [E|Hd]; [contradiction|].
  unfold is_descendant.
  destruct (get_all_descendant_ids_terminates db rank Hr depth id Hdepth)
    as [ds Hds].
  rewrite Hds.
  replace (existsb (Z.eqb new_parent) ds) with true; [reflexivity|].
  symmetry. apply existsb_exists. exists new_parent. split.
  - apply (get_all_descendant_ids_In db _ _ _ new_parent Hds). exact Hd.
  - apply Z.eqb_refl.
Qed.

Lemma sample_tree_forest : forest sample_rank sample_tree.
Proof.
  split.
  - unfold unique_ids. simpl. repeat constructor; simpl; intuition lia.
  - intros s Hin. simpl in Hin.
    repeat (destruct Hin as [<-|Hin]; [simpl; lia|]). contradiction.
  - intros s p Hin Hp. simpl in Hin.
    repeat (destruct Hin as [<-|Hin];
            [simpl in Hp; try discriminate; injection Hp as <-;
             vm_compute; lia|]).
    contradiction.
Qed.

Lemma cyclic_tree_cycle : descendant cyclic_tree 1 1.
Proof.
  apply t_trans with 2; apply t_step.
  - exists (subdept 2 (Some 1)). simpl. auto.
  - exists (subdept 1 (Some 2)). simpl. auto.
Qed.

Lemma get_all_descendant_ids_forest_witness :
  (exists ds,
     (forall depth, (4 < depth)%nat ->
                    get_all_descendant_ids depth sample_tree 1 = Some ds) /\
     (forall x, In x ds <-> descendant sample_tree 1 x) /\
     NoDup ds) /\
  (forall depth, get_all_descendant_ids depth cyclic_tree 1 = None).
Proof.
  split.
  - apply (proj1 (get_all_descendant_ids_forest sample_tree 1)).
    + exact (forest_unique _ _ sample_tree_forest).
    + exact (descendant_irrefl sample_tree sample_rank
               (forest_ranked _ _ sample_tree_forest)).
  - exact (proj2 (get_all_descendant_ids_forest cyclic_tree 1)
             1 cyclic_tree_cycle cyclic_tree_cycle).
Defined.

Example get_all_descendant_ids_sample :
  get_all_descendant_ids 5 sample_tree 1 = Some [2; 3; 4].
Proof. reflexivity. Qed.

Lemma cyclic_tree_diverges (depth : nat) :
  forall id, id = 1 \/ id = 2 ->
             get_all_descendant_ids depth cyclic_tree id = None.
Proof.
  induction depth as [|n IH]; intros id Hid; [reflexivity|].
  destruct Hid as [-> | ->]; simpl.
  - rewrite (IH 2) by auto. reflexivity.
  - rewrite (IH 1) by auto. reflexivity.
Qed.

(** C6 as stated fails: on two rows that are each other's parent the
    traversal returns for no recursion budget: every budget ends in
    [RecursionError]. *)
Lemma get_all_descendant_ids_cycle_counterexample :
  ~ exists depth ds, get_all_descendant_ids depth cyclic_tree 1 = Some ds.
Proof.
  intros (depth & ds & H).
  rewrite (cyclic_tree_diverges depth 1) in H by auto. discriminate.
Qed.

Lemma update_subdepartment_rejects_cycle_witness :
  update_subdepartment 5 sample_tree manager 1 (move_under 3) 1700000000
    = HTTPException 400 /\
  state_after sample_tree
    (update_subdepartment 5 sample_tree manager 1 (move_under 3) 1700000000)
    = sample_tree.
Proof.
  apply (update_subdepartment_rejects_cycle sample_rank 5 sample_tree manager
           1 3 (subdept 1 None) (move_under 3) 1700000000).
  - exact sample_tree_forest.
  - vm_compute. lia.
  - reflexivity.
  - reflexivity.
  - right. exists 5%nat, [2; 3; 4]. split; [reflexivity|simpl; tauto].
Defined.

(** The end-to-end scenario of the specification: with S2 under S1, moving
    S1 under S2 answers 400 and S2 is still the child of S1. *)
Example move_parent_under_child :
  update_subdepartment 5 sample_tree manager 1 (move_under 2) 1700000000
    = HTTPException 400.
Proof. reflexivity. Qed.

(** **** Deleting a subdepartment *)

Lemma find_is_some_iff {A : Type} (f : A -> bool) (l : list A) :
  is_some (find f l) = true <-> exists x, In x l /\ f x = true.
Proof.
  destruct (find f l) as [x|] eqn:E; simpl.
  - split; [intros _|reflexivity]. exists x. apply (find_some _ _ E).
  - split; [discriminate|]. intros (x & Hin & Hx).
    rewrite (find_none _ _ E x Hin) in Hx. discriminate.
Qed.

Lemma has_dependencies_spec (db : Session) (id : Z) :
  is_some (find (fun u => column_eq (user_subdepartment_id u) id) (users db))
  || is_some (find (fun t => column_eq (task_subdepartment_id t) id) (tasks db))
  = true
  <-> has_direct_member db id \/ has_direct_task db id.
Proof.
  rewrite orb_true_iff, !find_is_some_iff.
  unfold has_direct_member, has_direct_task.
  split; intros [(x & Hin & H)|(x & Hin & H)];
    [left|right|left|right]; exists x; split; auto;
    apply column_eq_true; exact H.
Qed.

(** C5 as stated fails: users 11 and 12 are members of node 3 through
    their participation rows, no user row and no task row names the node,
    and the delete without a reassignment target succeeds; the
    participation rows are stored as before and still name the removed
    node. *)
Lemma delete_subdepartment_without_target_counterexample :
  has_participation participation_tree 3 /\
  delete_subdepartment participation_tree manager 3 None
  = Ok tt {| subdepartments :=
               [subdept 1 None; subdept 2 (Some 1); subdept 4 (Some 1)];
             users := users participation_tree;
             tasks := [];
             participations := participations participation_tree |} /\
  ~ (delete_subdepartment participation_tree manager 3 None = HTTPException 400
     <-> has_participation participation_tree 3
         \/ has_direct_task participation_tree 3).
Proof.
  assert (Hp : has_participation participation_tree 3).
  { eexists. split; [left; reflexivity|reflexivity]. }
  split; [exact Hp|]. split; [reflexivity|].
  intros [_ H]. specialize (H (or_introl Hp)). discriminate H.
Qed.

(** C5, as the code has it: for a subdepartment of the caller's department,
    a delete without [reassign_to] answers 400 exactly when a user row or a
    task row has the node as [subdepartment_id]; with neither, it succeeds
    and removes the node's row.  The participation rows are not consulted:
    the answer is the same whatever they are, and they are stored as they
    were. *)
Theorem delete_subdepartment_without_target
    (db : Session) (current_user : CurrentUser) (id : Z)
    (subdept : SubDepartment) :
  query_subdept db current_user id = Some subdept ->
  (delete_subdepartment db current_user id None = HTTPException 400
   <-> has_direct_member db id \/ has_direct_task db id) /\
  (~ (has_direct_member db id \/ has_direct_task db id) ->
   delete_subdepartment db current_user id None =
   Ok tt {| subdepartments :=
              filter (fun s => negb (sd_id s =? id)) (subdepartments db);
            users := users db;
            tasks := tasks db;
            participations := participations db |}) /\
  (forall rows : list SubdepartmentParticipation,
     delete_subdepartment
       {| subdepartments := subdepartments db; users := users db;
          tasks := tasks db; participations := rows |}
       current_user id None = HTTPException 400
     <-> delete_subdepartment db current_user id None = HTTPException 400).
Proof.
  intros Hq. destruct (query_subdept_some _ _ _ _ Hq) as (_ & Hid & _).
  assert (Hq' : forall rows,
            query_subdept
              {| subdepartments := subdepartments db; users := users db;
                 tasks := tasks db; participations := rows |}
              current_user id = Some subdept) by (intros rows; exact Hq).
  unfold delete_subdepartment. cbn [subdepartments users tasks participations].
  rewrite Hq, Hid. cbn [truthy negb].
  rewrite andb_true_r.
  pose proof (has_dependencies_spec db id) as Hdep.
  split; [|split].
  - destruct (is_some _ || is_some _).
    + split; [intros _; apply Hdep; reflexivity|reflexivity].
    + split; [discriminate|]. intros H. apply Hdep in H. discriminate.
  - destruct (is_some _ || is_some _); [|reflexivity].
    intros Hno. exfalso. apply Hno, Hdep. reflexivity.
  - intros rows. rewrite (Hq' rows), Hid.
    destruct (is_some _ || is_some _); split; try reflexivity; discriminate.
Qed.

Lemma delete_subdepartment_without_target_witness :
  delete_subdepartment sample_tree manager 2 None = HTTPException 400 /\
  delete_subdepartment participation_tree manager 3 None
  = Ok tt {| subdepartments :=
               filter (fun s => negb (sd_id s =? 3))
                      (subdepartments participation_tree);
             users := users participation_tree;
             tasks := tasks participation_tree;
             participations := participations participation_tree |}.
Proof.
  split.
  - apply (proj1 (delete_subdepartment_without_target sample_tree manager 2
                    (subdept 2 (Some 1)) eq_refl)).
    left. eexists. split; [left; reflexivity|reflexivity].
  - apply (proj1 (proj2 (delete_subdepartment_without_target
                           participation_tree manager 3 (subdept 3 (Some 2))
                           eq_refl))).
    intros [(u & Hin & Hu)|(t & [] & _)].
    simpl in Hin. destruct Hin as [<-|[<-|[]]]; discriminate Hu.
Defined.

Example delete_with_dependents_refused :
  delete_subdepartment sample_tree manager 2 None = HTTPException 400.
Proof. reflexivity. Qed.

Example delete_without_dependents :
  delete_subdepartment
    {| subdepartments := subdepartments sample_tree; users := []; tasks := [];
       participations := [] |}
    manager 2 None
  = Ok tt {| subdepartments :=
               [subdept 1 None; subdept 3 (Some 2); subdept 4 (Some 1)];
             users := []; tasks := []; participations := [] |}.
Proof. reflexivity. Qed.

Lemma Forall2_map_right {A : Type} (R : A -> A -> Prop) (f : A -> A)
    (l : list A) :
  (forall x, In x l -> R x (f x)) -> Forall2 R l (map f l).
Proof.
  induction l as [|a l IH]; simpl; intros H; constructor; auto.
Qed.

Lemma relocated_if (id target : Z) (c : option Z) :
  relocated id target c (if column_eq c id then Some target else c).
Proof.
  unfold relocated. destruct (column_eq c id) eqn:E.
  - split; [reflexivity|]. intros H. apply column_eq_true in E. contradiction.
  - split; [|reflexivity]. intros H. apply column_eq_true in H. congruence.
Qed.

(** C4 as stated fails for the member rows of the data model: node 3, whose
    members are the participation rows of users 11 and 12, is deleted with
    the reassignment target 4; the delete succeeds and the participation
    rows are stored as before, so two member rows still reference node 3
    and none of them references node 4. *)
Lemma delete_subdepartment_reassigns_counterexample :
  has_participation participation_tree 3 /\
  exists db',
    delete_subdepartment participation_tree manager 3 (Some 4) = Ok tt db' /\
    participations db' = participations participation_tree /\
    has_participation db' 3 /\
    ~ has_participation db' 4.
Proof.
  split; [eexists; split; [left; reflexivity|reflexivity]|].
  eexists. split; [reflexivity|]. split; [reflexivity|]. split.
  - eexists. split; [left; reflexivity|reflexivity].
  - intros (p & Hin & Hp). simpl in Hin.
    destruct Hin as [<-|[<-|[]]]; discriminate Hp.
Qed.

(** C4, as the code has it: deleting a subdepartment of the caller's
    department with a reassignment target that is another subdepartment of
    that department (and not 0, which the handler reads as no target)
    succeeds; afterwards no user row and no task row refers to the deleted
    node, every user row and task row that referred to it refers to the
    target and every other one is as before.  The participation rows are
    stored as they were, those of the deleted node included.  Of the
    subdepartment rows only the node's own is removed, so a child of the
    node is kept with its [parent_id] unchanged. *)
Theorem delete_subdepartment_reassigns
    (db : Session) (current_user : CurrentUser) (id target : Z)
    (subdept target_subdept : SubDepartment) :
  query_subdept db current_user id = Some subdept ->
  query_subdept db current_user target = Some target_subdept ->
  target <> id ->
  target <> 0 ->
  exists db',
    delete_subdepartment db current_user id (Some target) = Ok tt db' /\
    (forall u, In u (users db') -> user_subdepartment_id u <> Some id) /\
    (forall t, In t (tasks db') -> task_subdepartment_id t <> Some id) /\
    Forall2 (user_relocated id target) (users db) (users db') /\
    Forall2 (task_relocated id target) (tasks db) (tasks db') /\
    participations db' = participations db /\
    (forall s, In s (subdepartments db') <->
               In s (subdepartments db) /\ sd_id s <> id) /\
    (forall child, In child (subdepartments db) -> sd_id child <> id ->
                   sd_parent_id child = Some id ->
                   exists child', In child' (subdepartments db') /\
                                  sd_id child' = sd_id child /\
                                  sd_parent_id child' = Some id).
Proof.
  intros Hq Hqt Hne Hnz.
  destruct (query_subdept_some _ _ _ _ Hq) as (_ & Hid & _).
  assert (Htruthy : truthy (Some target) = true).
  { simpl. apply negb_true_iff, Z.eqb_neq. exact Hnz. }
  unfold delete_subdepartment. rewrite Hq, Htruthy, Hqt, Hid.
  rewrite andb_false_r. eexists. split; [reflexivity|].
  cbn [users tasks subdepartments participations].
  assert (Hsub : forall s, In s (filter (fun s => negb (sd_id s =? id))
                                   (subdepartments db)) <->
                           In s (subdepartments db) /\ sd_id s <> id).
  { intros s. rewrite filter_In, negb_true_iff, Z.eqb_neq. reflexivity. }
  split; [|split; [|split; [|split; [|split; [reflexivity|split]]]]].
  - intros u Hin Hu. apply in_map_iff in Hin. destruct Hin as (u0 & <- & _).
    destruct (column_eq (user_subdepartment_id u0) id) eqn:E; simpl in Hu.
    + congruence.
    + apply column_eq_true in Hu. congruence.
  - intros t Hin Ht. apply in_map_iff in Hin. destruct Hin as (t0 & <- & _).
    destruct (column_eq (task_subdepartment_id t0) id) eqn:E; simpl in Ht.
    + congruence.
    + apply column_eq_true in Ht. congruence.
  - apply Forall2_map_right. intros u _.
    pose proof (relocated_if id target (user_subdepartment_id u)) as Hrel.
    unfold user_relocated.
    destruct (column_eq (user_subdepartment_id u) id); simpl; auto.
  - apply Forall2_map_right. intros t _.
    pose proof (relocated_if id target (task_subdepartment_id t)) as Hrel.
    unfold task_relocated.
    destruct (column_eq (task_subdepartment_id t) id); simpl; auto.
  - exact Hsub.
  - intros child Hin Hcid Hp. exists child. rewrite Hsub. auto.
Qed.

Lemma delete_subdepartment_reassigns_witness :
  exists db',
    delete_subdepartment sample_tree manager 2 (Some 4) = Ok tt db' /\
    (forall u, In u (users db') -> user_subdepartment_id u <> Some 2) /\
    (forall t, In t (tasks db') -> task_subdepartment_id t <> Some 2) /\
    Forall2 (user_relocated 2 4) (users sample_tree) (users db') /\
    Forall2 (task_relocated 2 4) (tasks sample_tree) (tasks db') /\
    participations db' = participations sample_tree /\
    (forall s, In s (subdepartments db') <->
               In s (subdepartments sample_tree) /\ sd_id s <> 2) /\
    (forall child, In child (subdepartments sample_tree) -> sd_id child <> 2 ->
                   sd_parent_id child = Some 2 ->
                   exists child', In child' (subdepartments db') /\
                                  sd_id child' = sd_id child /\
                                  sd_parent_id child' = Some 2).
Proof.
  apply (delete_subdepartment_reassigns sample_tree manager 2 4
           (subdept 2 (Some 1)) (subdept 4 (Some 1))).
  - reflexivity.
  - reflexivity.
  - lia.
  - lia.
Defined.

(** Node 2 is deleted with target 4: its member and its task move to node
    4, its child, node 3, still names node 2 as its parent, and so does the
    participation row of user 10. *)
Example delete_with_reassignment :
  delete_subdepartment sample_tree manager 2 (Some 4)
  = Ok tt
      {| subdepartments :=
           [subdept 1 None; subdept 3 (Some 2); subdept 4 (Some 1)];
         users :=
           [ {| user_id := 10; user_department_id := Some 1;
                user_subdepartment_id := Some 4 |};
             {| user_id := 11; user_department_id := Some 1;
                user_subdepartment_id := Some 3 |};
             {| user_id := 12; user_department_id := Some 1;
                user_subdepartment_id := None |} ];
         tasks :=
           [ {| task_id := 100; task_department_id := 1;
                task_subdepartment_id := Some 4 |};
             {| task_id := 101; task_department_id := 1;
                task_subdepartment_id := Some 4 |} ];
         participations :=
           [ {| sp_id := 1; sp_subdepartment_id := 2; sp_user_id := 10;
                sp_role := "member" |} ] |}.
Proof. reflexivity. Qed.

End HierarchyTheory.

(** * Properties of the assignment engine *)
Module AssignmentTheory.
Import Assignments Tasks.

(** **** The conditional update of one row *)

Lemma select_single_some (table : Table) (id : Z) (r : TaskAssignment) :
  select_single table id = Some r -> In r table /\ ta_id r = id.
Proof.
  unfold select_single. intros H. apply find_some in H.
  rewrite Z.eqb_eq in H. exact H.
Qed.

Lemma select_single_update (set_columns : TaskAssignment -> TaskAssignment)
    (table : Table) (id : Z) (current : TaskAssignment) :
  (forall r, ta_id (set_columns r) = ta_id r) ->
  select_single table id = Some current ->
  select_single (update_eq_id set_columns id table) id
  = Some (set_columns current).
Proof.
  intros Hid. unfold select_single, update_eq_id.
  induction table as [|r table IH]; simpl; [discriminate|].
  destruct (ta_id r =? id) eqn:E.
  - intros [= ->]. simpl. rewrite Hid, E. reflexivity.
  - intros H. simpl. rewrite E. exact (IH H).
Qed.

Lemma update_eq_id_rows (set_columns : TaskAssignment -> TaskAssignment)
    (table : Table) (id : Z) :
  Forall2 (fun r r' => if ta_id r =? id then r' = set_columns r else r' = r)
          table (update_eq_id set_columns id table).
Proof.
  unfold update_eq_id.
  induction table as [|r table IH]; simpl; constructor; [|exact IH].
  destruct (ta_id r =? id); reflexivity.
Qed.

Lemma Forall2_weaken {A B : Type} (R1 R2 : A -> B -> Prop) (l : list A)
    (l' : list B) :
  (forall a b, R1 a b -> R2 a b) -> Forall2 R1 l l' -> Forall2 R2 l l'.
Proof. intros H. induction 1; constructor; auto. Qed.

Lemma valid_status_accepted (st : string) :
  In st valid_statuses -> existsb (String.eqb st) valid_statuses = true.
Proof.
  intros H. apply existsb_exists. exists st. split; [exact H|].
  apply String.eqb_refl.
Qed.

(** C2 as stated fails: the stored row is at version 5, the body of the
    full update presents version 1 (and no timestamp), and the update is
    accepted all the same: it answers with the written row, now at version
    6. *)
Lemma update_task_assignment_stale_version_counterexample :
  b_version stale_body <> ta_version completed_assignment /\
  select_single sample_table 1 = Some completed_assignment /\
  exists rows table',
    update_task_assignment sample_table 1 stale_body 3000 = Ok rows table' /\
    option_map ta_version (select_single table' 1) = Some 6 /\
    option_map ta_status (select_single table' 1) = Some "In Progress"%string.
Proof.
  split; [discriminate|]. split; [reflexivity|].
  eexists. eexists. split; [reflexivity|]. split; reflexivity.
Qed.

Lemma json_serializable_spec (body : TaskAssignmentBase) :
  json_serializable body = true
  <-> b_started_at body = None /\ b_completed_at body = None.
Proof.
  unfold json_serializable.
  destruct (b_started_at body), (b_completed_at body); simpl;
    split; try discriminate; try tauto; intros [H1 H2]; discriminate.
Qed.

(** C2, as the code has it: each of the three updates of an existing
    assignment is decided without a look at the version the caller
    presents.  A full update whose body carries no [started_at] and no
    [completed_at] is accepted whatever its [version] is; one whose body
    carries one of them raises [TypeError] and writes nothing, again
    whatever its [version] is.  The status and progress updates take no
    version and are accepted for a valid status and a progress from 0 to
    100.  After an accepted update the version stored is the version
    stored before plus exactly one. *)
Theorem assignment_update_bumps_version
    (table : Table) (id : Z) (current : TaskAssignment) (now : datetime) :
  select_single table id = Some current ->
  (forall body : TaskAssignmentBase,
     b_started_at body = None -> b_completed_at body = None ->
     exists rows table',
       update_task_assignment table id body now = Ok rows table' /\
       option_map ta_version (select_single table' id)
       = Some (ta_version current + 1)) /\
  (forall body : TaskAssignmentBase,
     b_started_at body <> None \/ b_completed_at body <> None ->
     update_task_assignment table id body now = TypeError) /\
  (forall st : string, In st valid_statuses ->
     exists rows table',
       update_assignment_status table id st now = Ok rows table' /\
       option_map ta_version (select_single table' id)
       = Some (ta_version current + 1)) /\
  (forall progress : Z, 0 <= progress <= 100 ->
     exists rows table',
       update_assignment_progress table id progress now = Ok rows table' /\
       option_map ta_version (select_single table' id)
       = Some (ta_version current + 1)).
Proof.
  intros Hsel. split; [|split; [|split]].
  - intros body Hs Hc. unfold update_task_assignment. rewrite Hsel.
    rewrite (proj2 (json_serializable_spec body) (conj Hs Hc)). cbn [negb].
    eexists. eexists. split; [reflexivity|].
    rewrite (select_single_update _ _ _ current); auto.
  - intros body Hdated. unfold update_task_assignment. rewrite Hsel.
    destruct (json_serializable body) eqn:E; [|reflexivity].
    apply json_serializable_spec in E. tauto.
  - intros st Hst. unfold update_assignment_status.
    rewrite (valid_status_accepted st Hst), Hsel. cbn [negb].
    eexists. eexists. split; [reflexivity|].
    rewrite (select_single_update _ _ _ current); auto.
  - intros progress Hp. unfold update_assignment_progress.
    replace ((0 <=? progress) && (progress <=? 100)) with true
      by (symmetry; apply andb_true_iff; split; apply Z.leb_le; lia).
    rewrite Hsel. cbn [negb].
    eexists. eexists. split; [reflexivity|].
    rewrite (select_single_update _ _ _ current); auto.
Qed.

Lemma assignment_update_bumps_version_witness :
  (exists rows table',
     update_task_assignment sample_table 1 stale_body 3000 = Ok rows table' /\
     option_map ta_version (select_single table' 1)
     = Some (ta_version completed_assignment + 1)) /\
  update_task_assignment sample_table 1 dated_body 3000 = TypeError /\
  (exists rows table',
     update_assignment_status sample_table 1 "Under Review" 3000
     = Ok rows table' /\
     option_map ta_version (select_single table' 1)
     = Some (ta_version completed_assignment + 1)) /\
  (exists rows table',
     update_assignment_progress sample_table 1 60 3000 = Ok rows table' /\
     option_map ta_version (select_single table' 1)
     = Some (ta_version completed_assignment + 1)).
Proof.
  destruct (assignment_update_bumps_version sample_table 1
              completed_assignment 3000 eq_refl)
    as (Hfull & Hdated & Hstatus & Hprogress).
  split; [exact (Hfull stale_body eq_refl eq_refl)|].
  split; [apply Hdated; left; discriminate|].
  split; [apply Hstatus; simpl; tauto|].
  apply Hprogress. lia.
Defined.

(** **** Timestamps *)

(** The assignment-level status update keeps a timestamp that is already
    set: a repeated [Completed] leaves [completed_at], a repeated
    [In Progress] leaves [started_at], and the version goes up by one on
    every call. *)
Theorem update_assignment_status_keeps_timestamps
    (table : Table) (id : Z) (current : TaskAssignment) (st : string)
    (now : datetime) :
  select_single table id = Some current ->
  In st valid_statuses ->
  exists rows table' written,
    update_assignment_status table id st now = Ok rows table' /\
    select_single table' id = Some written /\
    ta_status written = st /\
    ta_version written = ta_version current + 1 /\
    (forall t, ta_completed_at current = Some t ->
               ta_completed_at written = Some t) /\
    (forall t, ta_started_at current = Some t ->
               ta_started_at written = Some t).
Proof.
  intros Hsel Hst. unfold update_assignment_status.
  rewrite (valid_status_accepted st Hst), Hsel. cbn [negb].
  eexists. eexists. eexists. split; [reflexivity|].
  split; [apply (select_single_update _ _ _ current); auto|].
  cbn. split; [reflexivity|]. split; [reflexivity|]. split.
  - intros t Ht. rewrite Ht. cbn. rewrite !andb_false_r. reflexivity.
  - intros t Ht. rewrite Ht. cbn. rewrite andb_false_r. reflexivity.
Qed.

Lemma update_assignment_status_keeps_timestamps_witness :
  exists rows table' written,
    update_assignment_status sample_table 1 "Completed" 9000
    = Ok rows table' /\
    select_single table' 1 = Some written /\
    ta_status written = "Completed"%string /\
    ta_version written = ta_version completed_assignment + 1 /\
    (forall t, ta_completed_at completed_assignment = Some t ->
               ta_completed_at written = Some t) /\
    (forall t, ta_started_at completed_assignment = Some t ->
               ta_started_at written = Some t).
Proof.
  apply (update_assignment_status_keeps_timestamps sample_table 1
           completed_assignment "Completed" 9000).
  - reflexivity.
  - simpl. tauto.
Defined.

(** C3 on the task-level status update: the assignment of task 7 was
    completed at time 2000 and is at version 5; setting the task to
    [Completed] again at time 9000 stores 9000 as [completed_at] and leaves
    the assignment at version 5. *)
Example update_task_status_overwrites_completed_at :
  ta_completed_at completed_assignment = Some 2000 /\
  ta_version completed_assignment = 5 /\
  exists task' db',
    update_task_status sample_session 7 {| status := COMPLETED |} 9000
    = Ok task' db' /\
    option_map ta_completed_at (select_single (task_assignments db') 1)
    = Some (Some 9000) /\
    option_map ta_version (select_single (task_assignments db') 1)
    = Some 5.
Proof.
  split; [reflexivity|]. split; [reflexivity|].
  eexists. eexists. split; [reflexivity|]. split; reflexivity.
Qed.

(** **** Derived progress *)

(** C7 as stated fails on the assignment-level status update: assignment 2
    is at [To Do] with progress 0; after its status is set to [Completed]
    the stored status is [Completed] and the stored progress is still 0,
    not 100. *)
Lemma update_assignment_status_progress_counterexample :
  exists rows table',
    update_assignment_status sample_table 2 "Completed" 9000
    = Ok rows table' /\
    option_map ta_status (select_single table' 2)
    = Some (status_value COMPLETED) /\
    option_map ta_progress (select_single table' 2) = Some 0 /\
    0 <> status_progress COMPLETED.
Proof.
  eexists. eexists. split; [reflexivity|].
  split; [reflexivity|]. split; [reflexivity|discriminate].
Qed.

(** C7, as the code has it.  The task-level status update writes, into
    every assignment of the task, the status together with the progress
    derived from it (0, 25, 75, 100) and leaves the other assignments as
    they are.  The assignment-level status update writes the status and
    keeps the stored progress.  The progress update writes any progress
    from 0 to 100 and keeps the stored status. *)
Theorem status_and_progress_updates :
  (forall s, status_progress s =
             match s with
             | TODO => 0 | IN_PROGRESS => 25
             | UNDER_REVIEW => 75 | COMPLETED => 100
             end) /\
  (forall db task_id status_update now task,
     find (fun t => t_id t =? task_id) (tasks db) = Some task ->
     exists task' db',
       update_task_status db task_id status_update now = Ok task' db' /\
       Forall2 (fun a a' =>
                  if ta_task_id a =? task_id
                  then ta_id a' = ta_id a /\
                       ta_status a' = status_value (status status_update) /\
                       ta_progress a' = status_progress (status status_update)
                  else a' = a)
               (task_assignments db) (task_assignments db')) /\
  (forall table id st now current,
     select_single table id = Some current ->
     In st valid_statuses ->
     exists rows table',
       update_assignment_status table id st now = Ok rows table' /\
       Forall2 (fun r r' =>
                  if ta_id r =? id
                  then ta_status r' = st /\ ta_progress r' = ta_progress r
                  else r' = r)
               table table') /\
  (forall table id progress now current,
     select_single table id = Some current ->
     0 <= progress <= 100 ->
     exists rows table',
       update_assignment_progress table id progress now = Ok rows table' /\
       Forall2 (fun r r' =>
                  if ta_id r =? id
                  then ta_progress r' = progress /\ ta_status r' = ta_status r
                  else r' = r)
               table table').
Proof.
  split; [intros []; reflexivity|]. split; [|split].
  - intros db task_id su now task Hfind.
    assert (Hid : t_id task = task_id).
    { apply find_some in Hfind. apply Z.eqb_eq, Hfind. }
    unfold update_task_status. rewrite Hfind, Hid.
    eexists. eexists. split; [reflexivity|]. cbn [task_assignments].
    induction (task_assignments db) as [|a l IH]; simpl; constructor;
      [|exact IH].
    destruct (ta_task_id a =? task_id); simpl; auto.
  - intros table id st now current Hsel Hst.
    unfold update_assignment_status.
    rewrite (valid_status_accepted st Hst), Hsel. cbn [negb].
    eexists. eexists. split; [reflexivity|].
    eapply Forall2_weaken; [|apply update_eq_id_rows].
    intros r r'. cbv beta. destruct (ta_id r =? id); [|auto].
    intros ->. split; reflexivity.
  - intros table id progress now current Hsel Hp.
    unfold update_assignment_progress.
    replace ((0 <=? progress) && (progress <=? 100)) with true
      by (symmetry; apply andb_true_iff; split; apply Z.leb_le; lia).
    rewrite Hsel. cbn [negb].
    eexists. eexists. split; [reflexivity|].
    eapply Forall2_weaken; [|apply update_eq_id_rows].
    intros r r'. cbv beta. destruct (ta_id r =? id); [|auto].
    intros ->. split; reflexivity.
Qed.

Lemma status_and_progress_updates_witness :
  (exists task' db',
     update_task_status sample_session 7 {| status := UNDER_REVIEW |} 9000
     = Ok task' db' /\
     Forall2 (fun a a' =>
                if ta_task_id a =? 7
                then ta_id a' = ta_id a /\
                     ta_status a' = "Under Review"%string /\
                     ta_progress a' = 75
                else a' = a)
             sample_table (task_assignments db')) /\
  (exists rows table',
     update_assignment_progress sample_table 2 40 9000 = Ok rows table' /\
     Forall2 (fun r r' =>
                if ta_id r =? 2
                then ta_progress r' = 40 /\ ta_status r' = ta_status r
                else r' = r)
             sample_table table').
Proof.
  destruct status_and_progress_updates as (_ & Htask & _ & Hprogress).
  split.
  - apply (Htask sample_session 7 {| status := UNDER_REVIEW |} 9000
             sample_task).
    reflexivity.
  - apply (Hprogress sample_table 2 40 9000 todo_assignment).
    + reflexivity.
    + lia.
Defined.

Example update_task_status_sample :
  option_map task_assignments
    (match update_task_status sample_session 7 {| status := IN_PROGRESS |} 9000
     with Ok _ db' => Some db' | _ => None end)
  = Some
      [ {| ta_id := 1; ta_task_id := 7; ta_assigned_to := 12;
           ta_status := "In Progress"; ta_progress := 25; ta_comments := None;
           ta_started_at := Some 1000; ta_completed_at := Some 2000;
           ta_version := 5; ta_created_at := 500; ta_updated_at := 9000 |};
        {| ta_id := 2; ta_task_id := 7; ta_assigned_to := 13;
           ta_status := "In Progress"; ta_progress := 25; ta_comments := None;
           ta_started_at := Some 9000; ta_completed_at := None;
           ta_version := 1; ta_created_at := 500; ta_updated_at := 9000 |} ].
Proof. reflexivity. Qed.

End AssignmentTheory.

(** * Properties of the scores *)
Module AnalyticsTheory.
Import Assignments Tasks Analytics.
Local Open Scope Q_scope.

Lemma weighted_score_guarded (a : Assignment) (started_at completed_at : datetime) :
  ta_completed_at (row a) = Some completed_at ->
  ta_started_at (row a) = Some started_at ->
  weighted_score started_at completed_at (t_priority (task a))
  = guarded_efficiency a * inject_Z (priority_weights (t_priority (task a))).
Proof.
  intros Hc Hs. unfold weighted_score, guarded_efficiency, actual_duration.
  rewrite Hc, Hs. reflexivity.
Qed.

(** The loop appends, in order, the weighted score of every assignment with
    both timestamps. *)
Lemma collect_scores_spec (assignments : list Assignment) :
  forall scores,
    collect_scores assignments scores
    = (scores ++
       map (fun a => guarded_efficiency a
                     * inject_Z (priority_weights (t_priority (task a))))
           (filter qualifies assignments))%list.
Proof.
  induction assignments as [|a l IH]; intros scores; simpl.
  - rewrite app_nil_r. reflexivity.
  - unfold qualifies at 1.
    destruct (ta_completed_at (row a)) as [c|] eqn:Hc;
      destruct (ta_started_at (row a)) as [st|] eqn:Hs; simpl;
      rewrite IH; try reflexivity.
    rewrite <- app_assoc. simpl.
    rewrite (weighted_score_guarded a st c Hc Hs). reflexivity.
Qed.

Lemma calculate_efficiency_score_eq (assignments : list Assignment) :
  calculate_efficiency_score assignments
  = guarded_efficiency_score assignments.
Proof.
  unfold calculate_efficiency_score, guarded_efficiency_score.
  destruct assignments as [|a l]; [reflexivity|].
  rewrite collect_scores_spec. rewrite app_nil_l.
  destruct (filter qualifies (a :: l)); reflexivity.
Qed.

Lemma positive_number_spec (x : Q) : positive_number x = true <-> 0 < x.
Proof.
  unfold positive_number. rewrite negb_true_iff.
  destruct (Qle_bool x 0) eqn:E.
  - apply Qle_bool_iff in E. split; [discriminate|].
    intros H. exfalso. exact (Qlt_not_le _ _ H E).
  - split; [intros _|reflexivity].
    apply Qnot_le_lt. intros H. apply Qle_bool_iff in H. congruence.
Qed.

Lemma guarded_efficiency_stated (a : Assignment) :
  0 < actual_duration a -> guarded_efficiency a = stated_efficiency a.
Proof.
  intros H. unfold guarded_efficiency, stated_efficiency.
  apply positive_number_spec in H. rewrite H. reflexivity.
Qed.

(** C8 as stated fails where the actual duration is not positive: for the
    low-priority assignment that was completed and then started 432000
    seconds later the code scores 25 (efficiency 1), while
    [min(estimated / actual, 2)] is -1 and the stated score is -25. *)
Lemma calculate_efficiency_score_counterexample :
  calculate_efficiency_score [restarted_low] == 25 /\
  stated_efficiency_score [restarted_low] == -25 /\
  ~ calculate_efficiency_score [restarted_low]
    == stated_efficiency_score [restarted_low].
Proof.
  split; [reflexivity|]. split; [reflexivity|].
  intros H. vm_compute in H. discriminate H.
Qed.

(** C8, as the code has it: over the assignments with both timestamps the
    efficiency is [min(432000 / actual, 2)] when the actual duration is
    positive and 1 when it is not; it is weighted by 4, 3, 2, 1 for
    Critical, High, Medium, Low; the score is the mean of the weighted
    values times 25, and 0 when no assignment qualifies.  Where every
    qualifying assignment has a positive duration this is the stated
    formula, and one Critical assignment done in 216000 seconds scores
    200. *)
Theorem calculate_efficiency_score_formula :
  (forall assignments,
     calculate_efficiency_score assignments
     = guarded_efficiency_score assignments) /\
  (forall assignments,
     (forall a, In a assignments -> qualifies a = true ->
                0 < actual_duration a) ->
     calculate_efficiency_score assignments
     = stated_efficiency_score assignments) /\
  (forall assignments,
     filter qualifies assignments = [] ->
     calculate_efficiency_score assignments = 0) /\
  (forall p, priority_weights p =
             match p with
             | Critical => 4 | High => 3 | Medium => 2 | Low => 1
             end%Z) /\
  actual_duration fast_critical == 216000 /\
  calculate_efficiency_score [fast_critical] == 200.
Proof.
  split; [exact calculate_efficiency_score_eq|].
  split; [|split; [|split; [intros []; reflexivity|split; reflexivity]]].
  - intros l Hpos. rewrite calculate_efficiency_score_eq.
    unfold guarded_efficiency_score, stated_efficiency_score.
    assert (Hq : forall a, In a (filter qualifies l) ->
                           guarded_efficiency a = stated_efficiency a).
    { intros a Hin. apply filter_In in Hin.
      apply guarded_efficiency_stated, Hpos; tauto. }
    destruct (filter qualifies l) as [|a q]; [reflexivity|].
    f_equal. f_equal. apply map_ext_in. intros x Hx. rewrite (Hq x Hx).
    reflexivity.
  - intros l Hnone. rewrite calculate_efficiency_score_eq.
    unfold guarded_efficiency_score. rewrite Hnone. reflexivity.
Qed.

Lemma calculate_efficiency_score_formula_witness :
  calculate_efficiency_score [fast_critical]
  = stated_efficiency_score [fast_critical].
Proof.
  apply (proj1 (proj2 calculate_efficiency_score_formula) [fast_critical]).
  intros a [<-|[]] _. reflexivity.
Defined.

(** **** Workload *)

Lemma calculate_workload_score_rows (rows : list Assignment) :
  calculate_workload_score (count_active rows) (weighted_load_of rows)
  = stated_workload_score (map (fun a => t_priority (task a)) rows).
Proof.
  unfold calculate_workload_score, stated_workload_score, count_active,
    weighted_load_of.
  rewrite length_map, map_map.
  destruct rows as [|a rows]; [reflexivity|].
  set (n := Z.of_nat (List.length (a :: rows))).
  assert (Hn : (0 < n)%Z) by (unfold n; simpl List.length; lia).
  replace (n >? 0)%Z with true by (symmetry; apply Z.gtb_lt; lia).
  replace (n =? 0)%Z with false by (symmetry; apply Z.eqb_neq; lia).
  reflexivity.
Qed.

Lemma active_rows_spec (user : Z) (joined : list Assignment) (a : Assignment) :
  In a (active_rows user joined)
  <-> In a joined /\ ta_assigned_to (row a) = user /\ is_active a = true.
Proof.
  unfold active_rows. rewrite filter_In, andb_true_iff, Z.eqb_eq. tauto.
Qed.

Lemma team_workload_rows (department_users : list (Z * string))
    (joined : list Assignment) (r : WorkloadRow) :
  In r (team_workload department_users joined) ->
  In (wr_id r, wr_display_name r) department_users /\
  active_rows (wr_id r) joined <> [] /\
  wr_active_tasks r = count_active (active_rows (wr_id r) joined) /\
  wr_weighted_load r = weighted_load_of (active_rows (wr_id r) joined).
Proof.
  unfold team_workload. intros Hin. apply in_flat_map in Hin.
  destruct Hin as ([user name] & Huser & Hin). cbn [fst snd] in Hin.
  destruct (active_rows user joined) as [|a rows] eqn:E; [contradiction|].
  destruct Hin as [<-|[]]. cbn [wr_id wr_display_name wr_active_tasks
                                  wr_weighted_load].
  rewrite E. split; [exact Huser|]. split; [discriminate|]. split; reflexivity.
Qed.

Lemma team_workload_nonempty (department_users : list (Z * string))
    (joined : list Assignment) (user : Z * string) (a : Assignment) :
  In user department_users -> In a joined ->
  ta_assigned_to (row a) = fst user -> is_active a = true ->
  team_workload department_users joined <> [].
Proof.
  intros Huser Ha Hto Hact Hnil.
  assert (Hin : In a (active_rows (fst user) joined))
    by (apply active_rows_spec; auto).
  destruct (active_rows (fst user) joined) as [|a0 rows] eqn:E;
    [contradiction|].
  assert (Hrow : In {| wr_id := fst user; wr_display_name := snd user;
                       wr_active_tasks := count_active (a0 :: rows);
                       wr_weighted_load := weighted_load_of (a0 :: rows) |}
                    (team_workload department_users joined)).
  { unfold team_workload. apply in_flat_map. exists user.
    split; [exact Huser|]. rewrite E. left. reflexivity. }
  rewrite Hnil in Hrow. exact Hrow.
Qed.

Lemma team_workload_empty (department_users : list (Z * string))
    (joined : list Assignment) :
  (forall user a, In user department_users -> In a joined ->
                  ta_assigned_to (row a) = fst user -> is_active a = false) ->
  team_workload department_users joined = [].
Proof.
  intros Hnone.
  destruct (team_workload department_users joined) as [|r l] eqn:E;
    [reflexivity|].
  destruct (team_workload_rows department_users joined r) as (Huser & Hne & _);
    [rewrite E; left; reflexivity|].
  destruct (active_rows (wr_id r) joined) as [|a rows] eqn:Ea;
    [contradiction|].
  assert (Ha : In a (active_rows (wr_id r) joined))
    by (rewrite Ea; left; reflexivity).
  apply active_rows_spec in Ha. destruct Ha as (Hin & Hto & Hact).
  rewrite (Hnone (wr_id r, wr_display_name r) a Huser Hin Hto) in Hact.
  discriminate.
Qed.

(** C9, the score against the handler that reports it.  The helper
    [calculate_workload_score] computes the stated formula,
    [min(active * 10, 100) * min(weighted_load / active, 2)], 0 for no
    active task and 50 for 3 active tasks with a weighted load of 5, and
    the query of the handler yields, for every user of the department with
    an active assignment, the count of the active assignments and their
    load with the weights 3, 2, 1, 0.  The handler reports none of it: it
    raises [ValueError] as soon as a user of the department has an active
    assignment, and answers with an empty list otherwise.  For user 12
    with three active tasks and a load of 5 the score is 50 and the
    request ends in [ValueError]. *)
Theorem get_workload_distribution_unpack_error :
  (forall rows : list Assignment,
     calculate_workload_score (count_active rows) (weighted_load_of rows)
     = stated_workload_score (map (fun a => t_priority (task a)) rows)) /\
  (forall weighted_load, calculate_workload_score 0 weighted_load == 0) /\
  (forall active_tasks weighted_load,
     (0 < active_tasks)%Z ->
     calculate_workload_score active_tasks weighted_load
     = inject_Z (Z.min (active_tasks * 10) 100)
       * Qmin (inject_Z weighted_load / inject_Z active_tasks) 2) /\
  (forall p, load_weight p =
             match p with
             | Critical => 3 | High => 2 | Medium => 1 | Low => 0
             end%Z) /\
  (forall department_users joined r,
     In r (team_workload department_users joined) ->
     In (wr_id r, wr_display_name r) department_users /\
     wr_active_tasks r = count_active (active_rows (wr_id r) joined) /\
     wr_weighted_load r = weighted_load_of (active_rows (wr_id r) joined) /\
     forall a, In a (active_rows (wr_id r) joined)
               <-> In a joined /\ ta_assigned_to (row a) = wr_id r
                   /\ is_active a = true) /\
  (forall department_users joined user a,
     In user department_users -> In a joined ->
     ta_assigned_to (row a) = fst user -> is_active a = true ->
     get_workload_distribution department_users joined = ValueError) /\
  (forall department_users joined,
     (forall user a, In user department_users -> In a joined ->
                     ta_assigned_to (row a) = fst user ->
                     is_active a = false) ->
     get_workload_distribution department_users joined = Ok [] tt) /\
  team_workload [(12%Z, "user12"%string)] three_active
  = [ {| wr_id := 12; wr_display_name := "user12";
         wr_active_tasks := 3; wr_weighted_load := 5 |} ] /\
  calculate_workload_score 3 5 == 50 /\
  get_workload_distribution [(12%Z, "user12"%string)] three_active
  = ValueError.
Proof.
  split; [exact calculate_workload_score_rows|].
  split; [intros w; reflexivity|].
  split.
  { intros n w Hn. unfold calculate_workload_score.
    replace (n >? 0)%Z with true by (symmetry; apply Z.gtb_lt; lia).
    reflexivity. }
  split; [intros []; reflexivity|].
  split.
  { intros users joined r Hin.
    destruct (team_workload_rows users joined r Hin) as (Hu & _ & Hc & Hw).
    split; [exact Hu|]. split; [exact Hc|]. split; [exact Hw|].
    intros a. apply active_rows_spec. }
  split.
  { intros users joined user a Huser Ha Hto Hact.
    unfold get_workload_distribution.
    pose proof (team_workload_nonempty users joined user a Huser Ha Hto Hact).
    destruct (team_workload users joined); [contradiction|reflexivity]. }
  split.
  { intros users joined Hnone. unfold get_workload_distribution.
    rewrite (team_workload_empty users joined Hnone). reflexivity. }
  split; [reflexivity|]. split; reflexivity.
Qed.

End AnalyticsTheory.

(** * Properties of the change-over-period helper *)
Module DepartmentStatsTheory.
Import DepartmentStats.

Lemma truncate_comp (q1 q2 : Q) : (q1 == q2)%Q -> truncate q1 = truncate q2.
Proof.
  unfold Qeq, truncate. destruct q1 as [n1 d1], q2 as [n2 d2]. simpl.
  intros H.
  rewrite <- (Z.quot_mul_cancel_r n1 (Zpos d1) (Zpos d2)) by discriminate.
  rewrite <- (Z.quot_mul_cancel_r n2 (Zpos d2) (Zpos d1)) by discriminate.
  rewrite H. f_equal. apply Z.mul_comm.
Qed.

Lemma truncate_inject_Z (z : Z) : truncate (inject_Z z) = z.
Proof. unfold truncate. simpl. apply Z.quot_1_r. Qed.

Lemma truncate_quotient (z d : Z) :
  0 < d -> truncate (inject_Z z / inject_Z d) = Z.quot z d.
Proof.
  intros Hd. destruct d as [|d|d]; try lia.
  unfold truncate, Qdiv, Qinv, Qmult, inject_Z. simpl.
  rewrite Z.mul_1_r. reflexivity.
Qed.

Lemma float_value_scaled (z e : Z) :
  0 <= e -> (inject_Z z * (2 # 1) ^ e == inject_Z (z * 2 ^ e))%Q.
Proof.
  intros He. rewrite inject_Z_mult, (Zpower_Qpower 2 e He). reflexivity.
Qed.

Lemma float_value_shifted (z e : Z) :
  e < 0 ->
  (inject_Z z * (2 # 1) ^ e == inject_Z z / inject_Z (2 ^ (- e)))%Q.
Proof.
  intros He. unfold Qdiv.
  rewrite (Zpower_Qpower 2 (- e)) by lia.
  rewrite <- Qpower_opp, Z.opp_involutive. reflexivity.
Qed.

(** [int(x)] is the value of a finite float truncated toward zero. *)
Lemma int_of_float_truncates (x : float) :
  is_finite x = true -> int_of_float x = Some (truncate (float_value x)).
Proof.
  destruct x as [s|s| |s m e]; simpl; try discriminate; intros _.
  - reflexivity.
  - f_equal. destruct (Z.leb_spec 0 e) as [He|He].
    + rewrite (truncate_comp _ _ (float_value_scaled _ e He)).
      symmetry. apply truncate_inject_Z.
    + rewrite (truncate_comp _ _ (float_value_shifted _ e He)).
      symmetry. apply truncate_quotient. apply Z.pow_pos_nonneg; lia.
Qed.

Lemma int_of_float_not_finite (x : float) :
  is_finite x = false -> int_of_float x = None.
Proof. destruct x; simpl; congruence. Qed.

(** C10 as stated fails: from 3 to 5 the change is 66.66..%, which the
    helper truncates to 66, while rounding to the nearest integer gives
    67. *)
Lemma calc_change_counterexample :
  calc_change 5 3 = Some 66 /\
  stated_change 5 3 = 67 /\
  calc_change 5 3 <> Some (stated_change 5 3).
Proof.
  split; [vm_compute; reflexivity|].
  split; [vm_compute; reflexivity|].
  vm_compute. discriminate.
Qed.

(** C10, as the code has it: the helper returns 100 if [previous] is 0 and
    [current] is positive, 0 if [previous] is 0 and [current] is not
    positive, and otherwise the float
    [(current - previous) / previous * 100] truncated toward zero (with an
    error instead of a result when that float is not finite). *)
Theorem calc_change_truncates (current previous : Z) :
  (previous = 0 -> 0 < current -> calc_change current previous = Some 100) /\
  (previous = 0 -> current <= 0 -> calc_change current previous = Some 0) /\
  (previous <> 0 -> is_finite (percent_change current previous) = true ->
   calc_change current previous
   = Some (truncate (float_value (percent_change current previous)))) /\
  (previous <> 0 -> is_finite (percent_change current previous) = false ->
   calc_change current previous = None).
Proof.
  unfold calc_change. repeat split.
  - intros -> Hc. simpl.
    replace (current >? 0) with true by (symmetry; apply Z.gtb_lt; lia).
    reflexivity.
  - intros -> Hc. simpl.
    replace (current >? 0) with false
      by (symmetry; rewrite Z.gtb_ltb; apply Z.ltb_ge; lia).
    reflexivity.
  - intros Hp Hfin. apply Z.eqb_neq in Hp. rewrite Hp.
    apply int_of_float_truncates, Hfin.
  - intros Hp Hinf. apply Z.eqb_neq in Hp. rewrite Hp.
    apply int_of_float_not_finite, Hinf.
Qed.

Lemma calc_change_truncates_witness :
  calc_change 5 3 = Some (truncate (float_value (percent_change 5 3))) /\
  calc_change 4 0 = Some 100 /\
  calc_change 0 0 = Some 0.
Proof.
  split; [|split].
  - apply (proj1 (proj2 (proj2 (calc_change_truncates 5 3)))).
    + discriminate.
    + vm_compute. reflexivity.
  - apply (proj1 (calc_change_truncates 4 0)); [reflexivity|lia].
  - apply (proj1 (proj2 (calc_change_truncates 0 0))); [reflexivity|lia].
Defined.

(** The float decides the integer: 29/100 is a float below 0.29, its
    product with 100 a float below 29, and the helper answers 28 where the
    exact quotient (129 - 100) * 100 / 100 is 29. *)
Example calc_change_last_bit :
  calc_change 129 100 = Some 28 /\ Z.quot ((129 - 100) * 100) 100 = 29.
Proof. split; vm_compute; reflexivity. Qed.

Example calc_change_samples :
  calc_change 6 3 = Some 100 /\
  calc_change 1 3 = Some (-66) /\
  calc_change 0 5 = Some (-100) /\
  calc_change 107 100 = Some 7.
Proof. repeat split; vm_compute; reflexivity. Qed.

End DepartmentStatsTheory.

(** * Properties of the subtree queries *)
Module HierarchyQueriesTheory.
Import Hierarchy HierarchyQueries HierarchyTheory.

Section Counting.
Context {A : Type} (col : A -> option Z) (table : list A).

Lemma filter_orb_exclusive (p q : A -> bool) (l : list A) :
  (forall a, p a = true -> q a = false) ->
  List.length (filter (fun a => p a || q a) l)
  = (List.length (filter p l) + List.length (filter q l))%nat.
Proof.
  intros Hex. induction l as [|a l IH]; simpl; [reflexivity|].
  destruct (p a) eqn:Hp; simpl.
  - rewrite (Hex a Hp), IH. reflexivity.
  - destruct (q a); simpl; rewrite IH; lia.
Qed.

Lemma refer_total_app (l1 l2 : list Z) :
  refer_total col table (l1 ++ l2)
  = refer_total col table l1 + refer_total col table l2.
Proof.
  unfold refer_total. induction l1 as [|x l1 IH]; simpl; [reflexivity|].
  rewrite IH. lia.
Qed.

(** On a list of distinct nodes, the rows selected by [in_] are the rows of
    the single nodes added up. *)
Lemma count_in_NoDup (ids : list Z) :
  NoDup ids ->
  Z.of_nat (List.length (filter (fun a => column_in (col a) ids) table))
  = refer_total col table ids.
Proof.
  induction 1 as [|x ids Hnotin Hnd IH]; simpl.
  - replace (filter (fun a => column_in (col a) []) table) with (@nil A);
      [reflexivity|].
    symmetry. induction table as [|a l IHl]; simpl; [reflexivity|].
    destruct (col a); simpl; exact IHl.
  - rewrite <- IH. unfold refer_count. rewrite <- Nat2Z.inj_add. f_equal.
    rewrite <- filter_orb_exclusive.
    + f_equal. apply filter_ext. intros a. unfold column_in, column_eq.
      destruct (col a); reflexivity.
    + intros a Ha. apply column_eq_true in Ha. rewrite Ha. simpl.
      destruct (existsb (Z.eqb x) ids) eqn:E; [|reflexivity].
      apply existsb_exists in E. destruct E as (y & Hy & Hxy).
      apply Z.eqb_eq in Hxy. subst y. contradiction.
Qed.

End Counting.

Section Subtree.
Variables (rank : Z -> nat) (db : Session).
Hypothesis Hforest : forest rank db.

Lemma subtree_ids_forest (depth : nat) (id : Z) :
  (rank id < depth)%nat ->
  exists ds,
    get_all_descendant_ids depth db id = Some ds /\
    subtree_ids depth db id = Some (ds ++ [id]) /\
    NoDup (ds ++ [id]) /\
    forall x, In x (ds ++ [id]) <-> x = id \/ descendant db id x.
Proof.
  destruct Hforest as [Hu _ Hr]. intros Hlt.
  destruct (get_all_descendant_ids_terminates db rank Hr depth id Hlt)
    as [ds Hds].
  exists ds. unfold subtree_ids. rewrite Hds.
  pose proof (get_all_descendant_ids_In db _ _ _ id Hds) as Hself.
  split; [reflexivity|]. split; [reflexivity|]. split.
  - apply NoDup_app.
    + exact (get_all_descendant_ids_NoDup db rank Hr Hu _ _ _ Hds).
    + constructor; [intros []|constructor].
    + intros x Hx [E|[]]. subst x. apply Hself in Hx.
      exact (descendant_irrefl db rank Hr _ Hx).
  - intros x. rewrite in_app_iff. simpl.
    rewrite (get_all_descendant_ids_In db _ _ _ x Hds).
    split; [intros [H|[H|[]]]|intros [H|H]]; auto.
Qed.

(** The loop over the children adds, to the rows counted so far, the rows
    of the subtree of every child. *)
Lemma extend_descendants_total_rows {A : Type} (col : A -> option Z)
    (table : list A) (r : Z -> option (list Z)) (cs : list SubDepartment) :
  forall acc ds,
    extend_descendants r cs acc = Some ds ->
    exists ks,
      Forall2 (fun c k => exists l, r (sd_id c) = Some l /\
                                    k = refer_total col table (l ++ [sd_id c]))
              cs ks /\
      refer_total col table ds
      = refer_total col table acc + fold_right Z.add 0 ks.
Proof.
  induction cs as [|c cs IH]; simpl; intros acc ds H.
  - injection H as <-. exists []. split; [constructor|simpl; lia].
  - destruct (r (sd_id c)) as [l|] eqn:E; [|discriminate].
    destruct (IH _ _ H) as (ks & Hks & Hsum).
    exists (refer_total col table (l ++ [sd_id c]) :: ks). split.
    + constructor; [eauto|exact Hks].
    + rewrite Hsum, !refer_total_app. simpl. lia.
Qed.

Lemma recursive_count_children {A : Type} (col : A -> option Z)
    (table : list A) (depth : nat) (id : Z) :
  (rank id < depth)%nat ->
  exists ids child_counts,
    subtree_ids depth db id = Some ids /\
    Forall2
      (fun c k =>
         exists ids_c,
           subtree_ids depth db (sd_id c) = Some ids_c /\
           k = Z.of_nat
                 (List.length
                    (filter (fun a => column_in (col a) ids_c) table)))
      (children_of db id) child_counts /\
    Z.of_nat (List.length (filter (fun a => column_in (col a) ids) table))
    = refer_count col table id + fold_right Z.add 0 child_counts.
Proof.
  intros Hlt.
  destruct (subtree_ids_forest depth id Hlt) as (ds & Hds & Hids & Hnd & _).
  exists (ds ++ [id]). destruct depth as [|n]; [lia|].
  change (extend_descendants (get_all_descendant_ids n db)
            (children_of db id) [] = Some ds) in Hds.
  assert (Hch : forall c, In c (children_of db id) ->
                          (rank (sd_id c) < S n)%nat).
  { intros c Hin. apply children_of_spec in Hin.
    destruct Hforest as [_ _ Hr]. pose proof (Hr c id (proj1 Hin) (proj2 Hin)).
    lia. }
  destruct (extend_descendants_total_rows col table _ _ _ _ Hds)
    as (ks & Hks & Hsum).
  exists ks. split; [exact Hids|]. split.
  - clear Hsum Hds. revert Hch.
    generalize dependent (children_of db id). intros cs Hks.
    induction Hks as [|c k cs ks' (l & El & Hk) _ IH];
      intros Hch; constructor.
    + destruct (subtree_ids_forest (S n) (sd_id c) (Hch c (or_introl eq_refl)))
        as (ds_c & Hds_c & Hids_c & Hnd_c & _).
      rewrite (get_all_descendant_ids_S db n _ _ El) in Hds_c.
      injection Hds_c as <-.
      exists (l ++ [sd_id c]). split; [exact Hids_c|].
      rewrite (count_in_NoDup col table _ Hnd_c). exact Hk.
    + apply IH. intros c' Hin. apply Hch. right. exact Hin.
  - rewrite (count_in_NoDup col table _ Hnd), refer_total_app, Hsum.
    simpl. lia.
Qed.

End Subtree.

(** On a forest, the recursive task count and the recursive member count of
    a node are the node's own tasks (members) plus the recursive counts of
    its children: no row is counted twice and none is lost. *)
Theorem recursive_counts_decompose
    (rank : Z -> nat) (depth : nat) (db : Session) (id : Z) :
  forest rank db ->
  (rank id < depth)%nat ->
  (exists n child_counts,
     get_recursive_task_count depth db id = Some n /\
     Forall2 (fun c k => get_recursive_task_count depth db (sd_id c) = Some k)
             (children_of db id) child_counts /\
     n = direct_task_count db id + fold_right Z.add 0 child_counts) /\
  (exists n child_counts,
     get_recursive_member_count depth db id = Some n /\
     Forall2 (fun c k => get_recursive_member_count depth db (sd_id c) = Some k)
             (children_of db id) child_counts /\
     n = direct_member_count db id + fold_right Z.add 0 child_counts).
Proof.
  intros Hf Hlt. split.
  - destruct (recursive_count_children rank db Hf task_subdepartment_id
                (tasks db) depth id Hlt) as (ids & ks & Hids & Hks & Hsum).
    exists (Z.of_nat
              (List.length
                 (filter (fun t => column_in (task_subdepartment_id t) ids)
                         (tasks db)))), ks.
    unfold get_recursive_task_count. rewrite Hids.
    split; [reflexivity|]. split; [|exact Hsum].
    clear Hsum. induction Hks as [|c k cs ks' (ids_c & Hc & ->) _ IH];
      constructor; [|exact IH].
    rewrite Hc. reflexivity.
  - destruct (recursive_count_children rank db Hf user_subdepartment_id
                (users db) depth id Hlt) as (ids & ks & Hids & Hks & Hsum).
    exists (Z.of_nat
              (List.length
                 (filter (fun u => column_in (user_subdepartment_id u) ids)
                         (users db)))), ks.
    unfold get_recursive_member_count. rewrite Hids.
    split; [reflexivity|]. split; [|exact Hsum].
    clear Hsum. induction Hks as [|c k cs ks' (ids_c & Hc & ->) _ IH];
      constructor; [|exact IH].
    rewrite Hc. reflexivity.
Qed.

Lemma recursive_counts_decompose_witness :
  (exists n child_counts,
     get_recursive_task_count 5 sample_tree 1 = Some n /\
     Forall2 (fun c k => get_recursive_task_count 5 sample_tree (sd_id c) = Some k)
             (children_of sample_tree 1) child_counts /\
     n = direct_task_count sample_tree 1 + fold_right Z.add 0 child_counts) /\
  (exists n child_counts,
     get_recursive_member_count 5 sample_tree 1 = Some n /\
     Forall2 (fun c k => get_recursive_member_count 5 sample_tree (sd_id c) = Some k)
             (children_of sample_tree 1) child_counts /\
     n = direct_member_count sample_tree 1 + fold_right Z.add 0 child_counts).
Proof.
  apply (recursive_counts_decompose sample_rank 5 sample_tree 1).
  - exact sample_tree_forest.
  - vm_compute. lia.
Defined.

Example recursive_counts_sample :
  get_recursive_task_count 5 sample_tree 1 = Some 2 /\
  get_recursive_member_count 5 sample_tree 1 = Some 2 /\
  get_recursive_member_count 5 sample_tree 2 = Some 2 /\
  get_recursive_member_count 5 sample_tree 4 = Some 0.
Proof. repeat split; reflexivity. Qed.

Lemma filter_andb_length {A : Type} (p q : A -> bool) (l : list A) :
  (List.length (filter (fun a => p a && q a) l)
   <= List.length (filter p l))%nat.
Proof.
  induction l as [|a l IH]; simpl; [lia|].
  destruct (p a), (q a); simpl; lia.
Qed.

Lemma percentage_bounds (part whole : Z) :
  0 <= part <= whole -> 0 < whole ->
  (0 <= inject_Z part / inject_Z whole * 100 <= 100)%Q.
Proof.
  intros Hp Hw. destruct whole as [|w|w]; try lia.
  unfold Qle, Qdiv, Qmult, Qinv, inject_Z. simpl. nia.
Qed.

(** On a forest the completion rate of a subtree is computed (no division
    by zero), lies between 0 and 100, and is 0 when the subtree holds no
    task. *)
Theorem calculate_completion_rate_bounds
    (is_completed : Task -> bool) (rank : Z -> nat) (depth : nat)
    (db : Session) (id : Z) :
  forest rank db ->
  (rank id < depth)%nat ->
  exists rate,
    calculate_completion_rate is_completed depth db id = Some rate /\
    (0 <= rate <= 100)%Q /\
    (get_recursive_task_count depth db id = Some 0 -> rate = 0%Q).
Proof.
  intros Hf Hlt.
  destruct (subtree_ids_forest rank db Hf depth id Hlt)
    as (ds & _ & Hids & _ & _).
  unfold calculate_completion_rate, get_recursive_task_count. rewrite Hids.
  set (in_subtree := fun t => column_in (task_subdepartment_id t) (ds ++ [id])).
  set (total := Z.of_nat (List.length (filter in_subtree (tasks db)))).
  destruct (Z.eqb_spec total 0) as [E|E].
  - exists 0%Q. split; [reflexivity|]. split; [split; discriminate|reflexivity].
  - eexists. split; [reflexivity|]. split.
    + apply percentage_bounds; [|lia]. split; [lia|].
      unfold total. apply Nat2Z.inj_le. apply filter_andb_length.
    + intros [= H]. contradiction.
Qed.

Lemma calculate_completion_rate_bounds_witness :
  exists rate,
    calculate_completion_rate (fun t => task_id t =? 100) 5 sample_tree 1
    = Some rate /\
    (0 <= rate <= 100)%Q /\
    (get_recursive_task_count 5 sample_tree 1 = Some 0 -> rate = 0%Q).
Proof.
  apply (calculate_completion_rate_bounds (fun t => task_id t =? 100)
           sample_rank 5 sample_tree 1).
  - exact sample_tree_forest.
  - vm_compute. lia.
Defined.

Lemma column_in_spec (c : option Z) (ids : list Z) :
  column_in c ids = true <-> exists x, c = Some x /\ In x ids.
Proof.
  unfold column_in. destruct c as [z|].
  - rewrite existsb_exists. split.
    + intros (x & Hin & Hx). apply Z.eqb_eq in Hx. subst x. eauto.
    + intros (x & [= ->] & Hin). exists x. split; [exact Hin|apply Z.eqb_refl].
  - split; [discriminate|]. intros (x & H & _). discriminate.
Qed.

(** On a forest, the members of a node with [include_children] are exactly
    the users whose subdepartment is the node or one of its descendants;
    they include every member listed without [include_children]. *)
Theorem get_subdepartment_members_subtree
    (rank : Z -> nat) (depth : nat) (db : Session) (id : Z) :
  forest rank db ->
  (rank id < depth)%nat ->
  exists members direct,
    get_subdepartment_members depth db id true = Some members /\
    get_subdepartment_members depth db id false = Some direct /\
    (forall u, In u members <->
               In u (users db) /\
               exists x, user_subdepartment_id u = Some x /\
                         (x = id \/ descendant db id x)) /\
    (forall u, In u direct -> In u members).
Proof.
  intros Hf Hlt.
  destruct (subtree_ids_forest rank db Hf depth id Hlt)
    as (ds & _ & Hids & _ & Hmem).
  unfold get_subdepartment_members. rewrite Hids.
  eexists. eexists. split; [reflexivity|]. split; [reflexivity|].
  assert (Hchar : forall u,
            In u (filter (fun u => column_in (user_subdepartment_id u)
                                             (ds ++ [id])) (users db)) <->
            In u (users db) /\
            exists x, user_subdepartment_id u = Some x /\
                      (x = id \/ descendant db id x)).
  { intros u. rewrite filter_In, column_in_spec. split.
    - intros (Hin & x & Hx & Hxin). split; [exact Hin|].
      exists x. split; [exact Hx|]. apply Hmem. exact Hxin.
    - intros (Hin & x & Hx & Hxin). split; [exact Hin|].
      exists x. split; [exact Hx|]. apply Hmem. exact Hxin. }
  split; [exact Hchar|].
  intros u Hu. apply filter_In in Hu. destruct Hu as [Hin Hu].
  apply column_eq_true in Hu. apply Hchar. eauto.
Qed.

Lemma get_subdepartment_members_subtree_witness :
  exists members direct,
    get_subdepartment_members 5 sample_tree 2 true = Some members /\
    get_subdepartment_members 5 sample_tree 2 false = Some direct /\
    (forall u, In u members <->
               In u (users sample_tree) /\
               exists x, user_subdepartment_id u = Some x /\
                         (x = 2 \/ descendant sample_tree 2 x)) /\
    (forall u, In u direct -> In u members).
Proof.
  apply (get_subdepartment_members_subtree sample_rank 5 sample_tree 2).
  - exact sample_tree_forest.
  - vm_compute. lia.
Defined.

End HierarchyQueriesTheory.

(** * Moves and deletions in the stored tree *)
Module HierarchyMovesTheory.
Import Hierarchy HierarchyTheory.

Lemma descendant_last_step (db : Session) (a x : Z) :
  descendant db a x ->
  exists y, child_of db y x /\ (y = a \/ descendant db a y).
Proof.
  unfold descendant. rewrite clos_trans_tn1_iff.
  intros [x' H|y x' H Hrest].
  - exists a. auto.
  - exists y. split; [exact H|]. right. apply clos_trans_tn1_iff. exact Hrest.
Qed.

Lemma is_descendant_false (depth : nat) (db : Session) (id p : Z) :
  is_descendant depth db id p = Some false -> ~ descendant db id p.
Proof.
  unfold is_descendant.
  destruct (get_all_descendant_ids depth db id) as [ds|] eqn:Hds;
    [|discriminate].
  intros [= Hex] Hd.
  apply (get_all_descendant_ids_In db _ _ _ p Hds) in Hd.
  assert (existsb (Z.eqb p) ds = true).
  { apply existsb_exists. exists p. split; [exact Hd|apply Z.eqb_refl]. }
  congruence.
Qed.

(** What a successful [update_subdepartment] has done: it stored the
    updated row, and the parent the row now names is neither the node nor
    one of its descendants. *)
Lemma update_subdepartment_ok (rank : Z -> nat) (depth : nat) (db db' : Session)
    (current_user : CurrentUser) (id : Z) (u : SubdepartmentUpdate)
    (now : datetime) (s' : SubDepartment) :
  forest rank db ->
  update_subdepartment depth db current_user id u now = Ok s' db' ->
  exists subdept,
    query_subdept db current_user id = Some subdept /\
    s' = apply_update subdept u now /\
    db' = store_subdept db s' /\
    forall q, sd_parent_id s' = Some q -> q <> id /\ ~ descendant db id q.
Proof.
  intros [Hu Hk Hr] H. unfold update_subdepartment in H.
  destruct (query_subdept db current_user id) as [subdept|] eqn:Hq;
    [|discriminate].
  destruct (query_subdept_some _ _ _ _ Hq) as (Hin & Hid & _).
  exists subdept. split; [reflexivity|].
  assert (Hold : forall q, sd_parent_id subdept = Some q ->
                           q <> id /\ ~ descendant db id q).
  { intros q Hp. pose proof (Hr subdept q Hin Hp) as Hlt. rewrite Hid in Hlt.
    split; [intros ->; lia|].
    intros Hd. apply (descendant_rank db rank Hr) in Hd. lia. }
  assert (Hzero : 0 <> id /\ ~ descendant db id 0).
  { pose proof (Hk _ Hin) as Hpos. rewrite Hid in Hpos. split; [lia|].
    intros Hd. destruct (descendant_is_row _ _ _ Hd) as (s & Hs & Hs0).
    pose proof (Hk _ Hs). lia. }
  assert (Hcommit : Ok s' db' = Ok (apply_update subdept u now)
                      (store_subdept db (apply_update subdept u now)) ->
                    (forall q, sd_parent_id (apply_update subdept u now) = Some q ->
                               q <> id /\ ~ descendant db id q) ->
                    s' = apply_update subdept u now /\
                    db' = store_subdept db s' /\
                    forall q, sd_parent_id s' = Some q ->
                              q <> id /\ ~ descendant db id q).
  { intros [= -> ->] Hnew. auto. }
  destruct (upd_parent_id u) as [|[p|]] eqn:Hfield; cbn [field_value truthy] in H.
  - apply Hcommit; [symmetry; exact H|].
    unfold apply_update. cbn [sd_parent_id]. rewrite Hfield. exact Hold.
  - assert (Hparent : sd_parent_id (apply_update subdept u now) = Some p).
    { unfold apply_update. cbn [sd_parent_id]. rewrite Hfield. reflexivity. }
    destruct (Z.eqb_spec p 0) as [-> | Hp0]; cbn [negb andb] in H.
    + apply Hcommit; [symmetry; exact H|].
      intros q. rewrite Hparent. intros [= <-]. exact Hzero.
    + destruct (option_Z_eqb (Some p) (sd_parent_id subdept)) eqn:Hsame;
        cbn [negb] in H.
      * apply option_Z_eqb_true in Hsame.
        apply Hcommit; [symmetry; exact H|].
        intros q. rewrite Hparent. intros [= <-]. apply Hold. congruence.
      * cbn [option_Z_eqb] in H.
        destruct (Z.eqb_spec p id) as [_|Hne]; [discriminate|].
        destruct (is_descendant depth db id p) as [[|]|] eqn:Hdesc;
          try discriminate.
        apply Hcommit; [symmetry; exact H|].
        intros q. rewrite Hparent. intros [= <-]. split; [exact Hne|].
        exact (is_descendant_false _ _ _ _ Hdesc).
  - apply Hcommit; [symmetry; exact H|].
    unfold apply_update. cbn [sd_parent_id]. rewrite Hfield. discriminate.
Qed.

Lemma apply_update_id (subdept : SubDepartment) (u : SubdepartmentUpdate)
    (now : datetime) :
  sd_id (apply_update subdept u now) = sd_id subdept.
Proof. reflexivity. Qed.

Lemma store_subdept_rows (db : Session) (s_new s : SubDepartment) :
  In s (subdepartments (store_subdept db s_new)) ->
  (s = s_new /\ exists s0, In s0 (subdepartments db) /\ sd_id s0 = sd_id s_new)
  \/ (In s (subdepartments db) /\ sd_id s <> sd_id s_new).
Proof.
  unfold store_subdept. cbn [subdepartments]. intros H.
  apply in_map_iff in H. destruct H as (s0 & Hs & Hin).
  destruct (Z.eqb_spec (sd_id s0) (sd_id s_new)) as [E|E].
  - left. split; [symmetry; exact Hs|eauto].
  - right. subst s. auto.
Qed.

Lemma store_subdept_ids (db : Session) (s_new : SubDepartment) :
  map sd_id (subdepartments (store_subdept db s_new))
  = map sd_id (subdepartments db).
Proof.
  unfold store_subdept. cbn [subdepartments]. rewrite map_map.
  apply map_ext. intros s.
  destruct (Z.eqb_spec (sd_id s) (sd_id s_new)) as [E|E]; congruence.
Qed.

(** Hanging a node under a parent outside its own subtree keeps the tree a
    forest: the rank of every node outside the subtree is raised above the
    rank of the moved node. *)
Lemma reparent_forest (rank : Z -> nat) (db : Session) (id : Z)
    (s_new : SubDepartment) :
  forest rank db ->
  sd_id s_new = id ->
  (exists s0, In s0 (subdepartments db) /\ sd_id s0 = id) ->
  (forall q, sd_parent_id s_new = Some q -> q <> id /\ ~ descendant db id q) ->
  exists rank', forest rank' (store_subdept db s_new).
Proof.
  intros [Hu Hk Hr] Hid (s0 & Hs0 & Hs0id) Hnew.
  destruct (get_all_descendant_ids_terminates db rank Hr (S (rank id)) id)
    as [ds Hds]; [lia|].
  pose proof (fun x => get_all_descendant_ids_In db _ _ _ x Hds) as Hmem.
  set (inside := fun x => (x =? id) || existsb (Z.eqb x) ds).
  assert (Hinside : forall x, inside x = true <-> x = id \/ descendant db id x).
  { intros x. unfold inside. rewrite orb_true_iff, Z.eqb_eq, <- Hmem.
    rewrite existsb_exists. split; intros [H|H]; auto.
    - destruct H as (y & Hy & E). apply Z.eqb_eq in E. subst y. auto.
    - right. exists x. split; [exact H|apply Z.eqb_refl]. }
  exists (fun x => if inside x then rank x else (rank x + S (rank id))%nat).
  split.
  - unfold unique_ids. rewrite store_subdept_ids. exact Hu.
  - intros s Hs. apply store_subdept_rows in Hs.
    destruct Hs as [[-> _]|[Hs _]]; [|exact (Hk _ Hs)].
    rewrite Hid, <- Hs0id. exact (Hk _ Hs0).
  - intros s q Hs Hp. apply store_subdept_rows in Hs.
    destruct Hs as [[-> _]|[Hs Hne]].
    + destruct (Hnew q Hp) as [Hq1 Hq2]. rewrite Hid.
      replace (inside id) with true
        by (symmetry; apply Hinside; left; reflexivity).
      destruct (inside q) eqn:Eq; [|lia].
      apply Hinside in Eq. tauto.
    + rewrite Hid in Hne. pose proof (Hr s q Hs Hp) as Hlt.
      assert (Hedge : child_of db q (sd_id s)) by (exists s; auto).
      destruct (inside (sd_id s)) eqn:Es; destruct (inside q) eqn:Eq; try lia.
      apply Hinside in Eq.
      assert (Hd : descendant db id (sd_id s)).
      { destruct Eq as [->|Eq]; [apply t_step; exact Hedge|].
        eapply t_trans; [exact Eq|apply t_step; exact Hedge]. }
      assert (inside (sd_id s) = true) by (apply Hinside; auto).
      congruence.
Qed.

(** A successful [update_subdepartment] keeps the forest invariant: keys
    stay unique and positive and the [parent_id] relation stays acyclic,
    whatever parent the update names. *)
Theorem update_subdepartment_preserves_forest
    (rank : Z -> nat) (depth : nat) (db db' : Session)
    (current_user : CurrentUser) (id : Z) (u : SubdepartmentUpdate)
    (now : datetime) (s' : SubDepartment) :
  forest rank db ->
  update_subdepartment depth db current_user id u now = Ok s' db' ->
  exists rank', forest rank' db'.
Proof.
  intros Hf H.
  destruct (update_subdepartment_ok _ _ _ _ _ _ _ _ _ Hf H)
    as (subdept & Hq & Hs' & -> & Hnew).
  destruct (query_subdept_some _ _ _ _ Hq) as (Hin & Hid & _).
  apply (reparent_forest rank db id s' Hf); auto.
  - rewrite Hs'. exact Hid.
  - eauto.
Qed.

Lemma update_subdepartment_preserves_forest_witness :
  exists rank',
    forest rank'
      (state_after sample_tree
         (update_subdepartment 5 sample_tree manager 3 (move_under 4)
            1700000000)).
Proof.
  apply (update_subdepartment_preserves_forest sample_rank 5 sample_tree _
           manager 3 (move_under 4) 1700000000
           (apply_update (subdept 3 (Some 2)) (move_under 4) 1700000000)).
  - exact sample_tree_forest.
  - reflexivity.
Defined.

Lemma store_subdept_keeps_edges (rank : Z -> nat) (db : Session) (id : Z)
    (s_new : SubDepartment) :
  ranked rank db ->
  sd_id s_new = id ->
  forall a x,
    descendant db a x -> a = id \/ descendant db id a ->
    descendant (store_subdept db s_new) a x.
Proof.
  intros Hr Hid a x Hd. unfold descendant in Hd.
  apply clos_trans_t1n_iff in Hd.
  induction Hd as [a y Hay|a y x Hay Hyx IH]; intros Ha.
  - apply t_step. destruct Hay as (s & Hs & Hsy & Hp).
    assert (Hy : descendant db id y).
    { destruct Ha as [->|Ha]; [apply t_step; exists s; auto|].
      eapply t_trans; [exact Ha|apply t_step; exists s; auto]. }
    exists s. split; [|auto].
    unfold store_subdept. cbn [subdepartments]. apply in_map_iff.
    exists s. split; [|exact Hs].
    destruct (Z.eqb_spec (sd_id s) (sd_id s_new)) as [E|E]; [|reflexivity].
    exfalso. rewrite Hid, Hsy in E. rewrite E in Hy.
    exact (descendant_irrefl db rank Hr _ Hy).
  - assert (Hy : descendant db id y).
    { destruct Ha as [->|Ha]; [apply t_step; exact Hay|].
      eapply t_trans; [exact Ha|apply t_step; exact Hay]. }
    eapply t_trans; [|apply IH; right; exact Hy].
    apply t_step. destruct Hay as (s & Hs & Hsy & Hp).
    exists s. split; [|auto].
    unfold store_subdept. cbn [subdepartments]. apply in_map_iff.
    exists s. split; [|exact Hs].
    destruct (Z.eqb_spec (sd_id s) (sd_id s_new)) as [E|E]; [|reflexivity].
    exfalso. rewrite Hid, Hsy in E. rewrite E in Hy.
    exact (descendant_irrefl db rank Hr _ Hy).
Qed.

(** After a successful move of a node under [p], the node is a child of
    [p], its whole former subtree lies below [p], and every descendant list
    computed for [p] in the new state holds the node. *)
Theorem update_subdepartment_moves_subtree
    (rank : Z -> nat) (depth : nat) (db db' : Session)
    (current_user : CurrentUser) (id p : Z) (u : SubdepartmentUpdate)
    (now : datetime) (s' : SubDepartment) :
  forest rank db ->
  update_subdepartment depth db current_user id u now = Ok s' db' ->
  upd_parent_id u = Given (Some p) ->
  sd_id s' = id /\
  sd_parent_id s' = Some p /\
  child_of db' p id /\
  (forall x, descendant db id x -> descendant db' p x) /\
  (forall depth' ds, get_all_descendant_ids depth' db' p = Some ds ->
                     In id ds).
Proof.
  intros Hf H Hfield.
  destruct (update_subdepartment_ok _ _ _ _ _ _ _ _ _ Hf H)
    as (subdept & Hq & Hs' & -> & Hnew).
  destruct (query_subdept_some _ _ _ _ Hq) as (Hin & Hid & _).
  assert (Hs'id : sd_id s' = id) by (rewrite Hs'; exact Hid).
  assert (Hparent : sd_parent_id s' = Some p).
  { rewrite Hs'. unfold apply_update. cbn [sd_parent_id]. rewrite Hfield.
    reflexivity. }
  assert (Hchild : child_of (store_subdept db s') p id).
  { exists s'. split; [|auto].
    unfold store_subdept. cbn [subdepartments]. apply in_map_iff.
    exists subdept. split; [|exact Hin].
    rewrite Hs'id, Hid, Z.eqb_refl. reflexivity. }
  split; [exact Hs'id|]. split; [exact Hparent|]. split; [exact Hchild|].
  split.
  - intros x Hx. eapply t_trans; [apply t_step; exact Hchild|].
    apply (store_subdept_keeps_edges rank db id s'); auto.
    apply Hf.
  - intros depth' ds Hds.
    apply (get_all_descendant_ids_In _ _ _ _ id Hds).
    apply t_step. exact Hchild.
Qed.

Lemma update_subdepartment_moves_subtree_witness :
  sd_id (apply_update (subdept 2 (Some 1)) (move_under 4) 1700000000) = 2 /\
  sd_parent_id (apply_update (subdept 2 (Some 1)) (move_under 4) 1700000000)
  = Some 4 /\
  child_of (store_subdept sample_tree
              (apply_update (subdept 2 (Some 1)) (move_under 4) 1700000000))
           4 2 /\
  (forall x, descendant sample_tree 2 x ->
             descendant
               (store_subdept sample_tree
                  (apply_update (subdept 2 (Some 1)) (move_under 4) 1700000000))
               4 x) /\
  (forall depth' ds,
     get_all_descendant_ids depth'
       (store_subdept sample_tree
          (apply_update (subdept 2 (Some 1)) (move_under 4) 1700000000))
       4 = Some ds ->
     In 2 ds).
Proof.
  apply (update_subdepartment_moves_subtree sample_rank 5 sample_tree _
           manager 2 4 (move_under 4) 1700000000).
  - exact sample_tree_forest.
  - reflexivity.
  - reflexivity.
Defined.

Example move_sample :
  get_all_descendant_ids 5
    (state_after sample_tree
       (update_subdepartment 5 sample_tree manager 2 (move_under 4) 1700000000))
    1
  = Some [4; 2; 3].
Proof. reflexivity. Qed.

(** A move is refused only for a cycle: on a forest, naming as parent any
    key that is neither the node nor one of its descendants is accepted and
    stored.  The parent is not looked up: it need not be a subdepartment
    of the department, nor exist at all. *)
Theorem update_subdepartment_accepts_outside_subtree
    (rank : Z -> nat) (depth : nat) (db : Session)
    (current_user : CurrentUser) (id p : Z) (subdept : SubDepartment)
    (u : SubdepartmentUpdate) (now : datetime) :
  forest rank db ->
  (rank id < depth)%nat ->
  query_subdept db current_user id = Some subdept ->
  upd_parent_id u = Given (Some p) ->
  p <> id ->
  ~ descendant db id p ->
  update_subdepartment depth db current_user id u now
  = Ok (apply_update subdept u now)
       (store_subdept db (apply_update subdept u now)) /\
  sd_parent_id (apply_update subdept u now) = Some p.
Proof.
  intros [Hu Hk Hr] Hdepth Hq Hfield Hne Hout.
  split; [|unfold apply_update; cbn [sd_parent_id]; rewrite Hfield; reflexivity].
  unfold update_subdepartment. rewrite Hq, Hfield. cbn [field_value].
  destruct (truthy (Some p) && negb (option_Z_eqb (Some p) (sd_parent_id subdept)));
    [|reflexivity].
  cbn [option_Z_eqb]. apply Z.eqb_neq in Hne. rewrite Hne.
  unfold is_descendant.
  destruct (get_all_descendant_ids_terminates db rank Hr depth id Hdepth)
    as [ds Hds].
  rewrite Hds.
  destruct (existsb (Z.eqb p) ds) eqn:E; [|reflexivity].
  exfalso. apply Hout. apply existsb_exists in E. destruct E as (x & Hx & Hpx).
  apply Z.eqb_eq in Hpx. subst x.
  exact (proj1 (get_all_descendant_ids_In db _ _ _ p Hds) Hx).
Qed.

Lemma update_subdepartment_accepts_outside_subtree_witness :
  update_subdepartment 5 sample_tree manager 3 (move_under 77) 1700000000
  = Ok (apply_update (subdept 3 (Some 2)) (move_under 77) 1700000000)
       (store_subdept sample_tree
          (apply_update (subdept 3 (Some 2)) (move_under 77) 1700000000)) /\
  sd_parent_id (apply_update (subdept 3 (Some 2)) (move_under 77) 1700000000)
  = Some 77.
Proof.
  apply (update_subdepartment_accepts_outside_subtree sample_rank 5 sample_tree
           manager 3 77 (subdept 3 (Some 2)) (move_under 77) 1700000000).
  - exact sample_tree_forest.
  - vm_compute. lia.
  - reflexivity.
  - reflexivity.
  - discriminate.
  - intros Hd. destruct (descendant_is_row _ _ _ Hd) as (s & Hs & Hid).
    simpl in Hs.
    repeat (destruct Hs as [<-|Hs]; [discriminate Hid|]). contradiction.
Defined.

(** **** Requests outside the caller's department *)




(** **** Deletions *)

Lemma delete_subdepartment_ok (db db' : Session) (current_user : CurrentUser)
    (id : Z) (reassign_to : option Z) :
  delete_subdepartment db current_user id reassign_to = Ok tt db' ->
  subdepartments db'
  = filter (fun s => negb (sd_id s =? id)) (subdepartments db).
Proof.
  unfold delete_subdepartment.
  destruct (query_subdept db current_user id) as [subdept|] eqn:Hq;
    [|discriminate].
  destruct (query_subdept_some _ _ _ _ Hq) as (_ & -> & _).
  destruct (_ && _); [discriminate|].
  destruct reassign_to as [target|].
  - destruct (truthy (Some target)).
    + destruct (query_subdept db current_user target); [|discriminate].
      intros [= <-]. reflexivity.
    + intros [= <-]. reflexivity.
  - intros [= <-]. reflexivity.
Qed.

Lemma relocate_to_self_users (id : Z) (l : list User) :
  map (fun u => if column_eq (user_subdepartment_id u) id
                then {| user_id := user_id u;
                        user_department_id := user_department_id u;
                        user_subdepartment_id := Some id |}
                else u) l = l.
Proof.
  rewrite <- (map_id l) at 2. apply map_ext. intros [i d sid]. simpl.
  destruct (column_eq sid id) eqn:E; [|reflexivity].
  apply column_eq_true in E. rewrite E. reflexivity.
Qed.

Lemma relocate_to_self_tasks (id : Z) (l : list Task) :
  map (fun t => if column_eq (task_subdepartment_id t) id
                then {| task_id := task_id t;
                        task_department_id := task_department_id t;
                        task_subdepartment_id := Some id |}
                else t) l = l.
Proof.
  rewrite <- (map_id l) at 2. apply map_ext. intros [i d sid]. simpl.
  destruct (column_eq sid id) eqn:E; [|reflexivity].
  apply column_eq_true in E. rewrite E. reflexivity.
Qed.

(** The reassignment target is not compared with the node being deleted:
    a delete that names the node itself as the target succeeds, removes the
    node and leaves every user row and task row as it was, so the
    dependents keep referring to the removed node. *)
Theorem delete_subdepartment_self_target
    (db : Session) (current_user : CurrentUser) (id : Z)
    (subdept : SubDepartment) :
  keys_positive db ->
  query_subdept db current_user id = Some subdept ->
  delete_subdepartment db current_user id (Some id)
  = Ok tt {| subdepartments :=
               filter (fun s => negb (sd_id s =? id)) (subdepartments db);
             users := users db;
             tasks := tasks db;
             participations := participations db |} /\
  (has_direct_member db id ->
   has_direct_member
     (state_after db (delete_subdepartment db current_user id (Some id))) id).
Proof.
  intros Hk Hq. destruct (query_subdept_some _ _ _ _ Hq) as (Hin & Hid & _).
  assert (H : delete_subdepartment db current_user id (Some id)
              = Ok tt {| subdepartments :=
                           filter (fun s => negb (sd_id s =? id))
                                  (subdepartments db);
                         users := users db;
                         tasks := tasks db;
                         participations := participations db |}).
  { unfold delete_subdepartment. rewrite Hq. cbn [truthy].
    replace (id =? 0) with false
      by (symmetry; apply Z.eqb_neq; specialize (Hk _ Hin); lia).
    cbn [negb]. rewrite andb_false_r, Hid.
    rewrite relocate_to_self_users, relocate_to_self_tasks. reflexivity. }
  rewrite H. split; [reflexivity|]. intros Hm. exact Hm.
Qed.

Lemma delete_subdepartment_self_target_witness :
  delete_subdepartment sample_tree manager 2 (Some 2)
  = Ok tt {| subdepartments :=
               filter (fun s => negb (sd_id s =? 2)) (subdepartments sample_tree);
             users := users sample_tree;
             tasks := tasks sample_tree;
             participations := participations sample_tree |} /\
  (has_direct_member sample_tree 2 ->
   has_direct_member
     (state_after sample_tree
        (delete_subdepartment sample_tree manager 2 (Some 2))) 2).
Proof.
  apply (delete_subdepartment_self_target sample_tree manager 2
           (subdept 2 (Some 1))).
  - apply sample_tree_forest.
  - reflexivity.
Defined.

Lemma filter_child_of (db db' : Session) (id p x : Z) :
  subdepartments db'
  = filter (fun s => negb (sd_id s =? id)) (subdepartments db) ->
  child_of db' p x -> child_of db p x /\ x <> id.
Proof.
  intros Hrows (s & Hs & Hx & Hp). rewrite Hrows in Hs.
  apply filter_In in Hs. destruct Hs as [Hs Hne].
  apply negb_true_iff, Z.eqb_neq in Hne.
  split; [exists s; auto|congruence].
Qed.

(** A successful delete keeps the forest invariant, and the children of the
    deleted node are cut off with their subtrees: no node outside the old
    subtree of the deleted node has the node, or one of its former
    descendants, among its descendants afterwards. *)
Theorem delete_subdepartment_cuts_subtree
    (rank : Z -> nat) (db db' : Session) (current_user : CurrentUser)
    (id : Z) (reassign_to : option Z) :
  forest rank db ->
  delete_subdepartment db current_user id reassign_to = Ok tt db' ->
  forest rank db' /\
  (forall a x,
     a <> id -> ~ descendant db id a ->
     x = id \/ descendant db id x ->
     ~ descendant db' a x).
Proof.
  intros [Hu Hk Hr] H. pose proof (delete_subdepartment_ok _ _ _ _ _ H) as Hrows.
  split.
  - split.
    + unfold unique_ids. rewrite Hrows. apply NoDup_map_filter. exact Hu.
    + intros s Hs. rewrite Hrows in Hs. apply filter_In in Hs. apply Hk, Hs.
    + intros s p Hs. rewrite Hrows in Hs. apply filter_In in Hs. apply Hr, Hs.
  - intros a x Ha Hout Hx Hd. unfold descendant in Hd.
    apply clos_trans_tn1_iff in Hd.
    induction Hd as [x Hax|y x Hyx Hay IH].
    + destruct (filter_child_of _ _ _ _ _ Hrows Hax) as [Hax' Hne].
      destruct Hx as [->|Hx]; [contradiction|].
      destruct (descendant_last_step _ _ _ Hx) as (y & Hy & Hy').
      rewrite (unique_parent db Hu _ _ _ Hy Hax') in Hy'.
      destruct Hy'; contradiction.
    + destruct (filter_child_of _ _ _ _ _ Hrows Hyx) as [Hyx' Hne].
      destruct Hx as [->|Hx]; [contradiction|].
      destruct (descendant_last_step _ _ _ Hx) as (y' & Hy & Hy').
      rewrite (unique_parent db Hu _ _ _ Hy Hyx') in Hy'.
      apply IH. exact Hy'.
Qed.

Lemma delete_subdepartment_cuts_subtree_witness :
  forest sample_rank
    (state_after sample_tree
       (delete_subdepartment sample_tree manager 2 (Some 4))) /\
  (forall a x,
     a <> 2 -> ~ descendant sample_tree 2 a ->
     x = 2 \/ descendant sample_tree 2 x ->
     ~ descendant
         (state_after sample_tree
            (delete_subdepartment sample_tree manager 2 (Some 4))) a x).
Proof.
  apply (delete_subdepartment_cuts_subtree sample_rank sample_tree _ manager 2
           (Some 4)).
  - exact sample_tree_forest.
  - reflexivity.
Defined.

(** Node 3 was below node 1 through node 2; after node 2 is deleted node 3
    still names node 2 as its parent and is no longer listed below
    node 1. *)
Example delete_orphans_sample :
  get_all_descendant_ids 5 sample_tree 1 = Some [2; 3; 4] /\
  get_all_descendant_ids 5
    (state_after sample_tree
       (delete_subdepartment sample_tree manager 2 (Some 4))) 1
  = Some [4].
Proof. split; reflexivity. Qed.

End HierarchyMovesTheory.

(** * Creating, deleting and replaying assignments *)
Module AssignmentRequestsTheory.
Import Assignments Tasks AssignmentRequests AssignmentTheory.

Lemma NoDup_map_injective {A B : Type} (h : A -> B) (l : list A) (a b : A) :
  NoDup (map h l) -> In a l -> In b l -> h a = h b -> a = b.
Proof.
  induction l as [|x l IH]; simpl; [contradiction|].
  intros Hnd. inversion Hnd as [|? ? Hnotin Hnd']; subst.
  intros [->|Ha] [->|Hb] Heq; auto.
  - exfalso. apply Hnotin. rewrite Heq. apply in_map. exact Hb.
  - exfalso. apply Hnotin. rewrite <- Heq. apply in_map. exact Ha.
Qed.

Lemma no_existing_pair (table : Table) (task user : Z) :
  filter (fun r => (ta_task_id r =? task) && (ta_assigned_to r =? user)) table
  = [] ->
  ~ In (task, user) (map assignment_pair table).
Proof.
  intros Hnone Hin. apply in_map_iff in Hin. destruct Hin as (r & Hr & Hin).
  assert (Hf : In r (filter (fun r => (ta_task_id r =? task)
                                      && (ta_assigned_to r =? user)) table)).
  { apply filter_In. split; [exact Hin|].
    unfold assignment_pair in Hr. injection Hr as <- <-.
    rewrite !Z.eqb_refl. reflexivity. }
  rewrite Hnone in Hf. exact Hf.
Qed.

(** Creating an assignment keeps the pairs (task, assignee) unique: the new
    row is appended only when no row has its pair, and a second creation
    for the same pair is refused with 400. *)
Theorem create_task_assignment_keeps_pairs_unique
    (table table' : Table) (role : string) (assignment : TaskAssignmentBase)
    (new_id : Z) (now : datetime) (rows : list TaskAssignment) :
  pairs_unique table ->
  create_task_assignment table role assignment new_id now = Ok rows table' ->
  table' = table ++ rows /\
  pairs_unique table' /\
  Forall (fun r => assignment_pair r
                   = (b_task_id assignment, b_assigned_to assignment)) rows /\
  forall role' again new_id' now',
    b_task_id again = b_task_id assignment ->
    b_assigned_to again = b_assigned_to assignment ->
    create_task_assignment table' role' again new_id' now'
    = HTTPException (if may_manage role' then 400 else 403).
Proof.
  intros Hu H. unfold create_task_assignment in H.
  destruct (may_manage role); cbn [negb] in H; [|discriminate].
  destruct (filter _ table) as [|x l] eqn:Hnone; [|discriminate].
  destruct (json_serializable assignment); cbn [negb] in H; [|discriminate].
  injection H as <- <-.
  split; [reflexivity|]. split; [|split].
  - unfold pairs_unique. rewrite map_app. apply NoDup_app.
    + exact Hu.
    + constructor; [intros []|constructor].
    + intros pr Hin [<-|[]]. exact (no_existing_pair _ _ _ Hnone Hin).
  - constructor; [reflexivity|constructor].
  - intros role' again new_id' now' Ht Ha.
    unfold create_task_assignment.
    destruct (may_manage role'); cbn [negb]; [|reflexivity].
    rewrite filter_app, Ht, Ha. cbn [filter ta_task_id ta_assigned_to].
    rewrite !Z.eqb_refl. cbn [andb].
    destruct (filter _ table); reflexivity.
Qed.

Lemma sample_table_pairs_unique : pairs_unique sample_table.
Proof.
  unfold pairs_unique. simpl.
  constructor; [simpl; intros [H|[]]; discriminate H|].
  constructor; [intros []|constructor].
Qed.

Lemma create_task_assignment_keeps_pairs_unique_witness :
  state_after sample_table
    (create_task_assignment sample_table "manager" new_assignment_body 3 3000)
  = sample_table
    ++ [ {| ta_id := 3; ta_task_id := 8; ta_assigned_to := 12;
            ta_status := "To Do"; ta_progress := 0; ta_comments := None;
            ta_started_at := None; ta_completed_at := None; ta_version := 1;
            ta_created_at := 3000; ta_updated_at := 3000 |} ] /\
  pairs_unique
    (state_after sample_table
       (create_task_assignment sample_table "manager" new_assignment_body 3
          3000)).
Proof.
  destruct (create_task_assignment_keeps_pairs_unique sample_table _ "manager"
              new_assignment_body 3 3000 _ sample_table_pairs_unique eq_refl)
    as (Htable & Hunique & _).
  split; [exact Htable|exact Hunique].
Defined.

(** The full update writes the task and the assignee of its body without
    looking for another row with that pair: a body that can be encoded (no
    [started_at], no [completed_at]) and names the pair of another stored
    row is accepted and leaves two rows with one pair. *)
Theorem update_task_assignment_duplicates_pair
    (table : Table) (id : Z) (current other : TaskAssignment)
    (body : TaskAssignmentBase) (now : datetime) :
  select_single table id = Some current ->
  In other table ->
  ta_id other <> id ->
  b_task_id body = ta_task_id other ->
  b_assigned_to body = ta_assigned_to other ->
  b_started_at body = None ->
  b_completed_at body = None ->
  exists rows table',
    update_task_assignment table id body now = Ok rows table' /\
    ~ pairs_unique table'.
Proof.
  intros Hsel Hother Hne Ht Ha Hs Hc. unfold update_task_assignment.
  rewrite Hsel, (proj2 (json_serializable_spec body) (conj Hs Hc)).
  cbn [negb].
  eexists. eexists. split; [reflexivity|].
  destruct (select_single_some _ _ _ Hsel) as [Hcur Hcurid].
  unfold pairs_unique, update_eq_id. rewrite map_map. intros Hnd.
  apply Hne. rewrite <- Hcurid. f_equal.
  apply (NoDup_map_injective _ _ other current Hnd Hother Hcur).
  apply Z.eqb_neq in Hne. rewrite Hne, Hcurid, Z.eqb_refl.
  unfold assignment_pair. cbn [ta_task_id ta_assigned_to]. congruence.
Qed.

Lemma update_task_assignment_duplicates_pair_witness :
  exists rows table',
    update_task_assignment sample_table 2 stale_body 3000 = Ok rows table' /\
    ~ pairs_unique table'.
Proof.
  apply (update_task_assignment_duplicates_pair sample_table 2 todo_assignment
           completed_assignment stale_body 3000).
  - reflexivity.
  - simpl. auto.
  - discriminate.
  - reflexivity.
  - reflexivity.
  - reflexivity.
  - reflexivity.
Defined.

(** **** Deleting *)

Lemma select_single_none (table : Table) (id : Z) :
  select_single (filter (fun r => negb (ta_id r =? id)) table) id = None.
Proof.
  unfold select_single.
  destruct (find _ (filter _ table)) as [r|] eqn:E; [|reflexivity].
  apply find_some in E. destruct E as [Hin E].
  apply filter_In in Hin. destruct Hin as [_ Hne].
  rewrite E in Hne. discriminate.
Qed.

(** A delete by an admin or a manager removes every row with the key and no
    other row, and answers with the rows removed.  Afterwards no update of
    that key is written and none answers 404: a status or a progress that
    fails validation answers 400, and every other update ends in the
    [APIError] of the read that finds no row.  Any other role gets 403
    and nothing is removed. *)
Theorem delete_task_assignment_removes
    (table : Table) (role : string) (id : Z) :
  (may_manage role = false ->
   delete_task_assignment table role id = HTTPException 403) /\
  (may_manage role = true ->
   exists rows table',
     delete_task_assignment table role id = Ok rows table' /\
     (forall r, In r table' <-> In r table /\ ta_id r <> id) /\
     (forall r, In r rows <-> In r table /\ ta_id r = id) /\
     forall req now,
       handle table' id req now
       = if validated req then APIError else HTTPException 400).
Proof.
  unfold delete_task_assignment. split; intros Hrole; rewrite Hrole;
    cbn [negb]; [reflexivity|].
  eexists. eexists. split; [reflexivity|].
  pose proof (select_single_none table id) as Hnone.
  split; [|split].
  - intros r. rewrite filter_In, negb_true_iff, Z.eqb_neq. reflexivity.
  - intros r. unfold rows_eq_id. rewrite filter_In, Z.eqb_eq. reflexivity.
  - intros [body|st|pr] now; cbn [handle validated].
    + unfold update_task_assignment. rewrite Hnone. reflexivity.
    + unfold update_assignment_status.
      destruct (existsb (String.eqb st) valid_statuses); cbn [negb];
        [rewrite Hnone|]; reflexivity.
    + unfold update_assignment_progress.
      destruct ((0 <=? pr) && (pr <=? 100)); cbn [negb];
        [rewrite Hnone|]; reflexivity.
Qed.

Lemma delete_task_assignment_removes_witness :
  exists rows table',
    delete_task_assignment sample_table "admin" 1 = Ok rows table' /\
    (forall r, In r table' <-> In r sample_table /\ ta_id r <> 1) /\
    (forall r, In r rows <-> In r sample_table /\ ta_id r = 1) /\
    forall req now,
      handle table' 1 req now
      = if validated req then APIError else HTTPException 400.
Proof.
  apply (proj2 (delete_task_assignment_removes sample_table "admin" 1)).
  reflexivity.
Defined.

Example update_after_delete :
  update_assignment_status [todo_assignment] 1 "Completed" 3000 = APIError /\
  update_assignment_progress [todo_assignment] 1 150 3000 = HTTPException 400 /\
  update_task_assignment [todo_assignment] 1 stale_body 3000 = APIError.
Proof. repeat split. Qed.

(** **** A series of updates *)

Lemma handle_step (table : Table) (id : Z) (r : TaskAssignment)
    (req : request) (now : datetime) :
  select_single table id = Some r ->
  exists r1,
    select_single (state_after table (handle table id req now)) id = Some r1 /\
    ta_version r1 = ta_version r + (if well_formed req then 1 else 0) /\
    ta_created_at r1 = ta_created_at r /\
    (keeps_timestamps req = true ->
     (forall t, ta_completed_at r = Some t -> ta_completed_at r1 = Some t) /\
     (forall t, ta_started_at r = Some t -> ta_started_at r1 = Some t)).
Proof.
  intros Hsel.
  destruct req as [body|st|pr]; cbn [handle well_formed keeps_timestamps].
  - unfold update_task_assignment. rewrite Hsel.
    destruct (json_serializable body); cbn [negb state_after].
    + eexists. split; [apply (select_single_update _ _ _ r); auto|].
      cbn. split; [reflexivity|]. split; [reflexivity|discriminate].
    + exists r. rewrite Z.add_0_r. auto.
  - unfold update_assignment_status.
    destruct (existsb (String.eqb st) valid_statuses); cbn [negb].
    + rewrite Hsel. cbn [state_after].
      eexists. split; [apply (select_single_update _ _ _ r); auto|].
      cbn. split; [reflexivity|]. split; [reflexivity|]. intros _. split.
      * intros t Ht. rewrite Ht. cbn. rewrite !andb_false_r. reflexivity.
      * intros t Ht. rewrite Ht. cbn. rewrite andb_false_r. reflexivity.
    + cbn [state_after]. exists r. rewrite Z.add_0_r. auto.
  - unfold update_assignment_progress.
    destruct ((0 <=? pr) && (pr <=? 100)); cbn [negb].
    + rewrite Hsel. cbn [state_after].
      eexists. split; [apply (select_single_update _ _ _ r); auto|].
      cbn. auto.
    + cbn [state_after]. exists r. rewrite Z.add_0_r. auto.
Qed.

(** Over any series of updates of an existing assignment, the stored
    version goes up by exactly the number of requests that are written: the
    status and progress updates that pass validation and the full updates
    whose body can be encoded, whatever version they present.  No version
    is skipped, and the version decides about no request.  The row keeps
    its creation time, and as long as no full update is written, a
    [completed_at] or [started_at] that was set keeps its value. *)
Theorem replay_counts_versions
    (requests : list (request * datetime)) :
  forall (table : Table) (id : Z) (r : TaskAssignment),
    select_single table id = Some r ->
    exists r',
      select_single (replay table id requests) id = Some r' /\
      ta_version r'
      = ta_version r
        + Z.of_nat (List.length
                      (filter (fun q => well_formed (fst q)) requests)) /\
      ta_created_at r' = ta_created_at r /\
      (forallb (fun q => keeps_timestamps (fst q)) requests = true ->
       (forall t, ta_completed_at r = Some t -> ta_completed_at r' = Some t) /\
       (forall t, ta_started_at r = Some t -> ta_started_at r' = Some t)).
Proof.
  induction requests as [|[req now] rest IH]; intros table id r Hsel.
  - exists r. simpl. rewrite Z.add_0_r. auto.
  - destruct (handle_step table id r req now Hsel)
      as (r1 & Hsel1 & Hv1 & Hc1 & Ht1).
    destruct (IH _ id r1 Hsel1) as (r' & Hsel' & Hv' & Hc' & Ht').
    exists r'. cbn [replay]. split; [exact Hsel'|]. split; [|split].
    + rewrite Hv', Hv1. cbn [filter fst].
      destruct (well_formed req); cbn [List.length]; lia.
    + congruence.
    + cbn [forallb fst]. intros Hk. apply andb_true_iff in Hk.
      destruct Hk as [Hk1 Hk2].
      destruct (Ht1 Hk1) as [Hcompl1 Hstart1].
      destruct (Ht' Hk2) as [Hcompl' Hstart'].
      split; intros t Ht; auto.
Qed.

Lemma replay_counts_versions_witness :
  (exists r',
     select_single
       (replay sample_table 1
          [(SetStatus "Completed", 3000); (FullUpdate dated_body, 3050);
           (SetProgress 150, 3100); (SetStatus "In Progress", 3200);
           (SetProgress 40, 3300)]) 1
     = Some r' /\
     ta_version r' = 5 + 3 /\
     ta_created_at r' = 500 /\
     (true = true ->
      (forall t, Some 2000 = Some t -> ta_completed_at r' = Some t) /\
      (forall t, Some 1000 = Some t -> ta_started_at r' = Some t))) /\
  (exists r',
     select_single
       (replay sample_table 1
          [(FullUpdate stale_body, 3000); (FullUpdate dated_body, 3100);
           (SetStatus "Completed", 3200)]) 1
     = Some r' /\
     ta_version r' = 5 + 2 /\
     ta_created_at r' = 500 /\
     (false = true ->
      (forall t, Some 2000 = Some t -> ta_completed_at r' = Some t) /\
      (forall t, Some 1000 = Some t -> ta_started_at r' = Some t))).
Proof.
  split.
  - apply (replay_counts_versions
             [(SetStatus "Completed", 3000); (FullUpdate dated_body, 3050);
              (SetProgress 150, 3100); (SetStatus "In Progress", 3200);
              (SetProgress 40, 3300)]
             sample_table 1 completed_assignment).
    reflexivity.
  - apply (replay_counts_versions
             [(FullUpdate stale_body, 3000); (FullUpdate dated_body, 3100);
              (SetStatus "Completed", 3200)]
             sample_table 1 completed_assignment).
    reflexivity.
Defined.

(** A full update that is written clears the timestamps: after the stale
    full update of the completed assignment and a new [Completed], the
    completion time is the time of the last request, not the one stored
    before. *)
Example replay_full_update_clears :
  option_map ta_completed_at
    (select_single
       (replay sample_table 1
          [(FullUpdate stale_body, 3000); (SetStatus "Completed", 3200)]) 1)
  = Some (Some 3200).
Proof. reflexivity. Qed.

End AssignmentRequestsTheory.

(** * Bulk operations *)
Module TasksBulkTheory.
Import Assignments Tasks TasksBulk.

Lemma bulk_set_status_idempotent (s : StatusEnum) (now : datetime)
    (a : TaskAssignment) :
  bulk_set_status s now (bulk_set_status s now a) = bulk_set_status s now a.
Proof.
  unfold bulk_set_status. destruct s, (ta_started_at a); reflexivity.
Qed.

Lemma listed_cons_found (all_tasks : list Task) (h : Z) (rest : list Z)
    (task : Task) (t : Z) :
  find (fun x => t_id x =? h) all_tasks = Some task ->
  listed all_tasks (h :: rest) t = (t =? h) || listed all_tasks rest t.
Proof.
  intros Hfind. unfold listed. cbn [existsb].
  destruct (Z.eqb_spec t h) as [->|Hne]; [|reflexivity].
  rewrite Hfind. cbn. destruct (existsb (Z.eqb h) rest); reflexivity.
Qed.

Lemma listed_cons_missing (all_tasks : list Task) (h : Z) (rest : list Z)
    (t : Z) :
  find (fun x => t_id x =? h) all_tasks = None ->
  listed all_tasks (h :: rest) t = listed all_tasks rest t.
Proof.
  intros Hfind. unfold listed. cbn [existsb].
  destruct (Z.eqb_spec t h) as [->|Hne]; [|reflexivity].
  rewrite Hfind. cbn. rewrite !andb_false_r. reflexivity.
Qed.

Lemma find_task_id (all_tasks : list Task) (h : Z) (task : Task) :
  find (fun x => t_id x =? h) all_tasks = Some task -> t_id task = h.
Proof. intros H. apply find_some in H. apply Z.eqb_eq, H. Qed.

Lemma bulk_status_loop_spec (all_tasks : list Task) (s : StatusEnum)
    (now : datetime) (task_ids : list Z) :
  forall assignments found,
    bulk_status_loop all_tasks s now task_ids assignments found
    = (map (fun a => if listed all_tasks task_ids (ta_task_id a)
                     then bulk_set_status s now a else a) assignments,
       found ++ found_tasks all_tasks task_ids).
Proof.
  induction task_ids as [|h rest IH]; intros assignments found.
  - cbn. rewrite app_nil_r. f_equal.
    rewrite <- (map_id assignments) at 1. apply map_ext. intros a.
    reflexivity.
  - cbn [bulk_status_loop found_tasks flat_map].
    destruct (find (fun x => t_id x =? h) all_tasks) as [task|] eqn:Hfind.
    + rewrite IH, map_map, <- app_assoc. f_equal.
      apply map_ext. intros a.
      rewrite (listed_cons_found _ _ _ _ _ Hfind), (find_task_id _ _ _ Hfind).
      destruct (ta_task_id a =? h) eqn:E; cbn [orb]; [|reflexivity].
      change (ta_task_id (bulk_set_status s now a)) with (ta_task_id a).
      destruct (listed all_tasks rest (ta_task_id a)); [|reflexivity].
      apply bulk_set_status_idempotent.
    + rewrite IH. cbn [app]. f_equal. apply map_ext. intros a.
      rewrite (listed_cons_missing _ _ _ _ Hfind). reflexivity.
Qed.

(** The bulk status update writes the status into every assignment of
    every listed task that exists and skips the ids that name no task; it
    returns the tasks found.  It never changes the progress or the version
    of an assignment (the task-level update derives the progress, the bulk
    update does not), and assignments of other tasks are left as they
    are. *)
Theorem bulk_update_status_effect
    (db : Session) (update : BulkStatusUpdate) (now : datetime) :
  exists db',
    bulk_update_status db update now
    = Ok (found_tasks (tasks db) (bs_task_ids update)) db' /\
    tasks db' = tasks db /\
    Forall2
      (fun a a' =>
         ta_id a' = ta_id a /\
         ta_progress a' = ta_progress a /\
         ta_version a' = ta_version a /\
         (listed (tasks db) (bs_task_ids update) (ta_task_id a) = true ->
          ta_status a' = status_value (bs_status update)) /\
         (listed (tasks db) (bs_task_ids update) (ta_task_id a) = false ->
          a' = a))
      (task_assignments db) (task_assignments db').
Proof.
  unfold bulk_update_status. rewrite bulk_status_loop_spec. cbn [app].
  eexists. split; [reflexivity|]. split; [reflexivity|].
  cbn [task_assignments].
  induction (task_assignments db) as [|a l IH]; cbn [map]; constructor;
    [|exact IH].
  destruct (listed (tasks db) (bs_task_ids update) (ta_task_id a)); cbn.
  - repeat split; auto. discriminate.
  - repeat split; auto. discriminate.
Qed.

Example bulk_update_status_sample :
  option_map task_assignments
    (match bulk_update_status sample_session
             {| bs_task_ids := [99; 7; 7]; bs_status := COMPLETED |} 9000
     with Ok _ db' => Some db' | _ => None end)
  = Some
      [ {| ta_id := 1; ta_task_id := 7; ta_assigned_to := 12;
           ta_status := "Completed"; ta_progress := 100; ta_comments := None;
           ta_started_at := Some 1000; ta_completed_at := Some 9000;
           ta_version := 5; ta_created_at := 500; ta_updated_at := 9000 |};
        {| ta_id := 2; ta_task_id := 7; ta_assigned_to := 13;
           ta_status := "Completed"; ta_progress := 0; ta_comments := None;
           ta_started_at := None; ta_completed_at := Some 9000;
           ta_version := 1; ta_created_at := 500; ta_updated_at := 9000 |} ].
Proof. reflexivity. Qed.

(** **** Bulk reassignment *)

Lemma assignments_of_kept (t h : Z) (assignments : list TaskAssignment) :
  assignments_of t (filter (fun a => negb (ta_task_id a =? h)) assignments)
  = if t =? h then [] else assignments_of t assignments.
Proof.
  unfold assignments_of.
  induction assignments as [|a l IH]; cbn [filter].
  - destruct (t =? h); reflexivity.
  - destruct (Z.eqb_spec (ta_task_id a) h) as [Eh|Eh]; cbn [negb filter].
    + rewrite IH. destruct (Z.eqb_spec t h) as [Et|Et]; [reflexivity|].
      replace (ta_task_id a =? t) with false
        by (symmetry; apply Z.eqb_neq; congruence).
      reflexivity.
    + rewrite IH. destruct (Z.eqb_spec t h) as [Et|Et]; [|reflexivity].
      replace (ta_task_id a =? t) with false
        by (symmetry; apply Z.eqb_neq; congruence).
      reflexivity.
Qed.

Lemma bulk_assign_loop_spec (new_id : list TaskAssignment -> Z)
    (all_tasks : list Task) (user_id : Z) (now : datetime)
    (task_ids : list Z) :
  forall assignments found,
    snd (bulk_assign_loop new_id all_tasks user_id now task_ids
           assignments found)
    = found ++ found_tasks all_tasks task_ids /\
    forall t,
      (listed all_tasks task_ids t = true ->
       exists row,
         assignments_of t
           (fst (bulk_assign_loop new_id all_tasks user_id now task_ids
                   assignments found)) = [row] /\
         fresh_row user_id now t row) /\
      (listed all_tasks task_ids t = false ->
       assignments_of t
         (fst (bulk_assign_loop new_id all_tasks user_id now task_ids
                 assignments found))
       = assignments_of t assignments).
Proof.
  induction task_ids as [|h rest IH]; intros assignments found.
  - cbn. rewrite app_nil_r. split; [reflexivity|].
    intros t. split; [discriminate|reflexivity].
  - cbn [bulk_assign_loop found_tasks flat_map].
    destruct (find (fun x => t_id x =? h) all_tasks) as [task|] eqn:Hfind.
    + set (kept := filter (fun a => negb (ta_task_id a =? h)) assignments).
      set (row := {| ta_id := new_id kept; ta_task_id := h;
                     ta_assigned_to := user_id; ta_status := "To Do";
                     ta_progress := 0; ta_comments := None;
                     ta_started_at := None; ta_completed_at := None;
                     ta_version := 1; ta_created_at := now;
                     ta_updated_at := now |}).
      destruct (IH (kept ++ [row]) (found ++ [task])) as [Hfound Hrows].
      split; [rewrite Hfound, <- app_assoc; reflexivity|].
      intros t. rewrite (listed_cons_found _ _ _ _ _ Hfind).
      assert (Hstep : assignments_of t (kept ++ [row])
                      = if t =? h then [row] else assignments_of t assignments).
      { unfold assignments_of at 1. rewrite filter_app.
        fold (assignments_of t kept). unfold kept.
        rewrite assignments_of_kept.
        change (filter (fun a => ta_task_id a =? t) [row])
          with (if h =? t then [row] else []).
        rewrite (Z.eqb_sym h t).
        destruct (t =? h); [reflexivity|apply app_nil_r]. }
      destruct (Hrows t) as [Hlisted Hunlisted].
      destruct (listed all_tasks rest t) eqn:Hrest.
      * split; [|rewrite orb_true_r; discriminate].
        intros _. exact (Hlisted eq_refl).
      * rewrite orb_false_r. rewrite (Hunlisted eq_refl), Hstep.
        destruct (Z.eqb_spec t h) as [E|Hne]; split;
          try discriminate; try reflexivity.
        intros _. exists row. split; [reflexivity|].
        rewrite E. repeat split; reflexivity.
    + destruct (IH assignments found) as [Hfound Hrows].
      split; [exact Hfound|]. intros t.
      rewrite (listed_cons_missing _ _ _ _ Hfind). exact (Hrows t).
Qed.

(** The bulk reassignment replaces the assignment rows of every listed task
    that exists by one new row: afterwards such a task has exactly one
    assignment, of the target user, at [To Do] with progress 0 and version
    1 and no timestamps, whatever rows it had before.  The assignment rows
    of every other task are as before, and ids that name no task are
    skipped. *)
Theorem bulk_assign_tasks_effect
    (new_id : list TaskAssignment -> Z) (db : Session)
    (update : BulkAssignUpdate) (now : datetime) :
  exists db',
    bulk_assign_tasks new_id db update now
    = Ok (found_tasks (tasks db) (ba_task_ids update)) db' /\
    tasks db' = tasks db /\
    forall t,
      (listed (tasks db) (ba_task_ids update) t = true ->
       exists row,
         assignments_of t (task_assignments db') = [row] /\
         fresh_row (ba_user_id update) now t row) /\
      (listed (tasks db) (ba_task_ids update) t = false ->
       assignments_of t (task_assignments db')
       = assignments_of t (task_assignments db)).
Proof.
  unfold bulk_assign_tasks.
  destruct (bulk_assign_loop_spec new_id (tasks db) (ba_user_id update) now
              (ba_task_ids update) (task_assignments db) [])
    as [Hfound Hrows].
  destruct (bulk_assign_loop new_id (tasks db) (ba_user_id update) now
              (ba_task_ids update) (task_assignments db) [])
    as [assignments found].
  cbn [fst snd app] in *. subst found.
  eexists. split; [reflexivity|]. split; [reflexivity|]. exact Hrows.
Qed.

Example bulk_assign_tasks_sample :
  option_map task_assignments
    (match bulk_assign_tasks (fun rows => 10 + Z.of_nat (List.length rows))
             sample_session {| ba_task_ids := [7; 99]; ba_user_id := 20 |} 9000
     with Ok _ db' => Some db' | _ => None end)
  = Some
      [ {| ta_id := 10; ta_task_id := 7; ta_assigned_to := 20;
           ta_status := "To Do"; ta_progress := 0; ta_comments := None;
           ta_started_at := None; ta_completed_at := None;
           ta_version := 1; ta_created_at := 9000; ta_updated_at := 9000 |} ].
Proof. reflexivity. Qed.

End TasksBulkTheory.

(** * Ranges of the scores *)
Module ScoreBoundsTheory.
Import Assignments Tasks Analytics Performance AnalyticsTheory.
Local Open Scope Q_scope.

Lemma len_cons {A : Type} (a : A) (l : list A) : len (a :: l) == len l + 1.
Proof.
  unfold len. cbn [List.length]. rewrite Nat2Z.inj_succ.
  unfold Z.succ. rewrite inject_Z_plus. reflexivity.
Qed.

Lemma len_nonneg {A : Type} (l : list A) : 0 <= len l.
Proof.
  unfold len. change 0 with (inject_Z 0). rewrite <- Zle_Qle. lia.
Qed.

Lemma fold_sum_bounds (bound : Q) (numbers : list Q) :
  (forall x, In x numbers -> 0 <= x <= bound) ->
  forall acc,
    acc <= fold_left Qplus numbers acc <= acc + bound * len numbers.
Proof.
  induction numbers as [|x l IH]; intros Hb acc.
  - cbn [fold_left]. unfold len. cbn [List.length Z.of_nat].
    change (inject_Z 0) with 0. lra.
  - cbn [fold_left].
    destruct (Hb x (or_introl eq_refl)) as [Hx0 Hxb].
    destruct (IH (fun y Hy => Hb y (or_intror Hy)) (acc + x)) as [Hlo Hhi].
    rewrite len_cons. split; [lra|].
    rewrite Qmult_plus_distr_r. lra.
Qed.

Lemma mean_bounds (bound : Q) (numbers : list Q) :
  numbers <> [] ->
  (forall x, In x numbers -> 0 <= x <= bound) ->
  0 <= mean numbers <= bound.
Proof.
  intros Hne Hb. unfold mean, sum.
  destruct (fold_sum_bounds bound numbers Hb 0) as [Hlo Hhi].
  assert (Hlen : 0 < len numbers).
  { destruct numbers as [|x l]; [contradiction|].
    rewrite len_cons. pose proof (len_nonneg l). lra. }
  split.
  - apply Qle_shift_div_l; [exact Hlen|lra].
  - apply Qle_shift_div_r; [exact Hlen|lra].
Qed.

Lemma guarded_efficiency_bounds (a : Assignment) :
  0 <= guarded_efficiency a <= 2.
Proof.
  unfold guarded_efficiency. split.
  - apply Q.min_glb; [|discriminate].
    destruct (positive_number (actual_duration a)) eqn:E; [|discriminate].
    apply positive_number_spec in E.
    apply Qle_shift_div_l; [exact E|]. rewrite Qmult_0_l. discriminate.
  - apply Q.le_min_r.
Qed.

Lemma weighted_bounds (a : Assignment) :
  0 <= guarded_efficiency a
       * inject_Z (priority_weights (t_priority (task a))) <= 8.
Proof.
  pose proof (guarded_efficiency_bounds a) as [Hlo Hhi].
  destruct (t_priority (task a)); cbn [priority_weights];
    unfold inject_Z; lra.
Qed.

(** The efficiency score of any list of assignments lies between 0 and
    200: the guard on the duration keeps every efficiency in [0, 2], the
    weights are at most 4, and the mean is scaled by 25. *)
Theorem calculate_efficiency_score_range (assignments : list Assignment) :
  0 <= calculate_efficiency_score assignments <= 200.
Proof.
  rewrite calculate_efficiency_score_eq. unfold guarded_efficiency_score.
  destruct (filter qualifies assignments) as [|a q] eqn:E;
    [split; discriminate|].
  destruct (mean_bounds 8
              (map (fun a => guarded_efficiency a
                              * inject_Z (priority_weights (t_priority (task a))))
                   (a :: q))) as [Hlo Hhi].
  - discriminate.
  - intros x Hx. apply in_map_iff in Hx. destruct Hx as (b & <- & _).
    apply weighted_bounds.
  - split; lra.
Qed.

(** **** Workload *)

Lemma calculate_workload_score_bounds (active_tasks weighted_load : Z) :
  (0 <= weighted_load)%Z ->
  0 <= calculate_workload_score active_tasks weighted_load <= 200.
Proof.
  intros Hw. unfold calculate_workload_score.
  set (factor := Qmin _ 2).
  assert (Hf : 0 <= factor <= 2).
  { unfold factor. split; [|apply Q.le_min_r].
    apply Q.min_glb; [|discriminate].
    destruct (Z.gtb_spec active_tasks 0) as [Ha|Ha]; [|discriminate].
    apply Qle_shift_div_l.
    - change 0 with (inject_Z 0). rewrite <- Zlt_Qlt. lia.
    - rewrite Qmult_0_l. change 0 with (inject_Z 0). rewrite <- Zle_Qle.
      exact Hw. }
  destruct (Z.gtb_spec active_tasks 0) as [Ha|Ha].
  - assert (Hb : 0 <= inject_Z (Z.min (active_tasks * 10) 100) <= 100).
    { split.
      - change 0 with (inject_Z 0). rewrite <- Zle_Qle. lia.
      - change 100 with (inject_Z 100). rewrite <- Zle_Qle. lia. }
    split.
    + apply Qmult_le_0_compat; tauto.
    + apply Qle_trans with (100 * factor).
      * apply Qmult_le_compat_r; tauto.
      * lra.
  - assert (Hfac : factor == 0) by (unfold factor; reflexivity).
    rewrite Hfac, Qmult_0_r. split; discriminate.
Qed.

(** The workload score of any number of active tasks and any non-negative
    weighted load lies between 0 and 200; it is 0 when there is no active
    task (the division is guarded), and it is 200 from 10 active tasks on
    when the load is at least twice their number. *)
Theorem calculate_workload_score_range (active_tasks weighted_load : Z) :
  (0 <= weighted_load)%Z ->
  0 <= calculate_workload_score active_tasks weighted_load <= 200 /\
  ((active_tasks <= 0)%Z ->
   calculate_workload_score active_tasks weighted_load == 0) /\
  ((10 <= active_tasks)%Z -> (2 * active_tasks <= weighted_load)%Z ->
   calculate_workload_score active_tasks weighted_load == 200).
Proof.
  intros Hw. split; [exact (calculate_workload_score_bounds _ _ Hw)|]. split.
  - intros Ha. unfold calculate_workload_score.
    destruct (Z.gtb_spec active_tasks 0) as [Hpos|_]; [lia|].
    assert (Hf : Qmin 0 2 == 0) by reflexivity.
    rewrite Hf. apply Qmult_0_r.
  - intros Ha Hload. unfold calculate_workload_score.
    replace (active_tasks >? 0)%Z with true by (symmetry; apply Z.gtb_lt; lia).
    replace (Z.min (active_tasks * 10) 100) with 100%Z by lia.
    assert (Hf : Qmin (inject_Z weighted_load / inject_Z active_tasks) 2 == 2).
    { apply Q.min_r. apply Qle_shift_div_l.
      - change 0 with (inject_Z 0). rewrite <- Zlt_Qlt. lia.
      - change 2 with (inject_Z 2). rewrite <- inject_Z_mult, <- Zle_Qle.
        lia. }
    rewrite Hf. reflexivity.
Qed.

Lemma calculate_workload_score_range_witness :
  0 <= calculate_workload_score 3 5 <= 200.
Proof.
  assert (H : (0 <= 5)%Z) by lia.
  exact (proj1 (calculate_workload_score_range 3 5 H)).
Defined.

(** **** Rates of [get_performance_metrics] *)

Lemma filter_length_le {A : Type} (p : A -> bool) (l : list A) :
  (List.length (filter p l) <= List.length l)%nat.
Proof.
  induction l as [|a l IH]; cbn [filter List.length]; [lia|].
  destruct (p a); cbn [List.length]; lia.
Qed.

Lemma filter_length_implies {A : Type} (p q : A -> bool) (l : list A) :
  (forall a, p a = true -> q a = true) ->
  (List.length (filter p l) <= List.length (filter q l))%nat.
Proof.
  intros Hpq. induction l as [|a l IH]; cbn [filter]; [lia|].
  destruct (p a) eqn:Hp.
  - rewrite (Hpq a Hp). cbn [List.length]. lia.
  - destruct (q a); cbn [List.length]; lia.
Qed.

Lemma rate_bounds (part whole : Z) :
  (0 <= part <= whole)%Z ->
  0 <= (if (whole >? 0)%Z then inject_Z part / inject_Z whole * 100 else 0)
    <= 100.
Proof.
  intros Hp. destruct (Z.gtb_spec whole 0) as [Hw|Hw]; [|split; discriminate].
  destruct whole as [|w|w]; try lia.
  unfold Qle, Qdiv, Qmult, Qinv, inject_Z. simpl. nia.
Qed.

(** The counts of [get_performance_metrics] are nested (on time within
    completed within total), and both rates lie between 0 and 100 and
    are 0 instead of a division by zero. *)
Theorem performance_metrics_ranges (assignments : list Assignment) :
  (0 <= on_time_tasks (performance_metrics assignments)
   <= completed_tasks (performance_metrics assignments))%Z /\
  (completed_tasks (performance_metrics assignments)
   <= total_tasks (performance_metrics assignments))%Z /\
  0 <= completion_rate (performance_metrics assignments) <= 100 /\
  0 <= on_time_completion_rate (performance_metrics assignments) <= 100 /\
  (assignments = [] ->
   completion_rate (performance_metrics assignments) = 0 /\
   on_time_completion_rate (performance_metrics assignments) = 0).
Proof.
  unfold performance_metrics.
  cbn [total_tasks completed_tasks on_time_tasks completion_rate
       on_time_completion_rate efficiency_score].
  assert (H1 : (0 <= count is_on_time assignments
                <= count is_completed assignments)%Z).
  { unfold count. split; [lia|]. apply Nat2Z.inj_le.
    apply filter_length_implies. intros a Ha. unfold is_on_time in Ha.
    apply andb_true_iff in Ha. tauto. }
  assert (H2 : (0 <= count is_completed assignments
                <= Z.of_nat (List.length assignments))%Z).
  { unfold count. split; [lia|]. apply Nat2Z.inj_le. apply filter_length_le. }
  split; [exact H1|]. split; [apply H2|].
  split; [apply rate_bounds; exact H2|].
  split; [apply rate_bounds; exact H1|].
  intros ->. split; reflexivity.
Qed.

End ScoreBoundsTheory.

(** * The change of two completion rates *)
Module RateChangeTheory.
Import DepartmentStats RateChange.

Lemma rates_spec (z : Z) : 0 <= z <= 100 -> In z rates.
Proof.
  intros Hz. unfold rates. apply in_map_iff. exists (Z.to_nat z). split.
  - apply Z2Nat.id. lia.
  - apply in_seq. lia.
Qed.

Lemma rates_checked :
  forallb (fun current =>
             forallb (fun previous =>
                        (previous =? 0) || change_within_one current previous)
                     rates)
          rates = true.
Proof. vm_compute. reflexivity. Qed.

(** No change from a non-zero level is 0, for every integer. *)
Theorem calc_change_unchanged (level : Z) :
  level <> 0 -> calc_change level level = Some 0.
Proof.
  intros H. unfold calc_change, percent_change, truediv.
  apply Z.eqb_neq in H. rewrite H, Z.sub_diag.
  destruct level as [|p|p]; [discriminate| |]; reflexivity.
Qed.

Lemma calc_change_unchanged_witness : calc_change 40 40 = Some 0.
Proof. apply (calc_change_unchanged 40). discriminate. Defined.

(** On completion rates (integers from 0 to 100, the previous one not 0)
    the helper always has a result; it is not below -100, has the sign of
    the exact change, and the rounding of the two float operations costs at
    most one: its magnitude is the magnitude of the exact truncated change
    or one less. *)
Theorem calc_change_on_rates (current previous : Z) :
  0 <= current <= 100 ->
  1 <= previous <= 100 ->
  exists r,
    calc_change current previous = Some r /\
    -100 <= r /\
    0 <= r * exact_change current previous /\
    Z.abs (exact_change current previous) - 1 <= Z.abs r
    <= Z.abs (exact_change current previous).
Proof.
  intros Hc Hp. pose proof rates_checked as H.
  rewrite forallb_forall in H. specialize (H current (rates_spec _ Hc)).
  rewrite forallb_forall in H.
  assert (Hp' : 0 <= previous <= 100) by lia.
  specialize (H previous (rates_spec _ Hp')).
  replace (previous =? 0) with false in H
    by (symmetry; apply Z.eqb_neq; lia).
  cbn [orb] in H. unfold change_within_one in H.
  destruct (calc_change current previous) as [r|]; [|discriminate].
  exists r. rewrite !andb_true_iff, !Z.leb_le in H. split; [reflexivity|].
  lia.
Qed.

Lemma calc_change_on_rates_witness :
  exists r,
    calc_change 21 50 = Some r /\
    -100 <= r /\
    0 <= r * exact_change 21 50 /\
    Z.abs (exact_change 21 50) - 1 <= Z.abs r <= Z.abs (exact_change 21 50).
Proof. apply (calc_change_on_rates 21 50); lia. Defined.

Example calc_change_rate_sample :
  calc_change 21 50 = Some (-57) /\ exact_change 21 50 = -58.
Proof. split; vm_compute; reflexivity. Qed.

End RateChangeTheory.

(** * Task dependencies *)
Module TaskDependenciesTheory.
Import TaskDependencies.

Lemma no_same_edge (table : Table) (a b : Z) :
  filter (same_edge a b) table = [] -> ~ In (a, b) (map edge table).
Proof.
  intros Hnone Hin. apply in_map_iff in Hin. destruct Hin as (d & Hd & Hin).
  assert (Hf : In d (filter (same_edge a b) table)).
  { apply filter_In. split; [exact Hin|].
    unfold edge in Hd. injection Hd as <- <-.
    unfold same_edge. rewrite !Z.eqb_refl. reflexivity. }
  rewrite Hnone in Hf. exact Hf.
Qed.

Lemma same_edge_found (table : Table) (a b : Z) :
  filter (same_edge a b) table <> [] <-> depends table a b.
Proof.
  unfold depends. split.
  - destruct (filter (same_edge a b) table) as [|d l] eqn:E; [congruence|].
    intros _. assert (Hd : In d (filter (same_edge a b) table))
      by (rewrite E; left; reflexivity).
    apply filter_In in Hd. destruct Hd as [Hin Hd].
    unfold same_edge in Hd. apply andb_true_iff in Hd.
    rewrite !Z.eqb_eq in Hd. exists d. tauto.
  - intros (d & Hin & <- & <-) Hnone.
    assert (Hd : In d (filter (same_edge (d_task_id d) (d_depends_on d)) table)).
    { apply filter_In. split; [exact Hin|].
      unfold same_edge. rewrite !Z.eqb_refl. reflexivity. }
    rewrite Hnone in Hd. exact Hd.
Qed.

(** What [create_task_dependency] answers is decided by the role, by
    whether the two tasks are the same, and by whether the very edge is
    stored: 403, else 400 for a self-dependency or a stored edge, else the
    edge is appended.  Nothing else of the stored graph is looked at. *)
Theorem create_task_dependency_decided
    (table : Table) (role : string) (dependency : DependencyBase)
    (new_id : Z) (now : datetime) :
  (may_manage role = false ->
   create_task_dependency table role dependency new_id now
   = HTTPException 403) /\
  (may_manage role = true ->
   (db_task_id dependency = db_depends_on dependency \/
    depends table (db_task_id dependency) (db_depends_on dependency)) ->
   create_task_dependency table role dependency new_id now
   = HTTPException 400) /\
  (may_manage role = true ->
   db_task_id dependency <> db_depends_on dependency ->
   ~ depends table (db_task_id dependency) (db_depends_on dependency) ->
   exists inserted,
     create_task_dependency table role dependency new_id now
     = Ok [inserted] (table ++ [inserted]) /\
     d_id inserted = new_id /\
     edge inserted = (db_task_id dependency, db_depends_on dependency)).
Proof.
  unfold create_task_dependency. split; [|split]; intros Hrole; rewrite Hrole;
    cbn [negb]; [reflexivity| |].
  - intros [Hself|Hdup].
    + apply Z.eqb_eq in Hself. rewrite Hself. reflexivity.
    + destruct (_ =? _); [reflexivity|].
      apply same_edge_found in Hdup.
      destruct (filter _ table); [contradiction|reflexivity].
  - intros Hself Hnew. apply Z.eqb_neq in Hself. rewrite Hself.
    destruct (filter _ table) as [|d l] eqn:E.
    + eexists. split; [reflexivity|]. split; reflexivity.
    + exfalso. apply Hnew. apply same_edge_found. rewrite E. discriminate.
Qed.

Lemma create_task_dependency_decided_witness :
  create_task_dependency [] "personnel" (requires 1 2) 1 100
  = HTTPException 403 /\
  create_task_dependency [] "admin" (requires 1 1) 1 100 = HTTPException 400 /\
  exists inserted,
    create_task_dependency [] "admin" (requires 1 2) 1 100
    = Ok [inserted] ([] ++ [inserted]) /\
    d_id inserted = 1 /\
    edge inserted = (1, 2).
Proof.
  destruct (create_task_dependency_decided [] "personnel" (requires 1 2) 1 100)
    as (H403 & _ & _).
  destruct (create_task_dependency_decided [] "admin" (requires 1 1) 1 100)
    as (_ & H400 & _).
  destruct (create_task_dependency_decided [] "admin" (requires 1 2) 1 100)
    as (_ & _ & Hok).
  split; [apply H403; reflexivity|].
  split; [apply H400; [reflexivity|left; reflexivity]|].
  apply Hok; [reflexivity|discriminate|].
  intros (d & [] & _).
Defined.

(** Creating dependencies keeps the two invariants of the table: no task
    depends on itself and no ordered pair is stored twice. *)
Theorem create_task_dependency_keeps_invariants
    (table table' : Table) (role : string) (dependency : DependencyBase)
    (new_id : Z) (now : datetime) (rows : list Dependency) :
  no_self_edge table ->
  edges_unique table ->
  create_task_dependency table role dependency new_id now = Ok rows table' ->
  no_self_edge table' /\ edges_unique table'.
Proof.
  intros Hself Hu H. unfold create_task_dependency in H.
  destruct (may_manage role); cbn [negb] in H; [|discriminate].
  destruct (Z.eqb_spec (db_task_id dependency) (db_depends_on dependency))
    as [E|E]; [discriminate|].
  destruct (filter _ table) as [|x l] eqn:Hnone; [|discriminate].
  injection H as <- <-. split.
  - intros d Hd. apply in_app_iff in Hd. destruct Hd as [Hd|[<-|[]]].
    + exact (Hself d Hd).
    + exact E.
  - unfold edges_unique. rewrite map_app. apply NoDup_app.
    + exact Hu.
    + constructor; [intros []|constructor].
    + intros pr Hin [<-|[]]. exact (no_same_edge _ _ _ Hnone Hin).
Qed.

Lemma create_task_dependency_keeps_invariants_witness :
  no_self_edge
    (state_after [] (create_task_dependency [] "admin" (requires 1 2) 1 100)) /\
  edges_unique
    (state_after [] (create_task_dependency [] "admin" (requires 1 2) 1 100)).
Proof.
  eapply (create_task_dependency_keeps_invariants [] _ "admin" (requires 1 2)
            1 100).
  - intros d [].
  - constructor.
  - reflexivity.
Defined.

Lemma depends_transitively_app (table more : Table) (x y : Z) :
  depends_transitively table x y -> depends_transitively (table ++ more) x y.
Proof.
  induction 1 as [x y (d & Hd & Hx & Hy)|x y z _ IH1 _ IH2].
  - apply t_step. exists d. split; [|auto]. apply in_app_iff. auto.
  - exact (t_trans _ _ _ _ _ IH1 IH2).
Qed.

(** Cycles are not looked for: if task [a] already depends on task [b]
    through any chain of edges, an admin can still make [b] depend on [a],
    as long as that very edge is not stored; afterwards each of the two
    tasks depends transitively on itself. *)
Theorem create_task_dependency_accepts_cycle
    (table : Table) (role : string) (a b : Z) (kind : string)
    (new_id : Z) (now : datetime) :
  may_manage role = true ->
  a <> b ->
  depends_transitively table a b ->
  ~ depends table b a ->
  exists rows table',
    create_task_dependency table role
      {| db_task_id := b; db_depends_on := a; db_dependency_type := kind |}
      new_id now = Ok rows table' /\
    depends_transitively table' a a /\
    depends_transitively table' b b.
Proof.
  intros Hrole Hne Hab Hnew. unfold create_task_dependency.
  rewrite Hrole. cbn [negb db_task_id db_depends_on db_dependency_type].
  replace (b =? a) with false by (symmetry; apply Z.eqb_neq; congruence).
  destruct (filter (same_edge b a) table) as [|d l] eqn:E.
  - eexists. eexists. split; [reflexivity|].
    set (inserted := {| d_id := new_id; d_task_id := b; d_depends_on := a;
                        d_dependency_type := kind; d_created_at := now |}).
    assert (Hba : depends_transitively (table ++ [inserted]) b a).
    { apply t_step. exists inserted. split; [|auto].
      apply in_app_iff. right. left. reflexivity. }
    assert (Hab' : depends_transitively (table ++ [inserted]) a b).
    { apply depends_transitively_app. exact Hab. }
    split.
    + exact (t_trans _ _ _ _ _ Hab' Hba).
    + exact (t_trans _ _ _ _ _ Hba Hab').
  - exfalso. apply Hnew. apply same_edge_found. rewrite E. discriminate.
Qed.

Lemma create_task_dependency_accepts_cycle_witness :
  exists rows table',
    create_task_dependency
      [ {| d_id := 1; d_task_id := 1; d_depends_on := 2;
           d_dependency_type := "requires"; d_created_at := 100 |};
        {| d_id := 2; d_task_id := 2; d_depends_on := 3;
           d_dependency_type := "requires"; d_created_at := 100 |} ]
      "manager"
      {| db_task_id := 3; db_depends_on := 1; db_dependency_type := "blocks" |}
      3 200 = Ok rows table' /\
    depends_transitively table' 1 1 /\
    depends_transitively table' 3 3.
Proof.
  apply (create_task_dependency_accepts_cycle _ "manager" 1 3 "blocks" 3 200).
  - reflexivity.
  - discriminate.
  - apply t_trans with 2; apply t_step; eexists; (split; [|split]);
      [left; reflexivity|reflexivity|reflexivity
      |right; left; reflexivity|reflexivity|reflexivity].
  - intros (d & [<-|[<-|[]]] & H1 & H2); discriminate.
Defined.

(** Updating a dependency keeps the keys and never stores a
    self-dependency, but it does not look for the edge among the other
    rows: naming the edge of another row is accepted and leaves the pair
    stored twice.  A key that names no row answers 404. *)
Theorem update_task_dependency_effect
    (table : Table) (role : string) (id : Z) (dependency : DependencyBase) :
  may_manage role = true ->
  db_task_id dependency <> db_depends_on dependency ->
  no_self_edge table ->
  ((forall d, In d table -> d_id d <> id) ->
   update_task_dependency table role id dependency = HTTPException 404) /\
  ((exists d, In d table /\ d_id d = id) ->
   exists rows table',
     update_task_dependency table role id dependency = Ok rows table' /\
     map d_id table' = map d_id table /\
     no_self_edge table' /\
     (forall other,
        In other table -> d_id other <> id ->
        edge other = (db_task_id dependency, db_depends_on dependency) ->
        ~ edges_unique table')).
Proof.
  intros Hrole Hne Hself. unfold update_task_dependency. rewrite Hrole.
  cbn [negb]. apply Z.eqb_neq in Hne. rewrite Hne. apply Z.eqb_neq in Hne.
  split.
  - intros Hmissing.
    destruct (filter (fun d => d_id d =? id) table) as [|d l] eqn:E;
      [reflexivity|].
    assert (Hd : In d (filter (fun d => d_id d =? id) table))
      by (rewrite E; left; reflexivity).
    apply filter_In in Hd. destruct Hd as [Hin Hd]. apply Z.eqb_eq in Hd.
    exfalso. exact (Hmissing d Hin Hd).
  - intros (d0 & Hin0 & Hid0).
    destruct (filter (fun d => d_id d =? id) table) as [|d l] eqn:E.
    + assert (Hd : In d0 (filter (fun d => d_id d =? id) table)).
      { apply filter_In. split; [exact Hin0|]. apply Z.eqb_eq. exact Hid0. }
      rewrite E in Hd. contradiction.
    + eexists. eexists. split; [reflexivity|]. split; [|split].
      * rewrite map_map. apply map_ext. intros x.
        destruct (d_id x =? id); reflexivity.
      * intros x Hx. apply in_map_iff in Hx. destruct Hx as (y & <- & Hy).
        destruct (d_id y =? id); [exact Hne|exact (Hself y Hy)].
      * intros other Hother Hoid Hedge Hnd.
        unfold edges_unique in Hnd. rewrite map_map in Hnd.
        apply Hoid. rewrite <- Hid0. f_equal.
        apply Z.eqb_neq in Hoid.
        assert (Hinj : forall (l0 : Table) (h : Dependency -> Z * Z) x y,
                  NoDup (map h l0) -> In x l0 -> In y l0 -> h x = h y -> x = y).
        { induction l0 as [|z l0 IH]; cbn [map In]; [contradiction|].
          intros h x y Hn. inversion Hn as [|? ? Hnotin Hn']; subst.
          intros [->|Hx] [->|Hy] Heq; auto.
          - exfalso. apply Hnotin. rewrite Heq. apply in_map. exact Hy.
          - exfalso. apply Hnotin. rewrite <- Heq. apply in_map. exact Hx.
          - eapply IH; eauto. }
        apply (Hinj _ _ other d0 Hnd Hother Hin0).
        rewrite Hoid, Hid0, Z.eqb_refl. rewrite Hedge. reflexivity.
Qed.

Lemma update_task_dependency_effect_witness :
  exists rows table',
    update_task_dependency
      [ {| d_id := 1; d_task_id := 1; d_depends_on := 2;
           d_dependency_type := "requires"; d_created_at := 100 |};
        {| d_id := 2; d_task_id := 2; d_depends_on := 3;
           d_dependency_type := "requires"; d_created_at := 100 |} ]
      "admin" 2 (requires 1 2) = Ok rows table' /\
    map d_id table' = [1; 2] /\
    ~ edges_unique table'.
Proof.
  destruct (update_task_dependency_effect
              [ {| d_id := 1; d_task_id := 1; d_depends_on := 2;
                   d_dependency_type := "requires"; d_created_at := 100 |};
                {| d_id := 2; d_task_id := 2; d_depends_on := 3;
                   d_dependency_type := "requires"; d_created_at := 100 |} ]
              "admin" 2 (requires 1 2)) as [_ Hfound].
  - reflexivity.
  - discriminate.
  - intros d [<-|[<-|[]]]; discriminate.
  - destruct Hfound as (rows & table' & Hok & Hids & _ & Hdup).
    + eexists. split; [right; left; reflexivity|reflexivity].
    + exists rows, table'. split; [exact Hok|]. split; [exact Hids|].
      apply (Hdup {| d_id := 1; d_task_id := 1; d_depends_on := 2;
                     d_dependency_type := "requires"; d_created_at := 100 |}).
      * left. reflexivity.
      * discriminate.
      * reflexivity.
Defined.

End TaskDependenciesTheory.

(** * The task-level status update as a whole *)
Module TaskStatusTheory.
Import Assignments Tasks.

Lemma filter_map_same {A : Type} (p : A -> bool) (f : A -> A) (l : list A) :
  (forall a, p (f a) = p a) ->
  filter p (map (fun a => if p a then f a else a) l)
  = map f (filter p l).
Proof.
  intros Hp. induction l as [|a l IH]; cbn [map filter]; [reflexivity|].
  destruct (p a) eqn:E.
  - rewrite Hp, E. cbn [map]. rewrite IH. reflexivity.
  - rewrite E. exact IH.
Qed.

(** [update_task_status] on a stored task raises the version of the task by
    one exactly when the status is [Completed], leaves every other task as
    it is, and adds one notification for each assignment of the task,
    addressed to its assignee, after the notifications already stored.  On
    a task id that names no task it answers 404. *)
Theorem update_task_status_effect
    (db : Session) (task_id : Z) (status_update : TaskStatusUpdate)
    (now : datetime) :
  (find (fun t => t_id t =? task_id) (tasks db) = None ->
   update_task_status db task_id status_update now = HTTPException 404) /\
  (forall task,
     find (fun t => t_id t =? task_id) (tasks db) = Some task ->
     exists task' db',
       update_task_status db task_id status_update now = Ok task' db' /\
       t_id task' = task_id /\
       t_version task'
       = t_version task
         + (match status status_update with COMPLETED => 1 | _ => 0 end) /\
       Forall2 (fun t t' => if t_id t =? task_id then t' = task' else t' = t)
               (tasks db) (tasks db') /\
       exists created,
         notifications db' = notifications db ++ created /\
         map n_user_id created
         = map ta_assigned_to
               (filter (fun a => ta_task_id a =? task_id) (task_assignments db)) /\
         Forall (fun n => n_task_id n = task_id) created).
Proof.
  unfold update_task_status. split.
  - intros ->. reflexivity.
  - intros task Hfind. rewrite Hfind.
    assert (Hid : t_id task = task_id).
    { apply find_some in Hfind. apply Z.eqb_eq, Hfind. }
    rewrite Hid. eexists. eexists. split; [reflexivity|].
    split; [destruct (status status_update); first [exact Hid|reflexivity]|].
    split; [destruct (status status_update); cbn [t_version]; lia|].
    split.
    + cbn [tasks]. clear Hfind.
      induction (tasks db) as [|t l IH]; cbn [map]; constructor; [|exact IH].
      destruct (t_id t =? task_id); reflexivity.
    + cbn [notifications task_assignments]. eexists. split; [reflexivity|].
      split.
      * rewrite (filter_map_same (fun a => ta_task_id a =? task_id)) by reflexivity.
        rewrite !map_map. reflexivity.
      * apply Forall_forall. intros n Hn. apply in_map_iff in Hn.
        destruct Hn as (a & <- & _). reflexivity.
Qed.

Lemma update_task_status_effect_witness :
  exists task' db',
    update_task_status sample_session 7 {| status := COMPLETED |} 9000
    = Ok task' db' /\
    t_id task' = 7 /\
    t_version task' = t_version sample_task + 1 /\
    Forall2 (fun t t' => if t_id t =? 7 then t' = task' else t' = t)
            (tasks sample_session) (tasks db') /\
    exists created,
      notifications db' = notifications sample_session ++ created /\
      map n_user_id created
      = map ta_assigned_to
            (filter (fun a => ta_task_id a =? 7)
                    (task_assignments sample_session)) /\
      Forall (fun n => n_task_id n = 7) created.
Proof.
  apply (proj2 (update_task_status_effect sample_session 7
                  {| status := COMPLETED |} 9000) sample_task).
  reflexivity.
Defined.

End TaskStatusTheory.
